(** * The settlement engine of the used-vehicle dashboard

    A shallow embedding of the helper functions, the ledger classifier, the
    monthly aggregator, the candidate lists and the loader of
    [src/dashboard_g.py], and the properties its specification states.

    Conventions of the embedding.

    - A Python [str] is the list of its Unicode code points.  Literals are
      written as UTF-8 text and decoded by [u].
    - [str.lower] is modelled on the ASCII letters where the program
      lower-cases its own keywords, Hangul syllables and digits, which have
      no case.  In the search boxes, where both texts are the user's, it is
      a parameter.
    - A cell of a pandas frame is a [value]: the missing value, an integer,
      a string, or any other object, which is carried by the text [str()]
      prints for it (floats, timestamps, dates).
    - Amounts are unbounded integers, as Python's [int]; the 64-bit
      containers of pandas and the rounding of its floats are not modelled.
    - A call that may raise returns an option, [None] standing for the
      exception: [KeyError] for a missing column, the error of
      [astype(int)] on [NaN].
    - [pd.to_datetime] is a parameter of the development. *)

From Stdlib Require Import ZArith NArith List Bool String Ascii Lia.
From Stdlib Require Import Sorting.Sorted Sorting.Permutation Sorting.Mergesort.
From Stdlib Require Import Structures.Orders DecimalZ DecimalPos.
Import ListNotations.

(** ** Python strings *)

Module PyStr.

Definition str := list N.

Fixpoint utf8_decode (bs : list N) : str :=
  match bs with
  | [] => []
  | b0 :: r0 =>
    if (b0 <? 0x80)%N then b0 :: utf8_decode r0
    else
      match r0 with
      | [] => []
      | b1 :: r1 =>
        if (b0 <? 0xE0)%N then
          N.lor (N.shiftl (N.land b0 0x1F) 6) (N.land b1 0x3F) :: utf8_decode r1
        else
          match r1 with
          | [] => []
          | b2 :: r2 =>
            if (b0 <? 0xF0)%N then
              N.lor (N.shiftl (N.land b0 0x0F) 12)
                (N.lor (N.shiftl (N.land b1 0x3F) 6) (N.land b2 0x3F))
              :: utf8_decode r2
            else
              match r2 with
              | [] => []
              | b3 :: r3 =>
                N.lor (N.shiftl (N.land b0 0x07) 18)
                  (N.lor (N.shiftl (N.land b1 0x3F) 12)
                     (N.lor (N.shiftl (N.land b2 0x3F) 6) (N.land b3 0x3F)))
                :: utf8_decode r3
              end
          end
      end
  end.

(** The code points of a literal of the source. *)
Definition u (s : string) : str :=
  utf8_decode (map N_of_ascii (list_ascii_of_string s)).
Arguments u s%_string : simpl never.

Definition str_eqb (a b : str) : bool :=
  if list_eq_dec N.eq_dec a b then true else false.

(** [s.startswith(p)] *)
Fixpoint starts_with (p s : str) : bool :=
  match p, s with
  | [], _ => true
  | _ :: _, [] => false
  | a :: p', b :: s' => (a =? b)%N && starts_with p' s'
  end.

(** [kw in s] *)
Fixpoint contains (kw s : str) : bool :=
  starts_with kw s ||
  match s with
  | [] => false
  | _ :: s' => contains kw s'
  end.

Definition lower_cp (c : N) : N :=
  if ((0x41 <=? c) && (c <=? 0x5A))%N then (c + 0x20)%N else c.

(** [s.lower()] *)
Definition lower (s : str) : str := map lower_cp s.

(** The code points for which [str.isspace] holds. *)
Definition isspace (c : N) : bool :=
  ((0x09 <=? c) && (c <=? 0x0D) || (0x1C <=? c) && (c <=? 0x20)
   || (c =? 0x85) || (c =? 0xA0) || (c =? 0x1680)
   || (0x2000 <=? c) && (c <=? 0x200A)
   || (c =? 0x2028) || (c =? 0x2029) || (c =? 0x202F) || (c =? 0x205F)
   || (c =? 0x3000))%N.

Fixpoint lstrip (s : str) : str :=
  match s with
  | [] => []
  | c :: r => if isspace c then lstrip r else s
  end.

Definition rstrip (s : str) : str := rev (lstrip (rev s)).

(** [s.strip()] *)
Definition strip (s : str) : str := rstrip (lstrip s).

(** Comparison of strings, code point by code point: [a <= b]. *)
Fixpoint str_leb (a b : str) : bool :=
  match a, b with
  | [], _ => true
  | _ :: _, [] => false
  | x :: a', y :: b' =>
    if (x <? y)%N then true else if (y <? x)%N then false else str_leb a' b'
  end.

Definition digit_cp (d : N) : N := (0x30 + d)%N.

Fixpoint uint_str (d : Decimal.uint) : str :=
  match d with
  | Decimal.Nil => []
  | Decimal.D0 l => digit_cp 0 :: uint_str l
  | Decimal.D1 l => digit_cp 1 :: uint_str l
  | Decimal.D2 l => digit_cp 2 :: uint_str l
  | Decimal.D3 l => digit_cp 3 :: uint_str l
  | Decimal.D4 l => digit_cp 4 :: uint_str l
  | Decimal.D5 l => digit_cp 5 :: uint_str l
  | Decimal.D6 l => digit_cp 6 :: uint_str l
  | Decimal.D7 l => digit_cp 7 :: uint_str l
  | Decimal.D8 l => digit_cp 8 :: uint_str l
  | Decimal.D9 l => digit_cp 9 :: uint_str l
  end.

(** [str(z)] for an integer [z]. *)
Definition str_of_int (z : Z) : str :=
  match Z.to_int z with
  | Decimal.Pos d => uint_str d
  | Decimal.Neg d => 0x2D%N :: uint_str d
  end.

Definition isdigit (c : N) : bool := ((0x30 <=? c) && (c <=? 0x39))%N.

(** The value of a run of decimal digits, read from the left. *)
Definition digits_value (ds : str) : N :=
  fold_left (fun acc c => (10 * acc + (c - 0x30))%N) ds 0%N.

End PyStr.
Import PyStr.

(** ** Exceptions *)

(** A computation that may raise returns an option: [None] stands for the
    exception, and [x <- c1 ;; c2] runs [c2] when [c1] has returned. *)
Definition bind {A B : Type} (x : option A) (f : A -> option B) : option B :=
  match x with
  | Some a => f a
  | None => None
  end.

Notation "x <- c1 ;; c2" := (bind c1 (fun x => c2))
  (at level 61, c1 at next level, right associativity).

(** A step that may raise, run on each element of a series: one failure
    makes the whole call fail. *)
Fixpoint traverse {A B : Type} (f : A -> option B) (l : list A)
  : option (list B) :=
  match l with
  | [] => Some []
  | x :: r => y <- f x ;; ys <- traverse f r ;; Some (y :: ys)
  end.

(** ** Cells *)

Inductive value :=
| VNull                 (* NaN, the missing cell *)
| VInt (z : Z)
| VStr (s : str)
| VOther (repr : str).  (* any other object, by the text str() gives *)

(** [str(v)] *)
Definition py_str (v : value) : str :=
  match v with
  | VNull => u "nan"
  | VInt z => str_of_int z
  | VStr s => s
  | VOther r => r
  end.

(** [pd.isna(v)] *)
Definition isna (v : value) : bool :=
  match v with VNull => true | _ => false end.

(** A pandas Series indexed by labels: a row of a frame. *)
Definition Series := list (str * value).

(** [row.get(key, default)] *)
Definition row_get (row : Series) (key : str) (default : value) : value :=
  match find (fun kv => str_eqb (fst kv) key) row with
  | Some kv => snd kv
  | None => default
  end.

(** ** The ledger classifier *)

Definition categorize_ledger_row (row : Series) : str :=
  let acc_col :=
    match find (fun c => contains (u "계정") c) (map fst row) with
    | Some c => c
    | None => u ""
    end in
  let account := py_str (row_get row acc_col (VStr (u ""))) in
  let desc := py_str (row_get row (u "내용") (VStr (u ""))) in
  let text := lower (account ++ u " " ++ desc) in
  if contains (u "차대") account || contains (u "상사이전") account
     || contains (u "매입") desc then u "차량매입"
  else if contains (u "판매") desc || contains (u "매출") desc then u "매출"
  else if existsb (fun kw => contains kw desc)
            (map u ["급여"; "인건비"; "상여"; "일당"; "급료"; "4대보험"]%string)
  then u "인건비"
  else if existsb (fun kw => contains kw desc)
            (map u ["임대료"; "월세"; "전세"; "보증금"; "건물관리비"; "관리비"]%string)
  then u "고정비"
  else if existsb (fun kw => contains kw desc)
            (map u ["부가세"; "소득세"; "원천세"; "지방세"; "세금"]%string)
  then u "세금"
  else if existsb (fun kw => contains kw desc)
            (map u ["광고"; "홍보"; "수수료"; "카드수수료"; "통신비"; "전기료";
                    "소모품"; "잡비"; "유류"; "주유"]%string)
  then u "변동비"
  else if contains (u "광택") desc || contains (u "판금") desc
          || contains (u "정비") desc || contains (u "수리") desc
  then u "변동비"
  else u "기타".

(** ** The numeric and period helpers *)

(** The characters that the pattern [[^0-9.-]] leaves in place. *)
Definition numeric_char (c : N) : bool :=
  isdigit c || (c =? 0x2E)%N || (c =? 0x2D)%N.

(** [s.replace(r"[^0-9.-]", "", regex=True)] on one string. *)
Definition str_replace_non_numeric (s : str) : str := filter numeric_char s.

(** What [pd.to_numeric] makes of a string: [NaN], or a decimal number with
    its sign, the digits before the point and the digits after it. *)
Inductive numeric :=
| NaN
| Num (neg : bool) (int_digits frac_digits : str).

Fixpoint span_digits (s : str) : str * str :=
  match s with
  | [] => ([], [])
  | c :: r =>
    if isdigit c then let (d, t) := span_digits r in (c :: d, t) else ([], s)
  end.

Definition is_nil {A : Type} (l : list A) : bool :=
  match l with [] => true | _ => false end.

(** [pd.to_numeric(s, errors="coerce")] on a string of digits, points and
    minus signs: an optional sign, digits, an optional point and digits, at
    least one digit in all; anything else is coerced to [NaN]. *)
Definition to_numeric (s : str) : numeric :=
  let (neg, body) :=
    match s with
    | c :: r => if (c =? 0x2D)%N then (true, r) else (false, s)
    | [] => (false, s)
    end in
  let (ip, rest) := span_digits body in
  match rest with
  | [] => if is_nil ip then NaN else Num neg ip []
  | c :: fr =>
    if (c =? 0x2E)%N && forallb isdigit fr && negb (is_nil ip && is_nil fr)
    then Num neg ip fr else NaN
  end.

(** [.fillna(0)] *)
Definition fillna0 (x : numeric) : numeric :=
  match x with
  | NaN => Num false (u "0") []
  | _ => x
  end.

(** [.astype(int)] on one number: the fraction is cut off.  [NaN] has no
    integer, and pandas raises [IntCastingNaNError]. *)
Definition astype_int (x : numeric) : option Z :=
  match x with
  | NaN => None
  | Num neg ip _ =>
    let n := Z.of_N (digits_value ip) in Some (if neg then (- n)%Z else n)
  end.

(** [series.astype(str)] *)
Definition astype_str (series : list value) : list str := map py_str series.

Definition clean_numeric (series : list value) : option (list Z) :=
  traverse astype_int
    (map fillna0
       (map to_numeric (map str_replace_non_numeric (astype_str series)))).

(** [series.sum()] *)
Definition sum (xs : list Z) : Z := fold_right Z.add 0%Z xs.

(** A timestamp, by its calendar date. *)
Record Timestamp := { ts_year : Z; ts_month : Z; ts_day : Z }.

Definition zfill2 (s : str) : str :=
  match s with
  | [_] => u "0" ++ s
  | _ => s
  end.

(** [t.strftime("%Y-%m")] *)
Definition strftime_Ym (t : Timestamp) : str :=
  str_of_int (ts_year t) ++ u "-" ++ zfill2 (str_of_int (ts_month t)).

(** [str(t.date())] *)
Definition isoformat (t : Timestamp) : str :=
  str_of_int (ts_year t) ++ u "-" ++ zfill2 (str_of_int (ts_month t))
  ++ u "-" ++ zfill2 (str_of_int (ts_day t)).

(** [out[mask] = src[mask]] *)
Fixpoint mask_assign (out : list value) (mask : list bool) (src : list value)
  : list value :=
  match out, mask, src with
  | o :: out', m :: mask', x :: src' =>
    (if m then x else o) :: mask_assign out' mask' src'
  | _, _, _ => out
  end.

Definition isna_ts (t : option Timestamp) : bool :=
  match t with None => true | Some _ => false end.

(** A date parser for the plain form [YYYY-MM-DD], an instance of
    [pd.to_datetime] on which the examples run. *)
Definition iso_parse (v : value) : option Timestamp :=
  match v with
  | VStr [y1; y2; y3; y4; d1; m1; m2; d2; a1; a2] =>
    if forallb isdigit [y1; y2; y3; y4; m1; m2; a1; a2]
       && (d1 =? 0x2D)%N && (d2 =? 0x2D)%N
    then
      let y := Z.of_N (digits_value [y1; y2; y3; y4]) in
      let m := Z.of_N (digits_value [m1; m2]) in
      let d := Z.of_N (digits_value [a1; a2]) in
      if ((1 <=? m) && (m <=? 12) && (1 <=? d) && (d <=? 31))%Z
      then Some {| ts_year := y; ts_month := m; ts_day := d |}
      else None
    else None
  | _ => None
  end.

Definition iso_to_datetime (series : list value) : list (option Timestamp) :=
  map iso_parse series.

Section Period.

(** [pd.to_datetime(series, errors="coerce")]; [None] is [NaT]. *)
Variable to_datetime : list value -> list (option Timestamp).

Definition normalize_ym (series : list value) : list value :=
  let s := to_datetime series in
  let out :=
    map (fun t => match t with
                  | Some ts => VStr (strftime_Ym ts)
                  | None => VNull
                  end) s in
  let mask_nat := map isna_ts s in
  if existsb (fun b => b) mask_nat then
    mask_assign out mask_nat (map VStr (astype_str series))
  else out.

End Period.

(** ** Income types left out of the settlement *)

Definition EXCLUDE_INCOME_KEYWORDS : list str :=
  map u ["외부"; "비직원"; "기타"; "제외"]%string.

Definition is_excluded_income_type (value : value) : bool :=
  if isna value then false
  else
    let v := strip (py_str value) in
    if str_eqb v (u "") then false
    else
      let lower_v := lower v in
      existsb (fun kw => contains (lower kw) lower_v) EXCLUDE_INCOME_KEYWORDS.

(** ** Frames *)

(** A frame: the column labels in order and the rows, each row holding one
    cell per column. *)
Record DataFrame := { columns : list str; data : list (list value) }.

(** [pd.DataFrame()] and [pd.DataFrame(columns=cols)] *)
Definition DataFrame_new (cols : list str) : DataFrame :=
  {| columns := cols; data := [] |}.

(** [df.empty] *)
Definition empty (df : DataFrame) : bool :=
  is_nil (columns df) || is_nil (data df).

(** [c in df.columns] *)
Definition has_column (df : DataFrame) (c : str) : bool :=
  existsb (str_eqb c) (columns df).

(** The row [r] of [df] as the labelled series that [apply(axis=1)] and
    the cell look-ups see. *)
Definition row_series (df : DataFrame) (r : list value) : Series :=
  combine (columns df) r.

(** [df[c]] for a column the frame has. *)
Definition col (df : DataFrame) (c : str) : list value :=
  map (fun r => row_get (row_series df r) c VNull) (data df).

(** [df[c]]: [None] stands for the [KeyError] of a missing column. *)
Definition getitem (df : DataFrame) (c : str) : option (list value) :=
  if has_column df c then Some (col df c) else None.

(** [df[mask]] for a boolean mask over the rows. *)
Definition mask_rows (df : DataFrame) (mask : list bool) : DataFrame :=
  {| columns := columns df;
     data := map snd (filter fst (combine mask (data df))) |}.

(** [series == ym] for a string [ym]. *)
Definition eq_str (series : list value) (ym : str) : list bool :=
  map (fun v => match v with VStr s => str_eqb s ym | _ => false end) series.

Fixpoint replace_nth (n : nat) (v : value) (r : list value) : list value :=
  match n, r with
  | _, [] => []
  | O, _ :: r' => v :: r'
  | S n', x :: r' => x :: replace_nth n' v r'
  end.

Fixpoint index_of (c : str) (cols : list str) : nat :=
  match cols with
  | [] => O
  | c' :: cols' => if str_eqb c c' then O else S (index_of c cols')
  end.

Fixpoint map2 {A B C : Type} (f : A -> B -> C) (xs : list A) (ys : list B)
  : list C :=
  match xs, ys with
  | x :: xs', y :: ys' => f x y :: map2 f xs' ys'
  | _, _ => []
  end.

(** [df[c] = vals]: the column is overwritten, or added as the last one. *)
Definition set_column (df : DataFrame) (c : str) (vals : list value)
  : DataFrame :=
  if has_column df c then
    {| columns := columns df;
       data := map2 (fun r v => replace_nth (index_of c (columns df)) v r)
                 (data df) vals |}
  else
    {| columns := columns df ++ [c];
       data := map2 (fun r v => r ++ [v]) (data df) vals |}.

(** [df[c] = v] for one value [v], repeated down the rows. *)
Definition set_column_scalar (df : DataFrame) (c : str) (v : value)
  : DataFrame :=
  set_column df c (repeat v (List.length (data df))).

(** [df.rename(columns=mapping)] *)
Definition rename (df : DataFrame) (mapping : list (str * str)) : DataFrame :=
  {| columns :=
       map (fun c => match find (fun kv => str_eqb (fst kv) c) mapping with
                     | Some kv => snd kv
                     | None => c
                     end) (columns df);
     data := data df |}.

(** [df.loc[:, mask]] for a boolean mask over the columns. *)
Definition mask_columns (df : DataFrame) (mask : list bool) : DataFrame :=
  {| columns := map snd (filter fst (combine mask (columns df)));
     data := map (fun r => map snd (filter fst (combine mask r))) (data df) |}.

(** ** Grouping *)

Definition str_ltb (a b : str) : bool := negb (str_leb b a).

(** One more row for the group of key [k] in a table of sums kept in the
    order of the keys. *)
Fixpoint group_add (k : str) (v : Z) (g : list (str * Z)) : list (str * Z) :=
  match g with
  | [] => [(k, v)]
  | (k', v') :: g' =>
    if str_eqb k k' then (k', (v' + v)%Z) :: g'
    else if str_ltb k k' then (k, v) :: g
    else (k', v') :: group_add k v g'
  end.

(** [rows.groupby(key)[val].sum()] over the pairs (key, val) of the rows:
    one sum per key, the keys in ascending order. *)
Definition groupby_sum (rows : list (str * Z)) : list (str * Z) :=
  fold_left (fun g kv => group_add (fst kv) (snd kv) g) rows [].

(** ** The monthly summary *)

(** A row of the summary:
    [[ym, category, detail, amount, source, note]]. *)
Record LineItem := {
  li_ym : str;
  li_category : str;
  li_detail : str;
  li_amount : Z;
  li_source : str;
  li_note : str
}.

(** Step 1: labour cost. *)
Definition summary_emp (df_emp : DataFrame) (ym : str) (rows : list LineItem)
  : option (list LineItem) :=
  if negb (empty df_emp) then
    period <- getitem df_emp (u "기준년월") ;;
    let emp_month := mask_rows df_emp (eq_str period ym) in
    let col_income_type := u "소득구분(고정/변동/퇴사 등)" in
    let emp_month :=
      if has_column emp_month col_income_type then
        let exclude_mask :=
          map is_excluded_income_type (col emp_month col_income_type) in
        mask_rows emp_month (map negb exclude_mask)
      else emp_month in
    if has_column emp_month (u "정산입금액") then
      amounts <- clean_numeric (col emp_month (u "정산입금액")) ;;
      let total_emp := sum amounts in
      if negb (total_emp =? 0)%Z then
        Some (rows ++ [{| li_ym := ym; li_category := u "인건비";
                          li_detail := u "직원소득(정산입금액)";
                          li_amount := total_emp; li_source := u "직원소득";
                          li_note := u "외부/비직원 제외" |}])
      else Some rows
    else Some rows
  else Some rows.

(** Step 2: vehicle purchases. *)
Definition summary_pur (df_pur : DataFrame) (ym : str) (rows : list LineItem)
  : option (list LineItem) :=
  if negb (empty df_pur) && has_column df_pur (u "매입가액") then
    period <- getitem df_pur (u "기준년월") ;;
    let pur_month := mask_rows df_pur (eq_str period ym) in
    amounts <- clean_numeric (col pur_month (u "매입가액")) ;;
    let total_pur := sum amounts in
    if negb (total_pur =? 0)%Z then
      Some (rows ++ [{| li_ym := ym; li_category := u "차량매입";
                        li_detail := u "재활용차량 매입가액";
                        li_amount := total_pur; li_source := u "차량매입";
                        li_note := u "" |}])
    else Some rows
  else Some rows.

(** Step 3: vehicle reconditioning. *)
Definition summary_inv (df_inv : DataFrame) (ym : str) (rows : list LineItem)
  : option (list LineItem) :=
  if negb (empty df_inv) && has_column df_inv (u "비용(VAT포함)") then
    period <- getitem df_inv (u "기준년월") ;;
    let inv_month := mask_rows df_inv (eq_str period ym) in
    amounts <- clean_numeric (col inv_month (u "비용(VAT포함)")) ;;
    let total_inv := sum amounts in
    if negb (total_inv =? 0)%Z then
      Some (rows ++ [{| li_ym := ym; li_category := u "변동비";
                        li_detail := u "차량 상품화비";
                        li_amount := total_inv; li_source := u "차량상품화";
                        li_note := u "" |}])
    else Some rows
  else Some rows.

(** The rows that the loop over the groups appends. *)
Definition expense_items (ym : str) (grp : list (str * Z)) : list LineItem :=
  flat_map
    (fun cv =>
       let cat := fst cv in
       let val := snd cv in
       if str_eqb cat (u "매출") || (val =? 0)%Z then []
       else [{| li_ym := ym; li_category := cat;
                li_detail := u "장부 출금(" ++ cat ++ u ")";
                li_amount := val; li_source := u "장부";
                li_note := u "자동분류" |}])
    grp.

(** Step 4: the ledger.  The two columns that the source adds to the month's
    rows, the category and the withdrawal as an integer, are kept as series
    that run along the rows. *)
Definition summary_led (df_led : DataFrame) (ym : str) (rows : list LineItem)
  : option (list LineItem) :=
  if negb (empty df_led) then
    period <- getitem df_led (u "기준년월") ;;
    let led_month := mask_rows df_led (eq_str period ym) in
    if negb (empty led_month) then
      let auto :=
        map (fun r => categorize_ledger_row (row_series led_month r))
          (data led_month) in
      rows <-
        (if has_column led_month (u "입금") then
           deposits <- clean_numeric (col led_month (u "입금")) ;;
           let income_mask :=
             map2 andb
               (map (fun x => (x >? 0)%Z) deposits)
               (map (fun c => str_eqb c (u "매출")) auto) in
           let income_rows := mask_rows led_month income_mask in
           amounts <- clean_numeric (col income_rows (u "입금")) ;;
           let total_sales := sum amounts in
           if negb (total_sales =? 0)%Z then
             Some (rows ++ [{| li_ym := ym; li_category := u "매출";
                               li_detail := u "장부 매출(입금)";
                               li_amount := total_sales; li_source := u "장부";
                               li_note := u "" |}])
           else Some rows
         else Some rows) ;;
      rows <-
        (if has_column led_month (u "출금") then
           out_int <- clean_numeric (col led_month (u "출금")) ;;
           let expense_rows :=
             filter (fun cv => (snd cv >? 0)%Z) (combine auto out_int) in
           if negb (is_nil expense_rows) then
             let grp := groupby_sum expense_rows in
             Some (rows ++ expense_items ym grp)
           else Some rows
         else Some rows) ;;
      Some rows
    else Some rows
  else Some rows.

Definition compute_auto_month_summary
  (df_emp df_pur df_led df_inv : DataFrame) (ym : str)
  : option (list LineItem) :=
  let rows := [] in
  rows <- summary_emp df_emp ym rows ;;
  rows <- summary_pur df_pur ym rows ;;
  rows <- summary_inv df_inv ym rows ;;
  rows <- summary_led df_led ym rows ;;
  Some rows.

(** ** The candidate lists of the two searches *)

(** [series.dropna()] *)
Definition dropna (series : list value) : list value :=
  filter (fun v => negb (isna v)) series.

Definition str_in (x : str) (l : list str) : bool := existsb (str_eqb x) l.

Fixpoint unique_from (seen l : list str) : list str :=
  match l with
  | [] => []
  | x :: r =>
    if str_in x seen then unique_from seen r
    else x :: unique_from (x :: seen) r
  end.

(** [series.unique()]: the first occurrence of each value, in order. *)
Definition unique (l : list str) : list str := unique_from [] l.

Fixpoint insert_sorted (x : str) (l : list str) : list str :=
  match l with
  | [] => [x]
  | y :: l' => if str_leb x y then x :: l else y :: insert_sorted x l'
  end.

(** [sorted(l)] *)
Definition sorted (l : list str) : list str := fold_right insert_sorted [] l.

(** Lines 357-361 and 473-477 of the source, which the two searches share:
    from the gathered columns to the list offered for selection. *)
Definition build_candidates (names_list : list (list str)) : list str :=
  if negb (is_nil names_list) then
    let names := unique (List.concat names_list) in
    sorted (filter (fun n => negb (str_eqb (strip n) (u ""))) names)
  else [].

(** The gathering step: the column [c] of [df], if the frame has it. *)
Definition gather (names_list : list (list str)) (df : DataFrame) (c : str)
  : list (list str) :=
  if has_column df c then names_list ++ [astype_str (dropna (col df c))]
  else names_list.

Definition names (df_emp df_led df_inv : DataFrame) : list str :=
  let names_list := [] in
  let names_list := gather names_list df_emp (u "직원명") in
  let names_list := gather names_list df_led (u "담당자") in
  let names_list := gather names_list df_led (u "관련직원명") in
  let names_list := gather names_list df_inv (u "담당자") in
  build_candidates names_list.

Definition car_nums (df_pur df_led df_inv : DataFrame) : list str :=
  let cars_list := [] in
  let cars_list := gather cars_list df_pur (u "차량번호") in
  let cars_list := gather cars_list df_led (u "차량번호") in
  let cars_list := gather cars_list df_inv (u "차량번호") in
  build_candidates cars_list.

(** ** The loader *)

(** The files of the legacy folder, by the keys of [FILE_PATHS]; a path is
    given relative to the folder. *)
Definition FILE_PATHS (key : string) : str :=
  if String.eqb key "income" then u "아크 모터스 사업소득.xlsx"
  else if String.eqb key "purchase" then u "원본_재활용폐자원세액공제신고서.xlsx"
  else if String.eqb key "ledger" then u "♣장부♣ 10.xlsx"
  else if String.eqb key "inventory" then u "상품내역.xlsx"
  else u "결산 보고서.xlsx".

(** What the loader sees of the outside: which paths exist, and what opening
    a workbook and reading a sheet give.  [None] stands for a raised
    exception. *)
Record FileSystem := {
  os_path_exists : str -> bool;
  (* pd.ExcelFile(path), then xls.parse(sheet) *)
  pd_ExcelFile : str -> option (str -> option DataFrame);
  (* pd.read_excel(path, sheet_name=..., header=...) *)
  pd_read_excel : str -> option str -> nat -> option DataFrame
}.

(** The dictionary that [load_data] returns. *)
Record Tables := {
  emp : DataFrame;
  pur : DataFrame;
  led : DataFrame;
  inv : DataFrame;
  month : DataFrame
}.

(** [temp.loc[:, ~temp.columns.str.contains('^Unnamed')]] *)
Definition drop_unnamed (temp : DataFrame) : DataFrame :=
  mask_columns temp
    (map (fun c => negb (starts_with (u "Unnamed") c)) (columns temp)).

(** [try: ... except: handler] *)
Definition try_except {A : Type} (body : option A) (handler : A) : A :=
  match body with
  | Some a => a
  | None => handler
  end.

(** [s.dt.strftime("%Y-%m")] *)
Definition dt_strftime_Ym (s : list (option Timestamp)) : list value :=
  map (fun t => match t with
                | Some ts => VStr (strftime_Ym ts)
                | None => VNull
                end) s.

(** [s.dt.date] *)
Definition dt_date (s : list (option Timestamp)) : list value :=
  map (fun t => match t with
                | Some ts => VOther (isoformat ts)
                | None => VNull
                end) s.

Section Loader.

Variable to_datetime : list value -> list (option Timestamp).
Variable fs : FileSystem.

Definition load_legacy_emp : DataFrame :=
  try_except
    (temp <- pd_read_excel fs (FILE_PATHS "income") None 7 ;;
     let temp := drop_unnamed temp in
     let df_emp :=
       rename temp [(u "성명", u "직원명");
                    (u "귀속년월", u "기준년월(YYYY-MM)");
                    (u "지급 날짜", u "지급일자")] in
     Some (if negb (has_column df_emp (u "소득구분(고정/변동/퇴사 등)"))
           then set_column_scalar df_emp (u "소득구분(고정/변동/퇴사 등)")
                  (VStr (u "직원"))
           else df_emp))
    (DataFrame_new []).

Definition load_legacy_pur : DataFrame :=
  try_except
    (temp <- pd_read_excel fs (FILE_PATHS "purchase") None 8 ;;
     let df_pur := drop_unnamed temp in
     acquired <- getitem df_pur (u "취득일자") ;;
     Some (set_column df_pur (u "기준년월(YYYY-MM)")
             (dt_strftime_Ym (to_datetime acquired))))
    (DataFrame_new []).

Definition load_legacy_led : DataFrame :=
  try_except
    (temp <- pd_read_excel fs (FILE_PATHS "ledger") (Some (u "장부")) 2 ;;
     let df_led := drop_unnamed temp in
     let df_led :=
       rename df_led
         [(u "계정",
           u "계정구분(장부/부가세/차대/이전비/상사이전/미수금/일계표/결산/기타)")] in
     day <- getitem df_led (u "일자") ;;
     let df_led :=
       set_column df_led (u "기준년월(YYYY-MM)")
         (dt_strftime_Ym (to_datetime day)) in
     Some (if negb (has_column df_led (u "관련직원명"))
           then set_column_scalar df_led (u "관련직원명") (VStr (u ""))
           else df_led))
    (DataFrame_new []).

Definition load_legacy_inv : DataFrame :=
  if os_path_exists fs (FILE_PATHS "inventory") then
    try_except
      (temp <- pd_read_excel fs (FILE_PATHS "inventory") None 0 ;;
       let df_inv := temp in
       if negb (has_column df_inv (u "기준년월(YYYY-MM)"))
          && has_column df_inv (u "입고일자")
       then Some (set_column df_inv (u "기준년월(YYYY-MM)")
                    (dt_strftime_Ym (to_datetime (col df_inv (u "입고일자")))))
       else Some df_inv)
      (DataFrame_new [])
  else
    DataFrame_new [u "차량번호"; u "담당자"; u "비용(VAT포함)";
                   u "기준년월(YYYY-MM)"].

Definition load_legacy_month : DataFrame :=
  if os_path_exists fs (FILE_PATHS "report") then
    try_except (pd_read_excel fs (FILE_PATHS "report") None 0)
      (DataFrame_new [])
  else DataFrame_new [].

(** The common step on the period column. *)
Definition standardize_ym (df : DataFrame) : DataFrame :=
  if has_column df (u "기준년월(YYYY-MM)") then
    set_column df (u "기준년월")
      (normalize_ym to_datetime (col df (u "기준년월(YYYY-MM)")))
  else if negb (has_column df (u "기준년월")) then
    set_column_scalar df (u "기준년월") (VStr (u ""))
  else df.

(** The common step on the date columns [cols] of one table. *)
Definition standardize_dates (df : DataFrame) (cols : list str) : DataFrame :=
  fold_left
    (fun df c =>
       if has_column df c
       then set_column df c (dt_date (to_datetime (col df c)))
       else df)
    cols df.

(** [None] is the value the source returns when it has no data; the cache
    of the decorator and the message printed on a failure are left out. *)
Definition load_data (master_path : str) : option Tables :=
  loaded <-
    (if os_path_exists fs master_path then
       (* any failure in the workbook: None for the whole load *)
       xls <- pd_ExcelFile fs master_path ;;
       df_emp <- xls (u "1_직원소득") ;;
       df_pur <- xls (u "2_차량매입") ;;
       df_led <- xls (u "3_장부") ;;
       df_inv <- xls (u "4_차량상품화") ;;
       df_month <- xls (u "5_월별결산") ;;
       Some {| emp := df_emp; pur := df_pur; led := df_led; inv := df_inv;
               month := df_month |}
     else if negb (os_path_exists fs (FILE_PATHS "income")) then None
     else
       Some {| emp := load_legacy_emp; pur := load_legacy_pur;
               led := load_legacy_led; inv := load_legacy_inv;
               month := load_legacy_month |}) ;;
  let df_emp := standardize_ym (emp loaded) in
  let df_pur := standardize_ym (pur loaded) in
  let df_led := standardize_ym (led loaded) in
  let df_inv := standardize_ym (inv loaded) in
  let df_month := standardize_ym (month loaded) in
  Some {| emp := standardize_dates df_emp [u "지급일자"];
          pur := standardize_dates df_pur [u "취득일자"];
          led := standardize_dates df_led [u "일자"];
          inv := standardize_dates df_inv [u "입고일자"; u "상품화완료일자"];
          month := df_month |}.

End Loader.

(** ** Display of amounts *)

(** Commas between groups of three, on the digits in reverse order. *)
Fixpoint group3 (ds : str) : str :=
  match ds with
  | a :: b :: c :: rest =>
    match rest with
    | [] => ds
    | _ :: _ => a :: b :: c :: 0x2C%N :: group3 rest
    end
  | _ => ds
  end.

(** [f"{x:,}"] for an integer [x]. *)
Definition format_thousands (x : Z) : str :=
  match Z.to_int x with
  | Decimal.Pos d => rev (group3 (rev (uint_str d)))
  | Decimal.Neg d => 0x2D%N :: rev (group3 (rev (uint_str d)))
  end.

(** An integer as [pd.to_numeric] leaves it. *)
Definition numeric_of_int (z : Z) : numeric :=
  match Z.to_int z with
  | Decimal.Pos d => Num false (uint_str d) []
  | Decimal.Neg d => Num true (uint_str d) []
  end.

Section Display.

(** [pd.to_numeric(v, errors="coerce")] on a cell that holds a string or
    another object. *)
Variable pd_to_numeric : value -> numeric.

(** [pd.to_numeric(series, errors="coerce")] on one cell. *)
Definition to_numeric_cell (v : value) : numeric :=
  match v with
  | VNull => NaN
  | VInt z => numeric_of_int z
  | _ => pd_to_numeric v
  end.

(** The frame is copied; each listed column that the frame has is turned
    into integers and then into text with commas.  The integers are written
    to the column and read back in the source; here they are passed on. *)
Definition format_currency (df : DataFrame) (cols : list str)
  : option DataFrame :=
  fold_left
    (fun acc c =>
       df <- acc ;;
       if has_column df c then
         ints <- traverse astype_int
                   (map fillna0 (map to_numeric_cell (col df c))) ;;
         Some (set_column df c (map (fun x => VStr (format_thousands x)) ints))
       else Some df)
    cols (Some df).

End Display.

(** ** The searches *)

Section Search.

(** [str.lower] on the text typed in a search box and on the names: any
    text, with letters of any alphabet. *)
Variable str_lower : str -> str.

(** Lines 370-375 and 484-489: the candidates left by the text typed in
    the search box, all of them when nothing is typed or nothing matches. *)
Definition search_candidates (names : list str) (search_query : str)
  : list str :=
  let candidate_names := names in
  if negb (is_nil search_query) then
    let candidate_names :=
      filter (fun n => contains (str_lower search_query) (str_lower n))
        names in
    if is_nil candidate_names then names else candidate_names
  else candidate_names.

End Search.

(** [df[df[c] == selected]] *)
Definition select_eq (df : DataFrame) (c : str) (selected : str) : DataFrame :=
  mask_rows df (eq_str (col df c) selected).

(** What a block of a report puts on the page: figures, or a notice. *)
Inductive panel (A : Type) :=
| Metrics (a : A)
| Info (message : str).
Arguments Metrics {A} a.
Arguments Info {A} message.

(** Lines 390-405: the income block of an employee, with the settlement
    total, the tax total and the number of payments.  [None] stands for the
    [KeyError] of a missing column. *)
Definition emp_income_panel (df_emp : DataFrame) (selected_name : str)
  : option (panel (Z * Z * nat)) :=
  let emp_rows :=
    if has_column df_emp (u "직원명")
    then select_eq df_emp (u "직원명") selected_name
    else DataFrame_new [] in
  if empty emp_rows then
    Some (Info (u "등록된 사업소득 데이터가 없습니다."))
  else
    income <- getitem emp_rows (u "정산입금액") ;;
    income <- clean_numeric income ;;
    let total_income := sum income in
    tax <- getitem emp_rows (u "소득세") ;;
    tax <- clean_numeric tax ;;
    resident <- getitem emp_rows (u "주민세") ;;
    resident <- clean_numeric resident ;;
    let total_tax := (sum tax + sum resident)%Z in
    Some (Metrics (total_income, total_tax, List.length (data emp_rows))).

(** Lines 418-424: the ledger rows of an employee, as manager or as
    related employee. *)
Definition emp_ledger_rows (df_led : DataFrame) (selected_name : str)
  : DataFrame :=
  if has_column df_led (u "담당자") then
    let related :=
      match getitem df_led (u "관련직원명") with
      | Some series => series
      | None => repeat (VStr (u "")) (List.length (data df_led))
      end in
    mask_rows df_led
      (map2 orb (eq_str (col df_led (u "담당자")) selected_name)
         (eq_str related selected_name))
  else DataFrame_new [].

(** Lines 503-512: the purchase block of a vehicle. *)
Definition car_purchase_panel (df_pur : DataFrame) (selected_car : str)
  : option (panel Z) :=
  if has_column df_pur (u "차량번호") then
    let pur_rows := select_eq df_pur (u "차량번호") selected_car in
    if negb (empty pur_rows) then
      amounts <- getitem pur_rows (u "매입가액") ;;
      amounts <- clean_numeric amounts ;;
      Some (Metrics (sum amounts))
    else Some (Info (u "매입 데이터가 없습니다."))
  else Some (Info (u "매입 데이터 컬럼 오류")).

(** * The specification's side *)

(** ** The classifier as a chain of rules *)

(** The account label and the description that a ledger row exposes. *)
Definition row_account (row : Series) : str :=
  py_str (row_get row
            (match find (fun c => contains (u "계정") c) (map fst row) with
             | Some c => c
             | None => u ""
             end) (VStr (u ""))).

Definition row_desc (row : Series) : str :=
  py_str (row_get row (u "내용") (VStr (u ""))).

(** The fixed set of categories. *)
Definition CATEGORIES : list str :=
  map u ["차량매입"; "매출"; "인건비"; "고정비"; "세금"; "변동비"; "기타"]%string.

Inductive field := Account | Description.

(** Rules 1 to 6: the keyword tests of a rule, each on the field it reads,
    and the category of the rule.  Rule 7 is the default. *)
Definition RULES : list (list (field * str) * str) :=
  [ ([(Account, u "차대"); (Account, u "상사이전"); (Description, u "매입")],
     u "차량매입");
    ([(Description, u "판매"); (Description, u "매출")], u "매출");
    (map (pair Description)
       (map u ["급여"; "인건비"; "상여"; "일당"; "급료"; "4대보험"]%string),
     u "인건비");
    (map (pair Description)
       (map u ["임대료"; "월세"; "전세"; "보증금"; "건물관리비"; "관리비"]%string),
     u "고정비");
    (map (pair Description)
       (map u ["부가세"; "소득세"; "원천세"; "지방세"; "세금"]%string),
     u "세금");
    (map (pair Description)
       (map u ["광고"; "홍보"; "수수료"; "카드수수료"; "통신비"; "전기료";
               "소모품"; "잡비"; "유류"; "주유";
               "광택"; "판금"; "정비"; "수리"]%string),
     u "변동비") ].

(** A keyword test as the code makes it: the keyword as written, looked for
    in the one field the rule names. *)
Definition field_test (account desc : str) (t : field * str) : bool :=
  contains (snd t)
    (match fst t with Account => account | Description => desc end).

(** A keyword test as the specification words it: case-insensitive, in the
    combined text of the account label and the description. *)
Definition combined_test (account desc : str) (t : field * str) : bool :=
  contains (lower (snd t)) (lower (account ++ u " " ++ desc)).

(** The rules in order, the first match wins, [기타] otherwise. *)
Fixpoint first_match (test : field * str -> bool)
  (rules : list (list (field * str) * str)) : str :=
  match rules with
  | [] => u "기타"
  | (tests, cat) :: rest =>
    if existsb test tests then cat else first_match test rest
  end.

(** The classifier of the specification's wording. *)
Definition categorize_combined (row : Series) : str :=
  first_match (combined_test (row_account row) (row_desc row)) RULES.

(** ** The sums of the aggregator *)

(** The integer of a number: its digits before the point, with its sign;
    zero when there is no number. *)
Definition integer_part (x : numeric) : Z :=
  match x with
  | NaN => 0
  | Num false ip _ => Z.of_N (digits_value ip)
  | Num true ip _ => (- Z.of_N (digits_value ip))%Z
  end.

(** The amount that a cell stands for: what is left of its text, once all
    but digits, points and minus signs is taken out, read as a number. *)
Definition clean_numeric_cell (v : value) : Z :=
  integer_part (to_numeric (str_replace_non_numeric (py_str v))).

(** The cell of a row under the label [c], the labels and the cells read
    side by side; the missing value when the row has no such cell. *)
Fixpoint cell_at (cols : list str) (r : list value) (c : str) : value :=
  match cols, r with
  | c' :: cols', v :: r' => if str_eqb c' c then v else cell_at cols' r' c
  | _, _ => VNull
  end.

(** The cell of row [r] in column [c]. *)
Definition cell (df : DataFrame) (r : list value) (c : str) : value :=
  cell_at (columns df) r c.

(** The row belongs to the period [ym]. *)
Definition in_period (df : DataFrame) (ym : str) (r : list value) : bool :=
  match cell df r (u "기준년월") with
  | VStr s => str_eqb s ym
  | _ => false
  end.

(** The sum of column [c] over the rows [rs] of [df]. *)
Definition sum_of (df : DataFrame) (c : str) (rs : list (list value)) : Z :=
  sum (map (fun r => clean_numeric_cell (cell df r c)) rs).

(** The label contains an exclusion keyword, whatever the case. *)
Definition has_exclusion_keyword (label : str) : bool :=
  existsb (fun kw => contains (lower kw) (lower label)) EXCLUDE_INCOME_KEYWORDS.

(** The income rows of the period that the settlement counts. *)
Definition labor_rows (df_emp : DataFrame) (ym : str) : list (list value) :=
  filter
    (fun r =>
       in_period df_emp ym r
       && negb (has_exclusion_keyword
                  (py_str (cell df_emp r (u "소득구분(고정/변동/퇴사 등)")))))
    (data df_emp).

Definition labor_total (df_emp : DataFrame) (ym : str) : Z :=
  sum_of df_emp (u "정산입금액") (labor_rows df_emp ym).

Definition labor_item (ym : str) (amount : Z) : LineItem :=
  {| li_ym := ym; li_category := u "인건비";
     li_detail := u "직원소득(정산입금액)"; li_amount := amount;
     li_source := u "직원소득"; li_note := u "외부/비직원 제외" |}.

(** The rows of the period. *)
Definition period_rows (df : DataFrame) (ym : str) : list (list value) :=
  filter (in_period df ym) (data df).

Definition purchase_total (df_pur : DataFrame) (ym : str) : Z :=
  sum_of df_pur (u "매입가액") (period_rows df_pur ym).

Definition purchase_item (ym : str) (amount : Z) : LineItem :=
  {| li_ym := ym; li_category := u "차량매입";
     li_detail := u "재활용차량 매입가액"; li_amount := amount;
     li_source := u "차량매입"; li_note := u "" |}.

Definition recond_total (df_inv : DataFrame) (ym : str) : Z :=
  sum_of df_inv (u "비용(VAT포함)") (period_rows df_inv ym).

Definition recond_item (ym : str) (amount : Z) : LineItem :=
  {| li_ym := ym; li_category := u "변동비";
     li_detail := u "차량 상품화비"; li_amount := amount;
     li_source := u "차량상품화"; li_note := u "" |}.

(** The category, the deposit and the withdrawal of a ledger row. *)
Definition category (df_led : DataFrame) (r : list value) : str :=
  categorize_ledger_row (row_series df_led r).

Definition deposit (df_led : DataFrame) (r : list value) : Z :=
  clean_numeric_cell (cell df_led r (u "입금")).

Definition withdrawal (df_led : DataFrame) (r : list value) : Z :=
  clean_numeric_cell (cell df_led r (u "출금")).

(** The rows of the period classified as sales, with a deposit. *)
Definition sales_rows (df_led : DataFrame) (ym : str) : list (list value) :=
  filter (fun r => (deposit df_led r >? 0)%Z
                   && str_eqb (category df_led r) (u "매출"))
    (period_rows df_led ym).

Definition sales_total (df_led : DataFrame) (ym : str) : Z :=
  sum_of df_led (u "입금") (sales_rows df_led ym).

Definition sales_item (ym : str) (amount : Z) : LineItem :=
  {| li_ym := ym; li_category := u "매출";
     li_detail := u "장부 매출(입금)"; li_amount := amount;
     li_source := u "장부"; li_note := u "" |}.

(** The rows of the period with a withdrawal. *)
Definition expense_rows (df_led : DataFrame) (ym : str) : list (list value) :=
  filter (fun r => (withdrawal df_led r >? 0)%Z) (period_rows df_led ym).

(** The withdrawals of the period in one category. *)
Definition category_total (df_led : DataFrame) (ym cat : str) : Z :=
  sum_of df_led (u "출금")
    (filter (fun r => str_eqb (category df_led r) cat)
       (expense_rows df_led ym)).

Definition expense_item (ym cat : str) (amount : Z) : LineItem :=
  {| li_ym := ym; li_category := cat;
     li_detail := u "장부 출금(" ++ cat ++ u ")"; li_amount := amount;
     li_source := u "장부"; li_note := u "자동분류" |}.

(** The groups of the expense rows: category and sum, in the order of the
    categories. *)
Definition expense_groups (df_led : DataFrame) (ym : str) : list (str * Z) :=
  groupby_sum
    (map (fun r => (category df_led r, withdrawal df_led r))
       (expense_rows df_led ym)).

(** The item of a sum, or nothing when the sum is zero. *)
Definition item_if_nonzero (mk : Z -> LineItem) (amount : Z) : list LineItem :=
  if (amount =? 0)%Z then [] else [mk amount].

(** ** Sample tables *)

Definition sample_emp : DataFrame :=
  {| columns := [u "직원명"; u "기준년월"; u "소득구분(고정/변동/퇴사 등)";
                 u "정산입금액"];
     data :=
       [ [VStr (u "Kim"); VStr (u "2024-05"); VStr (u "직원"); VInt 100000];
         [VStr (u "Lee"); VStr (u "2024-05"); VNull; VStr (u "200,000")];
         [VStr (u "Park"); VStr (u "2024-05"); VStr (u "외부"); VInt 50000];
         [VStr (u "Choi"); VStr (u "2024-04"); VStr (u "직원"); VInt 70000] ] |}.

Definition sample_led : DataFrame :=
  {| columns := [u "기준년월"; u "계정"; u "내용"; u "입금"; u "출금"];
     data :=
       [ [VStr (u "2024-05"); VStr (u "장부"); VStr (u "차량 판매 대금");
          VInt 9000000; VInt 0];
         [VStr (u "2024-05"); VStr (u "장부"); VStr (u "5월 급여 지급");
          VInt 0; VInt 2500000];
         [VStr (u "2024-05"); VStr (u "장부"); VStr (u "사무실 월세");
          VNull; VInt 800000];
         [VStr (u "2024-05"); VStr (u "장부"); VStr (u "급여 추가분");
          VNull; VStr (u "500,000")];
         [VStr (u "2024-05"); VStr (u "장부"); VStr (u "판매 수수료 환불");
          VInt 0; VInt 30000];
         [VStr (u "2024-04"); VStr (u "장부"); VStr (u "부가세 납부");
          VInt 0; VInt 100000] ] |}.


(** A table with the period column and no row. *)
Definition sample_none : DataFrame :=
  {| columns := [u "기준년월"]; data := [] |}.

(** ** The period of one cell *)

(** What [normalize_ym] makes of a cell [v] that [pd.to_datetime] reads as
    [t]. *)
Definition normalize_cell (t : option Timestamp) (v : value) : value :=
  match t with
  | Some ts => VStr (strftime_Ym ts)
  | None => VStr (py_str v)
  end.

(** ** The loader and its files *)

Definition is_some {A : Type} (x : option A) : bool :=
  match x with Some _ => true | None => false end.

(** The workbook opens and its five sheets parse. *)
Definition workbook_ok (fs : FileSystem) (master_path : str) : bool :=
  match pd_ExcelFile fs master_path with
  | Some xls =>
    forallb (fun sheet => is_some (xls sheet))
      (map u ["1_직원소득"; "2_차량매입"; "3_장부"; "4_차량상품화";
              "5_월별결산"]%string)
  | None => false
  end.

(** The file system [fs] with the reading of [path] failing. *)
Definition failing (fs : FileSystem) (path : str) : FileSystem :=
  {| os_path_exists := os_path_exists fs;
     pd_ExcelFile := pd_ExcelFile fs;
     pd_read_excel := fun p sheet header =>
       if str_eqb p path then None else pd_read_excel fs p sheet header |}.

(** The table loaded from the legacy file of a key of [FILE_PATHS]. *)
Definition table (key : string) (t : Tables) : DataFrame :=
  if String.eqb key "income" then emp t
  else if String.eqb key "purchase" then pur t
  else if String.eqb key "ledger" then led t
  else if String.eqb key "inventory" then inv t
  else month t.

Definition LEGACY_KEYS : list string :=
  ["income"; "purchase"; "ledger"; "inventory"; "report"]%string.

(** A workbook in place whose purchase sheet does not parse, next to a
    legacy folder in order. *)
Definition sample_fs_sheet_missing : FileSystem :=
  {| os_path_exists := fun _ => true;
     pd_ExcelFile := fun _ =>
       Some (fun sheet =>
               if str_eqb sheet (u "2_차량매입") then None
               else Some sample_none);
     pd_read_excel := fun _ _ _ => Some sample_none |}.

(** No workbook, and a legacy folder with the five files. *)
Definition sample_fs_legacy : FileSystem :=
  {| os_path_exists := fun p => negb (str_eqb p (u "amotors_master_data.xlsx"));
     pd_ExcelFile := fun _ => None;
     pd_read_excel := fun p _ _ =>
       if str_eqb p (FILE_PATHS "ledger") then
         Some {| columns := [u "일자"; u "계정"; u "내용"; u "입금"; u "출금"];
                 data := [[VStr (u "2024-05-02"); VStr (u "장부");
                           VStr (u "차량 판매"); VInt 100; VInt 0]] |}
       else if str_eqb p (FILE_PATHS "purchase") then
         Some {| columns := [u "차량번호"; u "취득일자"; u "매입가액"];
                 data := [[VStr (u "12가3456"); VStr (u "2024-05-03");
                           VInt 500]] |}
       else Some sample_emp |}.

(** ** Sample columns of names *)

Definition sample_names : DataFrame :=
  {| columns := [u "직원명"];
     data := [[VStr (u "  ")]; [VStr (u "Kim")]; [VStr (u "Kim")];
              [VStr (u "")]; [VStr (u "Lee")]; [VNull]] |}.

(** ** Auxiliary notions of the proofs *)

(** A keyword that neither starts nor ends with white space. *)
Definition strippable (kw : str) : bool :=
  match kw with
  | [] => false
  | a :: _ => negb (isspace a) && negb (isspace (last kw 0%N))
  end.

(** The order of the groups, the sum and the presence of a key among the
    rows that are grouped. *)
Definition key_lt (x y : str * Z) : Prop := str_ltb (fst x) (fst y) = true.

Definition key_sum (k : str) (l : list (str * Z)) : Z :=
  sum (map snd (filter (fun kv => str_eqb (fst kv) k) l)).

Definition has_key (k : str) (l : list (str * Z)) : Prop :=
  exists v, In (k, v) l.

(** The order of the candidate lists. *)
Definition str_le (a b : str) : Prop := str_leb a b = true.

(** ** Further notions of the summary *)

(** The step reads the period column of a table that lacks it. *)
Definition period_missing (df : DataFrame) : bool :=
  negb (empty df) && negb (has_column df (u "기준년월")).

(** The condition under which the summary raises [KeyError]. *)
Definition summary_key_error (df_emp df_pur df_led df_inv : DataFrame) : bool :=
  period_missing df_emp
  || (period_missing df_pur && has_column df_pur (u "매입가액"))
  || (period_missing df_inv && has_column df_inv (u "비용(VAT포함)"))
  || period_missing df_led.

(** The four sources that an item of the summary can name. *)
Definition SOURCES : list str :=
  map u ["직원소득"; "차량매입"; "차량상품화"; "장부"]%string.

(** The items of the summary when it returns. *)
Definition summary_items (df_emp df_pur df_led df_inv : DataFrame) (ym : str)
  : list LineItem :=
  item_if_nonzero (labor_item ym) (labor_total df_emp ym)
  ++ item_if_nonzero (purchase_item ym) (purchase_total df_pur ym)
  ++ item_if_nonzero (recond_item ym) (recond_total df_inv ym)
  ++ item_if_nonzero (sales_item ym) (sales_total df_led ym)
  ++ expense_items ym (expense_groups df_led ym).

(** A table with rows and without the period column. *)
Definition sample_no_period : DataFrame :=
  {| columns := [u "직원명"; u "정산입금액"];
     data := [[VStr (u "Kim"); VInt 100000]] |}.

(** ** Keywords without case *)



(** ** Frames with whole rows *)

(** Every row has one cell per column. *)
Definition rectangular (df : DataFrame) : Prop :=
  forall r, In r (data df) -> List.length r = List.length (columns df).

(** The amount that [format_currency] shows for a cell. *)
Definition shown_amount (pd_to_numeric : value -> numeric) (v : value) : Z :=
  integer_part (to_numeric_cell pd_to_numeric v).

(** The text that [str] prints for the float m x 10^e in exponent form,
    as it does from 1e16 on. *)
Definition exponent_str (m e : Z) : str :=
  str_of_int m ++ u "e+" ++ str_of_int e.

(** A reading of strings for the examples: the one of [clean_numeric]
    without the replacement. *)
Definition plain_to_numeric (v : value) : numeric := to_numeric (py_str v).

(** ** Sample tables of the searches *)

(** Vehicle numbers, one of them read from the sheet as a number. *)
Definition sample_pur : DataFrame :=
  {| columns := [u "차량번호"; u "기준년월"; u "매입가액"];
     data := [ [VStr (u "12가3456"); VStr (u "2024-05"); VInt 5000000];
               [VInt 7890; VStr (u "2024-05"); VInt 3000000] ] |}.

(** A ledger with related employees and no manager column. *)
Definition sample_led_related : DataFrame :=
  {| columns := [u "기준년월"; u "관련직원명"; u "출금"];
     data := [ [VStr (u "2024-05"); VStr (u "Kim"); VInt 1000] ] |}.

(** The rows of [df] whose cell in column [c] is the string [s]. *)
Definition rows_of (df : DataFrame) (c s : str) : list (list value) :=
  filter (fun r => match cell df r c with
                   | VStr x => str_eqb x s
                   | _ => false
                   end) (data df).

(** ** What the common steps of the loader keep *)

(** A table [loaded] from a sheet, with the date columns [date_cols]: the
    rows stay whole and as many, no column is lost, the period column is
    there, and every column that is neither the period column nor a date
    column keeps its cells. *)
Definition kept (sheet loaded : DataFrame) (date_cols : list str) : Prop :=
  rectangular loaded
  /\ List.length (data loaded) = List.length (data sheet)
  /\ (forall c, has_column sheet c = true -> has_column loaded c = true)
  /\ has_column loaded (u "기준년월") = true
  /\ (forall c, c <> u "기준년월" -> ~ In c date_cols ->
                col loaded c = col sheet c).

(** A ledger sheet with its own period column. *)
Definition sample_led_sheet : DataFrame :=
  {| columns := [u "일자"; u "기준년월(YYYY-MM)"; u "내용"; u "입금"];
     data := [[VStr (u "2024-05-02"); VStr (u "2024-05-02");
               VStr (u "차량 판매"); VInt 100]] |}.

(** The five sheets of a workbook. *)
Definition sample_sheets (sheet : str) : option DataFrame :=
  if str_eqb sheet (u "3_장부") then Some sample_led_sheet
  else Some sample_emp.

Definition sample_fs_workbook : FileSystem :=
  {| os_path_exists := fun _ => true;
     pd_ExcelFile := fun _ => Some sample_sheets;
     pd_read_excel := fun _ _ _ => None |}.

(** An income file of the legacy folder without the income type. *)
Definition sample_income_file : DataFrame :=
  {| columns := [u "성명"; u "귀속년월"; u "Unnamed: 2"; u "정산입금액"];
     data := [ [VStr (u "Kim"); VStr (u "2024-05-01"); VNull; VInt 100000];
               [VStr (u "외부 강사"); VStr (u "2024-05-01"); VNull;
                VInt 50000] ] |}.

Definition sample_fs_income : FileSystem :=
  {| os_path_exists := fun p => negb (str_eqb p (u "amotors_master_data.xlsx"));
     pd_ExcelFile := fun _ => None;
     pd_read_excel := fun p _ _ =>
       if str_eqb p (FILE_PATHS "income") then Some sample_income_file
       else None |}.

(** A legacy folder whose purchase file has no acquisition date. *)
Definition sample_fs_no_date : FileSystem :=
  {| os_path_exists := fun p => negb (str_eqb p (u "amotors_master_data.xlsx"));
     pd_ExcelFile := fun _ => None;
     pd_read_excel := fun p _ _ =>
       if str_eqb p (FILE_PATHS "purchase") then
         Some {| columns := [u "차량번호"; u "매입가액"];
                 data := [[VStr (u "12가3456"); VInt 500]] |}
       else Some sample_emp |}.

(** * Properties *)

(** ** Strings *)

Lemma str_eqb_eq (a b : str) : str_eqb a b = true <-> a = b.
Proof.
  unfold str_eqb. destruct (list_eq_dec N.eq_dec a b); split;
    intros; congruence.
Qed.

Lemma str_eqb_neq (a b : str) : str_eqb a b = false <-> a <> b.
Proof.
  unfold str_eqb. destruct (list_eq_dec N.eq_dec a b); split;
    intros; congruence.
Qed.

Lemma str_eqb_refl (a : str) : str_eqb a a = true.
Proof. now apply str_eqb_eq. Qed.

Lemma starts_with_spec (p s : str) :
  starts_with p s = true <-> exists q, s = p ++ q.
Proof.
  revert s. induction p as [|a p IH]; intros s; simpl.
  - split; [intros _; now exists s | reflexivity].
  - destruct s as [|b s].
    + split; [discriminate | intros [q Hq]; discriminate].
    + rewrite andb_true_iff, N.eqb_eq, IH. split.
      * intros [-> [q ->]]. now exists q.
      * intros [q Hq]. injection Hq as -> ->. split; [reflexivity | now exists q].
Qed.

Lemma contains_spec (kw s : str) :
  contains kw s = true <-> exists p q, s = p ++ kw ++ q.
Proof.
  induction s as [|c s IH].
  - simpl. rewrite orb_false_r, starts_with_spec. split.
    + intros [q Hq]. now exists [], q.
    + intros [p [q Hq]]. destruct p; [now exists q | discriminate].
  - cbn [contains]. rewrite orb_true_iff, starts_with_spec, IH. split.
    + intros [[q Hq] | [p [q Hq]]].
      * now exists [], q.
      * exists (c :: p), q. now rewrite Hq.
    + intros [p [q Hq]]. destruct p as [|c' p].
      * left. now exists q.
      * right. injection Hq as _ Hq. now exists p, q.
Qed.

(** ** The classifier *)

Ltac split_contains :=
  repeat match goal with
         | |- (if ?c then _ else _) = _ =>
           match c with
           | context [contains ?k ?s] =>
             destruct (contains k s); cbn [orb andb negb]; try reflexivity
           end
         end.

Lemma categorize_ledger_row_rules (row : Series) :
  categorize_ledger_row row
  = first_match (field_test (row_account row) (row_desc row)) RULES.
Proof.
  unfold categorize_ledger_row.
  fold (row_account row). fold (row_desc row).
  cbv zeta.
  generalize (row_account row) as account, (row_desc row) as desc.
  intros account desc.
  unfold RULES.
  unfold field_test. cbn [first_match existsb map fst snd].
  split_contains.
Qed.

Lemma first_match_in test rules :
  In (first_match test rules) (map snd rules ++ [u "기타"]).
Proof.
  induction rules as [|[tests cat] rest IH]; cbn [first_match map snd app].
  - now left.
  - destruct (existsb test tests); [now left | now right].
Qed.

Lemma first_match_none test rules :
  (forall tests cat t, In (tests, cat) rules -> In t tests -> test t = false) ->
  first_match test rules = u "기타".
Proof.
  induction rules as [|[tests cat] rest IH]; intros H; cbn [first_match].
  - reflexivity.
  - replace (existsb test tests) with false.
    + apply IH. intros ts c t Hin. apply (H ts c t). now right.
    + symmetry. apply not_true_is_false. intros Hex.
      apply existsb_exists in Hex. destruct Hex as [t [Hin Ht]].
      rewrite (H tests cat t (or_introl eq_refl) Hin) in Ht. discriminate.
Qed.

(** C1.  The classifier returns, for every row, one category of the fixed
    set; the category depends on the account label and the description of
    the row only; an account label with [상사이전] gives [차량매입] whatever
    the description; a description with [급여] that no earlier rule matches
    gives [인건비]; a row that no keyword matches gives [기타]. *)
Theorem categorize_ledger_row_total (row : Series) :
  In (categorize_ledger_row row) CATEGORIES
  /\ (forall row' : Series,
        row_account row' = row_account row ->
        row_desc row' = row_desc row ->
        categorize_ledger_row row' = categorize_ledger_row row)
  /\ (contains (u "상사이전") (row_account row) = true ->
      categorize_ledger_row row = u "차량매입")
  /\ (contains (u "급여") (row_desc row) = true ->
      contains (u "차대") (row_account row) = false ->
      contains (u "상사이전") (row_account row) = false ->
      contains (u "매입") (row_desc row) = false ->
      contains (u "판매") (row_desc row) = false ->
      contains (u "매출") (row_desc row) = false ->
      categorize_ledger_row row = u "인건비")
  /\ (existsb
        (fun rule => existsb (field_test (row_account row) (row_desc row))
                       (fst rule)) RULES = false ->
      categorize_ledger_row row = u "기타").
Proof.
  repeat split.
  - rewrite categorize_ledger_row_rules.
    exact (first_match_in _ RULES).
  - intros row' Ha Hd. rewrite !categorize_ledger_row_rules, Ha, Hd.
    reflexivity.
  - intros H. rewrite categorize_ledger_row_rules. unfold RULES, field_test.
    cbn [first_match existsb map fst snd]. rewrite H.
    now rewrite orb_true_r.
  - intros H1 H2 H3 H4 H5 H6. rewrite categorize_ledger_row_rules.
    unfold RULES, field_test. cbn [first_match existsb map fst snd].
    rewrite H1, H2, H3, H4, H5, H6. reflexivity.
  - intros H. rewrite categorize_ledger_row_rules.
    apply first_match_none. intros tests cat t Hin Ht.
    apply not_true_is_false. intros Htest.
    assert (E : existsb
                  (fun rule => existsb
                     (field_test (row_account row) (row_desc row)) (fst rule))
                  RULES = true).
    { apply existsb_exists. exists (tests, cat). split; [exact Hin|].
      apply existsb_exists. now exists t. }
    rewrite H in E. discriminate.
Qed.

Lemma categorize_ledger_row_total_witness :
  categorize_ledger_row
    [(u "계정", VStr (u "상사이전")); (u "내용", VStr (u "급여"))] = u "차량매입"
  /\ categorize_ledger_row
       [(u "계정", VStr (u "장부")); (u "내용", VStr (u "5월 급여 지급"))]
     = u "인건비"
  /\ categorize_ledger_row
       [(u "계정", VStr (u "장부")); (u "내용", VStr (u "커피"))] = u "기타".
Proof.
  split; [|split].
  - apply (proj1 (proj2 (proj2 (categorize_ledger_row_total _)))).
    vm_compute. reflexivity.
  - apply (proj1 (proj2 (proj2 (proj2 (categorize_ledger_row_total _)))));
      vm_compute; reflexivity.
  - apply (proj2 (proj2 (proj2 (proj2 (categorize_ledger_row_total _))))).
    vm_compute. reflexivity.
Defined.

(** What the code does: the classifier is the chain of its seven rules, the
    first match wins, and each keyword test looks for the keyword as written
    in the one field its rule reads, the account label for the two transfer
    markers of rule 1 and the description for every other keyword.  The
    combined lower-case text that the function builds takes no part. *)
Lemma categorize_ledger_row_first_match (row : Series) :
  categorize_ledger_row row
  = first_match (field_test (row_account row) (row_desc row)) RULES.
Proof. exact (categorize_ledger_row_rules row). Qed.

(** C2.  The code at an input where it leaves the claim.  The ledger row of
    account label [부가세] and description [3월분 납부] has the tax keyword
    [부가세] of rule 5 in the combined text of its account label and
    description, and no keyword of the rules 1 to 4 there; the rules applied
    to the combined text give [세금], and the code gives [기타]. *)
Theorem categorize_ledger_row_account_keyword :
  let row :=
    [(u "계정구분(장부/부가세/차대/이전비/상사이전/미수금/일계표/결산/기타)",
      VStr (u "부가세"));
     (u "내용", VStr (u "3월분 납부"))] in
  row_account row = u "부가세"
  /\ row_desc row = u "3월분 납부"
  /\ combined_test (row_account row) (row_desc row) (Description, u "부가세")
     = true
  /\ categorize_combined row = u "세금"
  /\ categorize_ledger_row row = u "기타".
Proof. vm_compute. repeat split. Qed.

(** The classifier is not the chain of rules applied to the combined text:
    the labour keyword [급여] in the account label alone is in the combined
    text, and the row is classified [기타]. *)
Lemma categorize_combined_differs :
  ~ (forall row : Series, categorize_ledger_row row = categorize_combined row).
Proof.
  intros H.
  specialize (H [(u "계정", VStr (u "급여")); (u "내용", VStr (u ""))]).
  vm_compute in H. discriminate H.
Qed.

Example categorize_samples :
  map (fun desc =>
         categorize_ledger_row
           [(u "계정", VStr (u "장부")); (u "내용", VStr desc)])
    (map u ["중고차 매입"; "차량 판매 대금"; "5월 급여 지급"; "사무실 월세";
            "부가세 납부"; "카드수수료"; "외부 광택"; "커피"]%string)
  = map u ["차량매입"; "매출"; "인건비"; "고정비"; "세금"; "변동비"; "변동비";
           "기타"]%string.
Proof. vm_compute. reflexivity. Qed.

(** ** Stripping and lower case *)

Lemma lstrip_app_nonspace (p : str) (x : N) (t : str) :
  isspace x = false -> lstrip (p ++ x :: t) = lstrip p ++ x :: t.
Proof.
  intros Hx. induction p as [|c p IH]; cbn [lstrip app].
  - now rewrite Hx.
  - destruct (isspace c); [exact IH | reflexivity].
Qed.

Lemma rstrip_app_nonspace (p : str) (x : N) (t : str) :
  isspace x = false -> rstrip (p ++ x :: t) = p ++ x :: rstrip t.
Proof.
  intros Hx. unfold rstrip.
  rewrite rev_app_distr. cbn [rev]. rewrite <- app_assoc. cbn [app].
  rewrite lstrip_app_nonspace by exact Hx.
  rewrite rev_app_distr. cbn [rev]. rewrite rev_involutive, <- app_assoc.
  reflexivity.
Qed.

Lemma lstrip_suffix (s : str) : exists w, s = w ++ lstrip s.
Proof.
  induction s as [|c s [w IH]]; cbn [lstrip].
  - now exists [].
  - destruct (isspace c).
    + exists (c :: w). cbn [app]. now rewrite <- IH.
    + now exists [].
Qed.

Lemma rstrip_prefix (s : str) : exists w, s = rstrip s ++ w.
Proof.
  unfold rstrip. destruct (lstrip_suffix (rev s)) as [w Hw].
  exists (rev w). rewrite <- rev_app_distr, <- Hw. now rewrite rev_involutive.
Qed.

Lemma strip_infix (s : str) : exists w1 w2, s = w1 ++ strip s ++ w2.
Proof.
  unfold strip. destruct (lstrip_suffix s) as [w1 H1].
  destruct (rstrip_prefix (lstrip s)) as [w2 H2].
  exists w1, w2. now rewrite <- H2.
Qed.

Lemma strippable_ends (kw : str) :
  strippable kw = true ->
  exists a k b k', kw = a :: k /\ kw = k' ++ [b]
                   /\ isspace a = false /\ isspace b = false.
Proof.
  unfold strippable. destruct kw as [|a k]; [discriminate|].
  intros H. apply andb_true_iff in H. destruct H as [Ha Hb].
  apply negb_true_iff in Ha, Hb.
  exists a, k, (last (a :: k) 0%N), (removelast (a :: k)).
  repeat split; try assumption.
  apply app_removelast_last. discriminate.
Qed.

Lemma contains_strip (kw s : str) :
  strippable kw = true -> contains kw (strip s) = contains kw s.
Proof.
  intros Hk. apply eq_true_iff_eq. rewrite !contains_spec. split.
  - intros [p [q H]]. destruct (strip_infix s) as [w1 [w2 Hs]].
    exists (w1 ++ p), (q ++ w2). rewrite Hs, H.
    now rewrite <- !app_assoc.
  - intros [p [q H]].
    destruct (strippable_ends kw Hk) as [a [k [b [k' [E1 [E2 [Ha Hb]]]]]]].
    exists (lstrip p), (rstrip q). unfold strip. rewrite H.
    assert (L : lstrip (p ++ kw ++ q) = lstrip p ++ kw ++ q).
    { rewrite E1. cbn [app]. now apply lstrip_app_nonspace. }
    rewrite L.
    assert (R : forall h, rstrip (h ++ kw ++ q) = h ++ kw ++ rstrip q).
    { intros h. rewrite E2, <- !app_assoc. cbn [app].
      rewrite (app_assoc h k' (b :: q)).
      rewrite rstrip_app_nonspace by exact Hb.
      now rewrite <- app_assoc. }
    apply R.
Qed.

Lemma isspace_lower_cp (c : N) : isspace (lower_cp c) = isspace c.
Proof.
  unfold lower_cp.
  destruct ((0x41 <=? c) && (c <=? 0x5A))%N eqn:E; [|reflexivity].
  apply andb_true_iff in E. destruct E as [E1 E2].
  apply N.leb_le in E1, E2.
  assert (F : forall d, (0x41 <= d <= 0x7A)%N -> isspace d = false).
  { intros d Hd. unfold isspace.
    repeat (apply orb_false_intro);
      first [ apply N.eqb_neq; lia
            | apply andb_false_iff; left; apply N.leb_gt; lia
            | apply andb_false_iff; right; apply N.leb_gt; lia ]. }
  rewrite !F by lia. reflexivity.
Qed.

Lemma lstrip_lower (s : str) : lstrip (lower s) = lower (lstrip s).
Proof.
  induction s as [|c s IH]; cbn [lower map lstrip]; [reflexivity|].
  rewrite isspace_lower_cp. destruct (isspace c); [exact IH | reflexivity].
Qed.

Lemma rev_lower (s : str) : rev (lower s) = lower (rev s).
Proof. unfold lower. symmetry. apply map_rev. Qed.

Lemma strip_lower (s : str) : strip (lower s) = lower (strip s).
Proof.
  unfold strip, rstrip.
  now rewrite lstrip_lower, rev_lower, lstrip_lower, rev_lower.
Qed.

Lemma exclusion_keywords_strippable :
  forallb (fun kw => strippable (lower kw)) EXCLUDE_INCOME_KEYWORDS = true.
Proof. vm_compute. reflexivity. Qed.

Lemma existsb_ext_in {A : Type} (f g : A -> bool) (l : list A) :
  (forall x, In x l -> f x = g x) -> existsb f l = existsb g l.
Proof.
  induction l as [|a l IH]; intros H; cbn [existsb]; [reflexivity|].
  rewrite (H a (or_introl eq_refl)), IH; [reflexivity|].
  intros x Hx. apply H. now right.
Qed.

(** The test on an income type, without the stripping: the keywords have no
    white space at their ends. *)
Lemma is_excluded_income_type_keywords (v : value) :
  is_excluded_income_type v = has_exclusion_keyword (py_str v).
Proof.
  unfold is_excluded_income_type, has_exclusion_keyword.
  assert (K : forall s,
             existsb (fun kw => contains (lower kw) (lower (strip s)))
               EXCLUDE_INCOME_KEYWORDS
             = existsb (fun kw => contains (lower kw) (lower s))
                 EXCLUDE_INCOME_KEYWORDS).
  { intros s. apply existsb_ext_in. intros kw Hin.
    rewrite <- strip_lower. apply contains_strip.
    pose proof exclusion_keywords_strippable as F.
    rewrite forallb_forall in F. now apply F. }
  destruct v as [|z|s|r]; cbn [isna py_str].
  - vm_compute. reflexivity.
  - destruct (str_eqb (strip (str_of_int z)) (u "")) eqn:E; [|apply K].
    apply str_eqb_eq in E. rewrite <- K, E. vm_compute. reflexivity.
  - destruct (str_eqb (strip s) (u "")) eqn:E; [|apply K].
    apply str_eqb_eq in E. rewrite <- K, E. vm_compute. reflexivity.
  - destruct (str_eqb (strip r) (u "")) eqn:E; [|apply K].
    apply str_eqb_eq in E. rewrite <- K, E. vm_compute. reflexivity.
Qed.

(** ** Numbers as text *)

Lemma uint_str_digits (d : Decimal.uint) : forallb isdigit (uint_str d) = true.
Proof. induction d; cbn [uint_str forallb]; try rewrite IHd; reflexivity. Qed.

Lemma isdigit_numeric (ds : str) :
  forallb isdigit ds = true -> forallb numeric_char ds = true.
Proof.
  induction ds as [|c ds IH]; cbn [forallb]; [reflexivity|].
  intros H. apply andb_true_iff in H. destruct H as [Hc Hs].
  unfold numeric_char at 1. rewrite Hc. cbn [orb andb]. now apply IH.
Qed.

Lemma filter_all {A : Type} (p : A -> bool) (l : list A) :
  forallb p l = true -> filter p l = l.
Proof.
  induction l as [|a l IH]; cbn [forallb filter]; [reflexivity|].
  intros H. apply andb_true_iff in H. destruct H as [Ha Hl].
  rewrite Ha. now rewrite IH.
Qed.

Lemma isdigit_not_minus (c : N) : isdigit c = true -> (c =? 0x2D)%N = false.
Proof.
  unfold isdigit. intros H. apply andb_true_iff in H. destruct H as [H _].
  apply N.leb_le in H. apply N.eqb_neq. lia.
Qed.

Lemma isdigit_not_point (c : N) : isdigit c = true -> (c =? 0x2E)%N = false.
Proof.
  unfold isdigit. intros H. apply andb_true_iff in H. destruct H as [H _].
  apply N.leb_le in H. apply N.eqb_neq. lia.
Qed.

Lemma span_digits_app (ds t : str) :
  forallb isdigit ds = true ->
  span_digits (ds ++ t) = (ds ++ fst (span_digits t), snd (span_digits t)).
Proof.
  induction ds as [|c ds IH]; cbn [forallb app]; intros H.
  - now destruct (span_digits t).
  - apply andb_true_iff in H. destruct H as [Hc Hs].
    cbn [span_digits]. rewrite Hc, (IH Hs). reflexivity.
Qed.

(** A run of digits, with a sign or a fraction or without, as
    [pd.to_numeric] reads it. *)
Lemma to_numeric_decimal (neg : bool) (ds fr : str) (point : bool) :
  forallb isdigit ds = true -> ds <> [] -> forallb isdigit fr = true ->
  to_numeric ((if neg then [0x2D%N] else [])
              ++ ds ++ (if point then 0x2E%N :: fr else []))
  = Num neg ds (if point then fr else []).
Proof.
  intros Hd Hne Hf. unfold to_numeric.
  assert (S : span_digits (ds ++ (if point then 0x2E%N :: fr else []))
              = (ds, if point then 0x2E%N :: fr else [])).
  { rewrite span_digits_app by exact Hd.
    destruct point; cbn [span_digits isdigit]; cbn; now rewrite app_nil_r. }
  destruct ds as [|c ds]; [contradiction|].
  cbn [forallb] in Hd. apply andb_true_iff in Hd. destruct Hd as [Hc Hd].
  destruct neg; cbn [app].
  - cbn [N.eqb Pos.eqb]. change ((0x2D =? 0x2D)%N) with true. cbv iota.
    change (c :: ds ++ (if point then 0x2E%N :: fr else []))
      with ((c :: ds) ++ (if point then 0x2E%N :: fr else [])).
    rewrite S. destruct point; cbn [is_nil andb negb].
    + change ((0x2E =? 0x2E)%N) with true. now rewrite Hf.
    + reflexivity.
  - rewrite (isdigit_not_minus c Hc).
    change (c :: ds ++ (if point then 0x2E%N :: fr else []))
      with ((c :: ds) ++ (if point then 0x2E%N :: fr else [])).
    rewrite S. destruct point; cbn [is_nil andb negb].
    + change ((0x2E =? 0x2E)%N) with true. now rewrite Hf.
    + reflexivity.
Qed.

Lemma digits_value_acc (d : Decimal.uint) (acc : positive) :
  fold_left (fun a c => (10 * a + (c - 0x30))%N) (uint_str d) (N.pos acc)
  = N.pos (Pos.of_uint_acc d acc).
Proof.
  revert acc. induction d; intros acc; cbn [uint_str fold_left Pos.of_uint_acc];
    [reflexivity | ..];
    rewrite <- IHd; f_equal; unfold digit_cp; lia.
Qed.

Lemma digits_value_uint (d : Decimal.uint) :
  digits_value (uint_str d) = Pos.of_uint d.
Proof.
  unfold digits_value.
  induction d; cbn [uint_str fold_left Pos.of_uint]; [reflexivity | exact IHd | ..];
    rewrite <- digits_value_acc; f_equal.
Qed.

Lemma uint_str_pos (p : positive) : uint_str (Pos.to_uint p) <> [].
Proof.
  intros E. pose proof (DecimalPos.Unsigned.of_to p) as H.
  rewrite <- digits_value_uint, E in H. discriminate H.
Qed.

Lemma str_of_int_numeric (z : Z) :
  forallb numeric_char (str_of_int z) = true.
Proof.
  unfold str_of_int. destruct (Z.to_int z); cbn [forallb];
    [|change (numeric_char 0x2D) with true; cbn [andb]];
    apply isdigit_numeric, uint_str_digits.
Qed.

(** The integer part that [clean_numeric] reads from the text of an
    integer, followed by a fraction or not. *)
Lemma clean_numeric_cell_int (z : Z) (point : bool) (fr : str) :
  forallb isdigit fr = true ->
  integer_part (to_numeric
    (str_of_int z ++ (if point then 0x2E%N :: fr else []))) = z.
Proof.
  intros Hf. unfold str_of_int.
  destruct z as [|p|p]; cbn [Z.to_int]; cbv iota.
  - assert (T : to_numeric (uint_str Decimal.zero
                            ++ (if point then 0x2E%N :: fr else []))
                = Num false [0x30%N] (if point then fr else [])).
    { apply (to_numeric_decimal false [0x30%N] fr point eq_refl);
        [discriminate | exact Hf]. }
    rewrite T. reflexivity.
  - assert (T : to_numeric (uint_str (Pos.to_uint p)
                            ++ (if point then 0x2E%N :: fr else []))
                = Num false (uint_str (Pos.to_uint p))
                    (if point then fr else [])).
    { apply (to_numeric_decimal false (uint_str (Pos.to_uint p)) fr point);
        [apply uint_str_digits | apply uint_str_pos | exact Hf]. }
    rewrite T. cbn [integer_part].
    now rewrite digits_value_uint, DecimalPos.Unsigned.of_to.
  - assert (T : to_numeric ((0x2D%N :: uint_str (Pos.to_uint p))
                            ++ (if point then 0x2E%N :: fr else []))
                = Num true (uint_str (Pos.to_uint p))
                    (if point then fr else [])).
    { apply (to_numeric_decimal true (uint_str (Pos.to_uint p)) fr point);
        [apply uint_str_digits | apply uint_str_pos | exact Hf]. }
    rewrite T. cbn [integer_part].
    now rewrite digits_value_uint, DecimalPos.Unsigned.of_to.
Qed.

Lemma clean_numeric_cell_VInt (z : Z) : clean_numeric_cell (VInt z) = z.
Proof.
  unfold clean_numeric_cell, str_replace_non_numeric. cbn [py_str].
  rewrite filter_all by apply str_of_int_numeric.
  pose proof (clean_numeric_cell_int z false [] eq_refl) as H.
  cbn iota in H. now rewrite app_nil_r in H.
Qed.

Lemma str_replace_idempotent (s : str) :
  str_replace_non_numeric (str_replace_non_numeric s)
  = str_replace_non_numeric s.
Proof.
  unfold str_replace_non_numeric. apply filter_all.
  apply forallb_forall. intros c Hc. now apply filter_In in Hc.
Qed.

(** ** Frames *)

Lemma filter_mask {A : Type} (p : A -> bool) (l : list A) :
  map snd (filter fst (combine (map p l) l)) = filter p l.
Proof.
  induction l as [|a l IH]; cbn [map combine filter fst]; [reflexivity|].
  destruct (p a); cbn [map snd]; now rewrite IH.
Qed.

Lemma filter_and {A : Type} (p q : A -> bool) (l : list A) :
  filter q (filter p l) = filter (fun x => p x && q x) l.
Proof.
  induction l as [|a l IH]; cbn [filter]; [reflexivity|].
  destruct (p a); cbn [filter andb]; [destruct (q a)|]; now rewrite IH.
Qed.

Lemma map2_map {A B C D : Type} (f : B -> C -> D) (g : A -> B) (h : A -> C)
  (l : list A) :
  map2 f (map g l) (map h l) = map (fun x => f (g x) (h x)) l.
Proof.
  induction l as [|a l IH]; cbn [map map2]; [reflexivity | now rewrite IH].
Qed.

Lemma combine_map {A B C : Type} (g : A -> B) (h : A -> C) (l : list A) :
  combine (map g l) (map h l) = map (fun x => (g x, h x)) l.
Proof.
  induction l as [|a l IH]; cbn [map combine]; [reflexivity | now rewrite IH].
Qed.

Lemma filter_map_comm {A B : Type} (g : A -> B) (p : B -> bool) (l : list A) :
  filter p (map g l) = map g (filter (fun x => p (g x)) l).
Proof.
  induction l as [|a l IH]; cbn [map filter]; [reflexivity|].
  destruct (p (g a)); cbn [map]; now rewrite IH.
Qed.

(** After [fillna(0)] the cast to integers does not raise. *)
Lemma astype_int_fillna0 (x : numeric) :
  astype_int (fillna0 x) = Some (integer_part x).
Proof. destruct x as [|[|] ip fr]; reflexivity. Qed.

Lemma traverse_fillna0 (l : list numeric) :
  traverse astype_int (map fillna0 l) = Some (map integer_part l).
Proof.
  induction l as [|x l IH]; [reflexivity|].
  cbn [map traverse]. rewrite astype_int_fillna0, IH. reflexivity.
Qed.

(** [clean_numeric] does not raise, and reads each cell by itself. *)
Lemma clean_numeric_map (series : list value) :
  clean_numeric series = Some (map clean_numeric_cell series).
Proof.
  unfold clean_numeric, astype_str. rewrite traverse_fillna0, !map_map.
  reflexivity.
Qed.

(** [row.get] on a row of a frame reads the cell under the label. *)
Lemma row_get_cell (cols : list str) (r : list value) (c : str) :
  row_get (combine cols r) c VNull = cell_at cols r c.
Proof.
  unfold row_get. revert r.
  induction cols as [|c' cols IH]; intros r; [reflexivity|].
  destruct r as [|v r]; [reflexivity|].
  cbn [combine find fst snd cell_at].
  destruct (str_eqb c' c); [reflexivity | apply IH].
Qed.

Lemma col_cells (df : DataFrame) (c : str) :
  col df c = map (fun r => cell df r c) (data df).
Proof.
  unfold col, cell, row_series. apply map_ext. intros r. apply row_get_cell.
Qed.

Lemma eq_str_period (df : DataFrame) (ym : str) :
  eq_str (col df (u "기준년월")) ym = map (in_period df ym) (data df).
Proof. unfold eq_str. rewrite col_cells, map_map. reflexivity. Qed.

Lemma mask_rows_period (df : DataFrame) (ym : str) :
  mask_rows df (eq_str (col df (u "기준년월")) ym)
  = {| columns := columns df; data := period_rows df ym |}.
Proof.
  unfold mask_rows. now rewrite eq_str_period, filter_mask.
Qed.

Lemma clean_col (df : DataFrame) (c : str) (rs : list (list value)) :
  clean_numeric (col {| columns := columns df; data := rs |} c)
  = Some (map (fun r => clean_numeric_cell (cell df r c)) rs).
Proof. now rewrite clean_numeric_map, col_cells, map_map. Qed.

Lemma row_get_absent (cols : list str) (r : list value) (c : str) (d : value) :
  existsb (str_eqb c) cols = false -> row_get (combine cols r) c d = d.
Proof.
  unfold row_get. revert r.
  induction cols as [|c' cols IH]; intros r H; [reflexivity|].
  destruct r as [|v r]; [reflexivity|].
  cbn [existsb] in H. apply orb_false_iff in H. destruct H as [H1 H2].
  cbn [combine find fst].
  replace (str_eqb c' c) with false.
  - now apply IH.
  - symmetry. apply str_eqb_neq. apply str_eqb_neq in H1. congruence.
Qed.

Lemma cell_absent (df : DataFrame) (r : list value) (c : str) :
  has_column df c = false -> cell df r c = VNull.
Proof.
  intros H. unfold cell. rewrite <- row_get_cell. now apply row_get_absent.
Qed.

Lemma clean_numeric_cell_null : clean_numeric_cell VNull = 0%Z.
Proof. vm_compute. reflexivity. Qed.

Lemma sum_of_absent (df : DataFrame) (c : str) (rs : list (list value)) :
  has_column df c = false -> sum_of df c rs = 0%Z.
Proof.
  intros H. unfold sum_of. induction rs as [|r rs IH]; [reflexivity|].
  cbn [map sum fold_right]. rewrite cell_absent by exact H.
  rewrite clean_numeric_cell_null. exact IH.
Qed.

Lemma empty_no_rows (df : DataFrame) (c : str) :
  empty df = true -> has_column df c = true -> data df = [].
Proof.
  unfold empty, has_column. destruct (columns df); [discriminate|].
  destruct (data df); [reflexivity | discriminate].
Qed.

Lemma item_if_nonzero_eq (mk : Z -> LineItem) (amount : Z)
  (rows : list LineItem) :
  (if negb (amount =? 0)%Z then rows ++ [mk amount] else rows)
  = rows ++ item_if_nonzero mk amount.
Proof.
  unfold item_if_nonzero. destruct (amount =? 0)%Z; cbn [negb];
    [now rewrite app_nil_r | reflexivity].
Qed.

(** ** Step 1 of the summary *)

Lemma summary_emp_total (df_emp : DataFrame) (ym : str) (rows : list LineItem) :
  has_column df_emp (u "기준년월") = true ->
  summary_emp df_emp ym rows
  = Some (rows ++ item_if_nonzero (labor_item ym) (labor_total df_emp ym)).
Proof.
  intros Hp. unfold summary_emp.
  destruct (empty df_emp) eqn:E; cbn [negb].
  - unfold labor_total, labor_rows.
    rewrite (empty_no_rows df_emp _ E Hp). cbn. now rewrite app_nil_r.
  - unfold getitem. rewrite Hp. cbn [bind].
    rewrite mask_rows_period.
    set (c := u "소득구분(고정/변동/퇴사 등)").
    change (has_column {| columns := columns df_emp;
                          data := period_rows df_emp ym |} c)
      with (has_column df_emp c).
    assert (R : (if has_column df_emp c
                 then mask_rows {| columns := columns df_emp;
                                   data := period_rows df_emp ym |}
                        (map negb (map is_excluded_income_type
                           (col {| columns := columns df_emp;
                                   data := period_rows df_emp ym |} c)))
                 else {| columns := columns df_emp;
                         data := period_rows df_emp ym |})
                = {| columns := columns df_emp;
                     data := labor_rows df_emp ym |}).
    { unfold labor_rows, period_rows. fold c.
      destruct (has_column df_emp c) eqn:Hc.
      - unfold mask_rows. cbn [columns data]. f_equal.
        rewrite col_cells, !map_map. cbn [data].
        rewrite filter_mask, filter_and. apply filter_ext. intros r.
        change (cell {| columns := columns df_emp;
                        data := filter (in_period df_emp ym) (data df_emp) |}
                  r c) with (cell df_emp r c).
        now rewrite is_excluded_income_type_keywords.
      - f_equal. apply filter_ext. intros r.
        rewrite (cell_absent df_emp r c Hc).
        replace (has_exclusion_keyword (py_str VNull)) with false
          by (vm_compute; reflexivity).
        now rewrite andb_true_r. }
    rewrite R.
    change (has_column {| columns := columns df_emp;
                          data := labor_rows df_emp ym |} (u "정산입금액"))
      with (has_column df_emp (u "정산입금액")).
    destruct (has_column df_emp (u "정산입금액")) eqn:Ha.
    + rewrite clean_col. cbn [bind].
      change (sum (map _ (labor_rows df_emp ym))) with (labor_total df_emp ym).
      rewrite <- item_if_nonzero_eq.
      now destruct (negb (labor_total df_emp ym =? 0)%Z).
    + unfold labor_total. rewrite sum_of_absent by exact Ha.
      cbn. now rewrite app_nil_r.
Qed.

(** ** Steps 2 and 3 *)

Lemma summary_pur_total (df_pur : DataFrame) (ym : str) (rows : list LineItem) :
  has_column df_pur (u "기준년월") = true ->
  summary_pur df_pur ym rows
  = Some (rows ++ item_if_nonzero (purchase_item ym) (purchase_total df_pur ym)).
Proof.
  intros Hp. unfold summary_pur, purchase_total.
  destruct (empty df_pur) eqn:E; cbn [negb andb].
  - unfold period_rows. rewrite (empty_no_rows df_pur _ E Hp).
    cbn. now rewrite app_nil_r.
  - destruct (has_column df_pur (u "매입가액")) eqn:Ha.
    + unfold getitem. rewrite Hp. cbn [bind].
      rewrite mask_rows_period, clean_col. cbn [bind].
      change (sum (map _ (period_rows df_pur ym)))
        with (sum_of df_pur (u "매입가액") (period_rows df_pur ym)).
      rewrite <- (item_if_nonzero_eq (purchase_item ym)).
      now destruct (negb (sum_of df_pur (u "매입가액")
                            (period_rows df_pur ym) =? 0)%Z).
    + rewrite sum_of_absent by exact Ha. cbn. now rewrite app_nil_r.
Qed.

Lemma summary_inv_total (df_inv : DataFrame) (ym : str) (rows : list LineItem) :
  has_column df_inv (u "기준년월") = true ->
  summary_inv df_inv ym rows
  = Some (rows ++ item_if_nonzero (recond_item ym) (recond_total df_inv ym)).
Proof.
  intros Hp. unfold summary_inv, recond_total.
  destruct (empty df_inv) eqn:E; cbn [negb andb].
  - unfold period_rows. rewrite (empty_no_rows df_inv _ E Hp).
    cbn. now rewrite app_nil_r.
  - destruct (has_column df_inv (u "비용(VAT포함)")) eqn:Ha.
    + unfold getitem. rewrite Hp. cbn [bind].
      rewrite mask_rows_period, clean_col. cbn [bind].
      change (sum (map _ (period_rows df_inv ym)))
        with (sum_of df_inv (u "비용(VAT포함)") (period_rows df_inv ym)).
      rewrite <- (item_if_nonzero_eq (recond_item ym)).
      now destruct (negb (sum_of df_inv (u "비용(VAT포함)")
                            (period_rows df_inv ym) =? 0)%Z).
    + rewrite sum_of_absent by exact Ha. cbn. now rewrite app_nil_r.
Qed.

(** ** Step 4 *)

Lemma sum_of_nil (df : DataFrame) (c : str) : sum_of df c [] = 0%Z.
Proof. reflexivity. Qed.

Lemma clean_zero_absent (df : DataFrame) (c : str) (r : list value) :
  has_column df c = false -> clean_numeric_cell (cell df r c) = 0%Z.
Proof.
  intros H. rewrite cell_absent by exact H. exact clean_numeric_cell_null.
Qed.

Lemma filter_none {A : Type} (p : A -> bool) (l : list A) :
  (forall x, p x = false) -> filter p l = [].
Proof.
  intros H. induction l as [|a l IH]; cbn [filter]; [reflexivity|].
  now rewrite H.
Qed.

Lemma summary_led_total (df_led : DataFrame) (ym : str) (rows : list LineItem) :
  has_column df_led (u "기준년월") = true ->
  summary_led df_led ym rows
  = Some (rows
          ++ item_if_nonzero (sales_item ym) (sales_total df_led ym)
          ++ expense_items ym (expense_groups df_led ym)).
Proof.
  intros Hp. unfold summary_led.
  destruct (empty df_led) eqn:E; cbn [negb].
  { unfold sales_total, sales_rows, expense_groups, expense_rows, period_rows.
    rewrite (empty_no_rows df_led _ E Hp). cbn. now rewrite app_nil_r. }
  unfold getitem. rewrite Hp. cbn [bind].
  rewrite mask_rows_period.
  set (led_month := {| columns := columns df_led;
                       data := period_rows df_led ym |}).
  destruct (empty led_month) eqn:El; cbn [negb].
  { assert (D : period_rows df_led ym = []).
    { apply (empty_no_rows led_month (u "기준년월") El). exact Hp. }
    unfold sales_total, sales_rows, expense_groups, expense_rows.
    rewrite D. cbn. now rewrite app_nil_r. }
  cbv zeta.
  set (auto := map (fun r => categorize_ledger_row (row_series led_month r))
                 (data led_month)).
  set (rows1 := if has_column led_month (u "입금") then _ else Some rows).
  assert (R1 : rows1
               = Some (rows ++ item_if_nonzero (sales_item ym)
                                 (sales_total df_led ym))).
  { subst rows1 auto.
    change (has_column led_month (u "입금")) with (has_column df_led (u "입금")).
    destruct (has_column df_led (u "입금")) eqn:Hd.
    - rewrite (clean_numeric_map (col led_month (u "입금"))). cbn [bind].
      rewrite (col_cells led_month (u "입금")), !map_map. cbn [data led_month].
      rewrite (map2_map andb
                 (fun r => (clean_numeric_cell (cell led_month r (u "입금")) >? 0)%Z)
                 (fun r => str_eqb (categorize_ledger_row (row_series led_month r))
                             (u "매출"))).
      unfold mask_rows. cbn [columns data led_month].
      rewrite filter_mask, clean_col. cbn [bind].
      change (filter _ (period_rows df_led ym)) with (sales_rows df_led ym).
      change (sum (map _ (sales_rows df_led ym))) with (sales_total df_led ym).
      rewrite <- (item_if_nonzero_eq (sales_item ym)).
      now destruct (negb (sales_total df_led ym =? 0)%Z).
    - unfold sales_total, sales_rows.
      rewrite (@filter_none _ _ (period_rows df_led ym)).
      + cbn. now rewrite app_nil_r.
      + intros r. unfold deposit. now rewrite clean_zero_absent by exact Hd. }
  rewrite R1. clear R1 rows1. cbn [bind].
  unfold expense_groups.
  change (has_column led_month (u "출금")) with (has_column df_led (u "출금")).
  destruct (has_column df_led (u "출금")) eqn:Hw.
  - rewrite clean_numeric_map. cbn [bind].
    assert (X : filter (fun cv : str * Z => (snd cv >? 0)%Z)
                  (combine auto
                     (map clean_numeric_cell (col led_month (u "출금"))))
                = map (fun r => (category df_led r, withdrawal df_led r))
                    (expense_rows df_led ym)).
    { subst auto. rewrite col_cells, !map_map. cbn [data led_month].
      rewrite (combine_map
                 (fun r => categorize_ledger_row (row_series led_month r))
                 (fun r => clean_numeric_cell (cell led_month r (u "출금")))).
      rewrite filter_map_comm. reflexivity. }
    rewrite X. rewrite <- app_assoc.
    destruct (map (fun r => (category df_led r, withdrawal df_led r))
                (expense_rows df_led ym)); cbn [is_nil negb bind];
      [|reflexivity].
    cbn. now rewrite app_nil_r.
  - cbn [bind]. unfold expense_rows.
    rewrite (@filter_none _ _ (period_rows df_led ym)).
    + cbn. now rewrite app_nil_r.
    + intros r. unfold withdrawal. now rewrite clean_zero_absent by exact Hw.
Qed.

(** ** The four steps together *)

Lemma compute_auto_month_summary_steps
  (df_emp df_pur df_led df_inv : DataFrame) (ym : str) :
  has_column df_emp (u "기준년월") = true ->
  has_column df_pur (u "기준년월") = true ->
  has_column df_led (u "기준년월") = true ->
  has_column df_inv (u "기준년월") = true ->
  compute_auto_month_summary df_emp df_pur df_led df_inv ym
  = Some (item_if_nonzero (labor_item ym) (labor_total df_emp ym)
          ++ item_if_nonzero (purchase_item ym) (purchase_total df_pur ym)
          ++ item_if_nonzero (recond_item ym) (recond_total df_inv ym)
          ++ item_if_nonzero (sales_item ym) (sales_total df_led ym)
          ++ expense_items ym (expense_groups df_led ym)).
Proof.
  intros He Hp Hl Hi. unfold compute_auto_month_summary.
  rewrite summary_emp_total by exact He. cbn [bind].
  rewrite summary_pur_total by exact Hp. cbn [bind].
  rewrite summary_inv_total by exact Hi. cbn [bind].
  rewrite summary_led_total by exact Hl. cbn [bind app].
  now rewrite <- !app_assoc.
Qed.

(** ** The order of strings *)

Lemma str_leb_refl (a : str) : str_leb a a = true.
Proof.
  induction a as [|x a IH]; cbn [str_leb]; [reflexivity|].
  now rewrite N.ltb_irrefl.
Qed.

Lemma str_leb_total (a b : str) : str_leb a b = true \/ str_leb b a = true.
Proof.
  revert b. induction a as [|x a IH]; intros [|y b]; cbn [str_leb]; auto.
  destruct (N.ltb_spec x y), (N.ltb_spec y x); auto; try lia.
Qed.

Lemma str_leb_antisym (a b : str) :
  str_leb a b = true -> str_leb b a = true -> a = b.
Proof.
  revert b. induction a as [|x a IH]; intros [|y b]; cbn [str_leb];
    try discriminate; [reflexivity|].
  destruct (N.ltb_spec x y), (N.ltb_spec y x); try discriminate; try lia.
  intros H1 H2. f_equal; [lia | now apply IH].
Qed.

Lemma str_leb_trans (a b c : str) :
  str_leb a b = true -> str_leb b c = true -> str_leb a c = true.
Proof.
  revert b c. induction a as [|x a IH]; intros [|y b] [|z c];
    cbn [str_leb]; try discriminate; try reflexivity.
  destruct (N.ltb_spec x y), (N.ltb_spec y x), (N.ltb_spec y z),
    (N.ltb_spec z y), (N.ltb_spec x z), (N.ltb_spec z x);
    try discriminate; try reflexivity; try lia.
  apply IH.
Qed.

Lemma str_ltb_irrefl (a : str) : str_ltb a a = false.
Proof. unfold str_ltb. now rewrite str_leb_refl. Qed.

Lemma str_ltb_neq (a b : str) : str_ltb a b = true -> a <> b.
Proof. intros H ->. rewrite str_ltb_irrefl in H. discriminate. Qed.

Lemma str_ltb_trans (a b c : str) :
  str_ltb a b = true -> str_ltb b c = true -> str_ltb a c = true.
Proof.
  unfold str_ltb. rewrite !negb_true_iff. intros H1 H2.
  apply not_true_is_false. intros H3.
  destruct (str_leb_total a b) as [Hab | Hba]; [|congruence].
  (* c <= a <= b, against b < c *)
  rewrite (str_leb_trans _ _ _ H3 Hab) in H2. discriminate.
Qed.

Lemma str_ltb_connex (a b : str) :
  str_eqb a b = false -> str_ltb a b = false -> str_ltb b a = true.
Proof.
  unfold str_ltb. rewrite str_eqb_neq, negb_false_iff, negb_true_iff.
  intros Hn Hba. apply not_true_is_false. intros Hab.
  apply Hn. now apply str_leb_antisym.
Qed.

(** ** Grouping *)

Lemma group_add_keys (k : str) (v : Z) (g : list (str * Z)) (x : str * Z) :
  In x (group_add k v g) -> fst x = k \/ exists y, In y g /\ fst y = fst x.
Proof.
  induction g as [|[k1 v1] g IH]; cbn [group_add].
  - intros [<- | []]. now left.
  - destruct (str_eqb k k1) eqn:E.
    + intros [<- | H]; right.
      * exists (k1, v1). split; [now left | reflexivity].
      * exists x. split; [now right | reflexivity].
    + destruct (str_ltb k k1).
      * intros [<- | H]; [now left|]. right. now exists x.
      * intros [<- | H].
        -- right. exists (k1, v1). split; [now left | reflexivity].
        -- destruct (IH H) as [Hk | [y [Hy Hf]]]; [now left|].
           right. exists y. split; [now right | exact Hf].
Qed.

Lemma group_add_sorted (k : str) (v : Z) (g : list (str * Z)) :
  StronglySorted key_lt g -> StronglySorted key_lt (group_add k v g).
Proof.
  induction g as [|[k1 v1] g IH]; intros Hs; cbn [group_add].
  - constructor; [constructor | constructor].
  - apply StronglySorted_inv in Hs. destruct Hs as [Hs Hall].
    destruct (str_eqb k k1) eqn:E.
    + constructor; [exact Hs | exact Hall].
    + destruct (str_ltb k k1) eqn:L.
      * constructor; [constructor; assumption|].
        constructor; [exact L|].
        rewrite Forall_forall in *. intros y Hy.
        unfold key_lt in *. cbn [fst] in *.
        eapply str_ltb_trans; [exact L | now apply Hall].
      * constructor; [now apply IH|].
        rewrite Forall_forall in *. intros y Hy.
        destruct (group_add_keys _ _ _ _ Hy) as [Hk | [z [Hz Hf]]].
        -- unfold key_lt. cbn [fst]. rewrite Hk.
           apply str_ltb_connex; [|exact L].
           apply str_eqb_neq. apply str_eqb_neq in E. congruence.
        -- unfold key_lt. rewrite <- Hf. now apply Hall.
Qed.

Lemma sorted_head_absent (k1 : str) (v1 : Z) (g : list (str * Z)) (k : str)
  (w : Z) :
  Forall (key_lt (k1, v1)) g ->
  (k = k1 \/ str_ltb k k1 = true) -> ~ In (k, w) g.
Proof.
  intros Hall Hk Hin. rewrite Forall_forall in Hall.
  specialize (Hall _ Hin). unfold key_lt in Hall. cbn [fst] in Hall.
  destruct Hk as [-> | Hk].
  - rewrite str_ltb_irrefl in Hall. discriminate.
  - pose proof (str_ltb_trans _ _ _ Hk Hall) as F.
    rewrite str_ltb_irrefl in F. discriminate.
Qed.

Lemma group_add_other (k : str) (v : Z) (g : list (str * Z)) (k' : str)
  (v' : Z) :
  k' <> k -> (In (k', v') (group_add k v g) <-> In (k', v') g).
Proof.
  intros Hn. induction g as [|[k1 v1] g IH]; cbn [group_add].
  - split; [intros [H | []]; congruence | intros []].
  - destruct (str_eqb k k1) eqn:E.
    + apply str_eqb_eq in E. subst k1. cbn [In].
      split; (intros [H | H]; [congruence | now right]).
    + destruct (str_ltb k k1); cbn [In].
      * split; [intros [H | H]; [congruence | exact H] | now right].
      * rewrite IH. reflexivity.
Qed.

Lemma group_add_same (k : str) (v : Z) (g : list (str * Z)) (v' : Z) :
  StronglySorted key_lt g ->
  (In (k, v') (group_add k v g)
   <-> (exists w, In (k, w) g /\ v' = (w + v)%Z)
       \/ (~ has_key k g /\ v' = v)).
Proof.
  induction g as [|[k1 v1] g IH]; intros Hs; cbn [group_add].
  - cbn [In]. split.
    + intros [H | []]. right. split; [intros [w []] | congruence].
    + intros [[w [[] _]] | [_ ->]]. now left.
  - apply StronglySorted_inv in Hs. destruct Hs as [Hs Hall].
    destruct (str_eqb k k1) eqn:E.
    + apply str_eqb_eq in E. subst k1. cbn [In]. split.
      * intros [H | H].
        -- left. exists v1. split; [now left | congruence].
        -- exfalso. now apply (sorted_head_absent k v1 g k v' Hall (or_introl eq_refl)).
      * intros [[w [[H | H] ->]] | [Hno _]].
        -- left. congruence.
        -- exfalso. now apply (sorted_head_absent k v1 g k w Hall (or_introl eq_refl)).
        -- exfalso. apply Hno. exists v1. now left.
    + apply str_eqb_neq in E. destruct (str_ltb k k1) eqn:L.
      * assert (No : forall w, ~ In (k, w) ((k1, v1) :: g)).
        { intros w [H | H]; [congruence|].
          now apply (sorted_head_absent k1 v1 g k w Hall (or_intror L)). }
        cbn [In]. split.
        -- intros [H | H].
           ++ right. split; [intros [w Hw]; now apply (No w) | congruence].
           ++ exfalso. now apply (No v').
        -- intros [[w [Hw _]] | [_ ->]]; [exfalso; now apply (No w) | now left].
      * cbn [In]. rewrite (IH Hs). split.
        -- intros [H | [[w [Hw ->]] | [Hno ->]]]; [congruence | |].
           ++ left. exists w. split; [now right | reflexivity].
           ++ right. split; [|reflexivity].
              intros [w [H | H]]; [congruence|]. apply Hno. now exists w.
        -- intros [[w [[H | H] ->]] | [Hno ->]]; [congruence | |].
           ++ right. left. now exists w.
           ++ right. right. split; [|reflexivity].
              intros [w Hw]. apply Hno. exists w. now right.
Qed.

Lemma sum_app (xs ys : list Z) : sum (xs ++ ys) = (sum xs + sum ys)%Z.
Proof.
  unfold sum. induction xs as [|x xs IH]; cbn [app fold_right]; [reflexivity|].
  rewrite IH. lia.
Qed.

Lemma key_sum_snoc (k : str) (l : list (str * Z)) (k1 : str) (v1 : Z) :
  key_sum k (l ++ [(k1, v1)])
  = (key_sum k l + if str_eqb k1 k then v1 else 0)%Z.
Proof.
  unfold key_sum. rewrite filter_app, map_app, sum_app.
  cbn [filter fst]. destruct (str_eqb k1 k); cbn; [f_equal; lia | reflexivity].
Qed.

Lemma filter_none_in {A : Type} (p : A -> bool) (l : list A) :
  (forall x, In x l -> p x = false) -> filter p l = [].
Proof.
  induction l as [|a l IH]; intros H; cbn [filter]; [reflexivity|].
  rewrite (H a (or_introl eq_refl)). apply IH. intros x Hx. apply H. now right.
Qed.

Lemma key_sum_absent (k : str) (l : list (str * Z)) :
  ~ has_key k l -> key_sum k l = 0%Z.
Proof.
  intros H. unfold key_sum. rewrite filter_none_in; [reflexivity|].
  intros [k1 v1] Hin. cbn [fst]. apply str_eqb_neq. intros ->.
  apply H. now exists v1.
Qed.

Lemma has_key_snoc (k : str) (l : list (str * Z)) (k1 : str) (v1 : Z) :
  has_key k (l ++ [(k1, v1)]) <-> has_key k l \/ k = k1.
Proof.
  unfold has_key. split.
  - intros [v H]. apply in_app_or in H. destruct H as [H | [H | []]].
    + left. now exists v.
    + right. congruence.
  - intros [[v H] | ->].
    + exists v. apply in_or_app. now left.
    + exists v1. apply in_or_app. right. now left.
Qed.

(** The table of sums has one line per key of the rows, with the sum of the
    rows of that key, and its keys ascend. *)
Lemma groupby_sum_spec (l : list (str * Z)) :
  StronglySorted key_lt (groupby_sum l)
  /\ forall k v, In (k, v) (groupby_sum l)
                 <-> has_key k l /\ v = key_sum k l.
Proof.
  unfold groupby_sum. induction l as [|[k1 v1] l IH] using rev_ind.
  - split; [constructor|]. intros k v. cbn. split; [intros [] |].
    intros [[w []] _].
  - rewrite fold_left_app. cbn [fold_left fst snd].
    destruct IH as [Hs IH]. split; [now apply group_add_sorted|].
    intros k v. rewrite has_key_snoc, key_sum_snoc.
    destruct (str_eqb k1 k) eqn:E.
    + apply str_eqb_eq in E. subst k1.
      rewrite (group_add_same k v1 _ v Hs). split.
      * intros [[w [Hw ->]] | [Hno ->]].
        -- apply IH in Hw. destruct Hw as [Hk ->]. split; [now left | lia].
        -- split; [now right|].
           assert (N : ~ has_key k l).
           { intros [w Hk]. apply Hno. exists (key_sum k l).
             apply IH. split; [now exists w | reflexivity]. }
           rewrite (key_sum_absent k l N). lia.
      * intros [_ ->].
        destruct (in_dec (list_eq_dec N.eq_dec) k (map fst l)) as [Hin | Hout].
        -- left. exists (key_sum k l). split; [|reflexivity].
           apply IH. split; [|reflexivity].
           apply in_map_iff in Hin. destruct Hin as [[k2 v2] [Hf Hin]].
           cbn [fst] in Hf. subst k2. now exists v2.
        -- right.
           assert (N : ~ has_key k l).
           { intros [w Hk]. apply Hout. apply in_map_iff.
             now exists (k, w). }
           split.
           ++ intros [w Hk]. apply IH in Hk. now apply N.
           ++ rewrite (key_sum_absent k l N). lia.
    + apply str_eqb_neq in E.
      rewrite (group_add_other k1 v1 _ k v (not_eq_sym E)), IH.
      split.
      * intros [Hk ->]. split; [now left | lia].
      * intros [[Hk | Hk] ->]; [|congruence]. split; [exact Hk | lia].
Qed.

(** ** The items of the summary *)

Lemma key_sum_category_total (df_led : DataFrame) (ym cat : str) :
  key_sum cat (map (fun r => (category df_led r, withdrawal df_led r))
                 (expense_rows df_led ym))
  = category_total df_led ym cat.
Proof.
  unfold key_sum, category_total, sum_of.
  rewrite filter_map_comm, map_map. reflexivity.
Qed.

Lemma category_total_absent (df_led : DataFrame) (ym cat : str) :
  ~ has_key cat (map (fun r => (category df_led r, withdrawal df_led r))
                   (expense_rows df_led ym)) ->
  category_total df_led ym cat = 0%Z.
Proof.
  intros H. rewrite <- key_sum_category_total. now apply key_sum_absent.
Qed.

Lemma expense_groups_spec (df_led : DataFrame) (ym cat : str) (val : Z) :
  val <> 0%Z ->
  (In (cat, val) (expense_groups df_led ym)
   <-> val = category_total df_led ym cat).
Proof.
  intros Hv. unfold expense_groups.
  destruct (groupby_sum_spec
              (map (fun r => (category df_led r, withdrawal df_led r))
                 (expense_rows df_led ym))) as [_ G].
  rewrite G, key_sum_category_total. split; [now intros [_ H]|].
  intros ->. split; [|reflexivity].
  destruct (in_dec (list_eq_dec N.eq_dec) cat
              (map fst (map (fun r => (category df_led r, withdrawal df_led r))
                          (expense_rows df_led ym)))) as [Hin | Hout].
  - apply in_map_iff in Hin. destruct Hin as [[k w] [Hf Hin]].
    cbn [fst] in Hf. subst k. now exists w.
  - exfalso. apply Hv. apply category_total_absent.
    intros [w Hw]. apply Hout. apply in_map_iff. now exists (cat, w).
Qed.

Lemma expense_items_in (ym : str) (grp : list (str * Z)) (it : LineItem) :
  In it (expense_items ym grp)
  <-> exists cat val, In (cat, val) grp /\ cat <> u "매출" /\ val <> 0%Z
                      /\ it = expense_item ym cat val.
Proof.
  unfold expense_items. rewrite in_flat_map. split.
  - intros [[cat val] [Hin H]]. cbn [fst snd] in H.
    destruct (str_eqb cat (u "매출")) eqn:E; [destruct H|].
    destruct (Z.eqb_spec val 0); [destruct H|].
    cbn [orb] in H. destruct H as [<- | []].
    exists cat, val. repeat split; try assumption. now apply str_eqb_neq.
  - intros [cat [val [Hin [Hc [Hv ->]]]]]. exists (cat, val).
    split; [exact Hin|]. cbn [fst snd].
    apply str_eqb_neq in Hc. rewrite Hc.
    destruct (Z.eqb_spec val 0); [contradiction|]. now left.
Qed.

Lemma expense_items_sorted (ym : str) (grp : list (str * Z)) :
  StronglySorted key_lt grp ->
  StronglySorted
    (fun a b => str_ltb (li_category a) (li_category b) = true)
    (expense_items ym grp).
Proof.
  induction grp as [|[cat val] grp IH]; intros Hs; [constructor|].
  apply StronglySorted_inv in Hs. destruct Hs as [Hs Hall].
  unfold expense_items. cbn [flat_map]. fold (expense_items ym grp).
  cbn [fst snd].
  destruct (str_eqb cat (u "매출") || (val =? 0)%Z); cbn [app];
    [now apply IH|].
  constructor; [now apply IH|].
  rewrite Forall_forall in *. intros it Hit.
  apply expense_items_in in Hit.
  destruct Hit as [c [w [Hin [_ [_ ->]]]]]. cbn [li_category].
  exact (Hall _ Hin).
Qed.

Lemma sorted_categories_nodup (items : list LineItem) :
  StronglySorted
    (fun a b => str_ltb (li_category a) (li_category b) = true) items ->
  NoDup (map li_category items).
Proof.
  induction items as [|it items IH]; intros Hs; cbn [map]; [constructor|].
  apply StronglySorted_inv in Hs. destruct Hs as [Hs Hall].
  constructor; [|now apply IH].
  intros Hin. apply in_map_iff in Hin. destruct Hin as [it' [Hc Hin']].
  rewrite Forall_forall in Hall. specialize (Hall _ Hin').
  rewrite Hc, str_ltb_irrefl in Hall. discriminate.
Qed.

Lemma item_if_nonzero_in (mk : Z -> LineItem) (amount : Z) (it : LineItem) :
  In it (item_if_nonzero mk amount) <-> amount <> 0%Z /\ it = mk amount.
Proof.
  unfold item_if_nonzero. destruct (Z.eqb_spec amount 0); cbn [In].
  - split; [intros [] | intros [H _]; contradiction].
  - split; [intros [<- | []]; now split | intros [_ ->]; now left].
Qed.


(** A row is of the period when its period cell is the string [ym]. *)
Lemma in_period_cell (df : DataFrame) (ym : str) (r : list value) :
  in_period df ym r = true <-> cell df r (u "기준년월") = VStr ym.
Proof.
  unfold in_period. destruct (cell df r (u "기준년월")) as [|z|s|o];
    try (split; discriminate).
  rewrite str_eqb_eq. split; [now intros -> | now intros [= ->]].
Qed.

(** Over rows whose cells in the column are integers, the sum of the column
    is the sum of these integers. *)
Lemma sum_of_integers (df : DataFrame) (c : str) (rs : list (list value))
  (zs : list Z) :
  map (fun r => cell df r c) rs = map VInt zs ->
  sum_of df c rs = fold_right Z.add 0%Z zs.
Proof.
  intros H. unfold sum_of, sum.
  rewrite <- (map_map (fun r => cell df r c) clean_numeric_cell), H, map_map.
  f_equal. rewrite <- (map_id zs) at 2.
  apply map_ext. intros z. apply clean_numeric_cell_VInt.
Qed.



Example sample_labor :
  compute_auto_month_summary sample_emp sample_none sample_none sample_none
    (u "2024-05")
  = Some [labor_item (u "2024-05") 300000].
Proof. vm_compute. reflexivity. Qed.

(** C4.  With the period column in the four tables, the summary is the
    items of the income, purchase and reconditioning tables, then one sales
    item, then the expense items of the ledger, in this order.  The sales
    amount is the sum of the deposits over the period's ledger rows
    classified [매출] with a positive deposit, and the item is there exactly
    when the sum is not zero.  The expense items carry the source [장부] and
    the note [자동분류]; there is one for a category exactly when the
    category is not [매출] and the withdrawals of the period's rows of that
    category, over the rows with a positive withdrawal, do not sum to zero,
    and its amount is that sum; no category has two.  Over rows with
    integer deposits or withdrawals the sums are the sums of these
    integers. *)
Theorem compute_auto_month_summary_ledger
  (df_emp df_pur df_led df_inv : DataFrame) (ym : str) :
  has_column df_emp (u "기준년월") = true ->
  has_column df_pur (u "기준년월") = true ->
  has_column df_led (u "기준년월") = true ->
  has_column df_inv (u "기준년월") = true ->
  let expenses := expense_items ym (expense_groups df_led ym) in
  compute_auto_month_summary df_emp df_pur df_led df_inv ym
  = Some (item_if_nonzero (labor_item ym) (labor_total df_emp ym)
          ++ item_if_nonzero (purchase_item ym) (purchase_total df_pur ym)
          ++ item_if_nonzero (recond_item ym) (recond_total df_inv ym)
          ++ item_if_nonzero (sales_item ym) (sales_total df_led ym)
          ++ expenses)
  /\ (forall it, In it expenses ->
        li_ym it = ym /\ li_source it = u "장부" /\ li_note it = u "자동분류")
  /\ (forall cat a,
        (exists it, In it expenses /\ li_category it = cat /\ li_amount it = a)
        <-> cat <> u "매출" /\ a = category_total df_led ym cat /\ a <> 0%Z)
  /\ NoDup (map li_category expenses)
  /\ (forall r,
        In r (sales_rows df_led ym)
        <-> In r (data df_led)
            /\ cell df_led r (u "기준년월") = VStr ym
            /\ (0 < clean_numeric_cell (cell df_led r (u "입금")))%Z
            /\ categorize_ledger_row (row_series df_led r) = u "매출")
  /\ (forall r,
        In r (expense_rows df_led ym)
        <-> In r (data df_led)
            /\ cell df_led r (u "기준년월") = VStr ym
            /\ (0 < clean_numeric_cell (cell df_led r (u "출금")))%Z)
  /\ (forall zs,
        map (fun r => cell df_led r (u "입금")) (sales_rows df_led ym)
        = map VInt zs ->
        sales_total df_led ym = fold_right Z.add 0%Z zs)
  /\ (forall cat zs,
        map (fun r => cell df_led r (u "출금"))
          (filter
             (fun r => str_eqb (categorize_ledger_row (row_series df_led r))
                         cat)
             (expense_rows df_led ym))
        = map VInt zs ->
        category_total df_led ym cat = fold_right Z.add 0%Z zs).
Proof.
  intros He Hp Hl Hi expenses. subst expenses.
  split; [|split; [|split; [|split; [|split; [|split; [|split]]]]]].
  - now apply compute_auto_month_summary_steps.
  - intros it H. apply expense_items_in in H.
    destruct H as [c [w [_ [_ [_ ->]]]]]. now repeat split.
  - intros cat a. split.
    + intros [it [Hin [Hc Ha]]]. apply expense_items_in in Hin.
      destruct Hin as [c [w [Hg [Hn [Hw ->]]]]].
      cbn [li_category li_amount expense_item] in Hc, Ha. subst c w.
      split; [exact Hn|]. split; [|exact Hw].
      now apply expense_groups_spec in Hg.
    + intros [Hc [Ha Hz]].
      exists (expense_item ym cat a). split; [|now split].
      apply expense_items_in. exists cat, a. repeat split; try assumption.
      now apply expense_groups_spec.
  - apply sorted_categories_nodup, expense_items_sorted.
    apply groupby_sum_spec.
  - intros r. unfold sales_rows, period_rows, deposit, category.
    rewrite !filter_In, andb_true_iff, in_period_cell, str_eqb_eq.
    rewrite Z.gtb_lt. tauto.
  - intros r. unfold expense_rows, period_rows, withdrawal.
    rewrite !filter_In, in_period_cell, Z.gtb_lt. tauto.
  - intros zs H. now apply sum_of_integers.
  - intros cat zs H. now apply sum_of_integers.
Qed.

Lemma compute_auto_month_summary_ledger_witness :
  compute_auto_month_summary sample_emp sample_none sample_led sample_none
    (u "2024-05")
  = Some [ labor_item (u "2024-05") 300000;
           sales_item (u "2024-05") 9000000;
           expense_item (u "2024-05") (u "고정비") 800000;
           expense_item (u "2024-05") (u "인건비") 3000000 ]
  /\ sales_total sample_led (u "2024-05") = 9000000%Z
  /\ category_total sample_led (u "2024-05") (u "고정비") = 800000%Z
  /\ (exists it,
        In it (expense_items (u "2024-05")
                 (expense_groups sample_led (u "2024-05")))
        /\ li_category it = u "인건비" /\ li_amount it = 3000000%Z)
  /\ ~ (exists it,
          In it (expense_items (u "2024-05")
                   (expense_groups sample_led (u "2024-05")))
          /\ li_category it = u "매출" /\ li_amount it = 30000%Z).
Proof.
  destruct (compute_auto_month_summary_ledger sample_emp sample_none
              sample_led sample_none (u "2024-05")
              ltac:(vm_compute; reflexivity) ltac:(vm_compute; reflexivity)
              ltac:(vm_compute; reflexivity) ltac:(vm_compute; reflexivity))
    as [A [_ [B [_ [_ [_ [S E]]]]]]].
  split; [|split; [|split; [|split]]].
  - rewrite A. vm_compute. reflexivity.
  - apply (S [9000000]%Z). vm_compute. reflexivity.
  - apply (E (u "고정비") [800000]%Z). vm_compute. reflexivity.
  - apply (proj2 (B (u "인건비") 3000000%Z)).
    split; [vm_compute; discriminate|].
    split; [vm_compute; reflexivity | discriminate].
  - intros H. apply (proj1 (B (u "매출") 30000%Z)) in H.
    destruct H as [H _]. now apply H.
Defined.

Example sample_summary :
  compute_auto_month_summary sample_emp sample_none sample_led sample_none
    (u "2024-05")
  = Some [ labor_item (u "2024-05") 300000;
           sales_item (u "2024-05") 9000000;
           expense_item (u "2024-05") (u "고정비") 800000;
           expense_item (u "2024-05") (u "인건비") 3000000 ].
Proof. vm_compute. reflexivity. Qed.

(** C5.  With the period column in the four tables: when no table has a row
    of the period the summary is empty; no item of a summary has the amount
    zero; and a table or a category whose sum over the period is zero has no
    item. *)
Theorem compute_auto_month_summary_sparse
  (df_emp df_pur df_led df_inv : DataFrame) (ym : str) :
  has_column df_emp (u "기준년월") = true ->
  has_column df_pur (u "기준년월") = true ->
  has_column df_led (u "기준년월") = true ->
  has_column df_inv (u "기준년월") = true ->
  exists out,
    compute_auto_month_summary df_emp df_pur df_led df_inv ym = Some out
    /\ (period_rows df_emp ym = [] -> period_rows df_pur ym = [] ->
        period_rows df_led ym = [] -> period_rows df_inv ym = [] ->
        out = [])
    /\ (forall it, In it out -> li_amount it <> 0%Z)
    /\ (labor_total df_emp ym = 0%Z ->
        forall it, In it out -> li_source it <> u "직원소득")
    /\ (purchase_total df_pur ym = 0%Z ->
        forall it, In it out -> li_source it <> u "차량매입")
    /\ (recond_total df_inv ym = 0%Z ->
        forall it, In it out -> li_source it <> u "차량상품화")
    /\ (sales_total df_led ym = 0%Z ->
        forall it, In it out ->
          ~ (li_source it = u "장부" /\ li_category it = u "매출"))
    /\ (forall cat, category_total df_led ym cat = 0%Z ->
        forall it, In it out ->
          ~ (li_source it = u "장부" /\ li_note it = u "자동분류"
             /\ li_category it = cat)).
Proof.
  intros He Hp Hl Hi. eexists. split.
  { now apply compute_auto_month_summary_steps. }
  assert (M : forall it,
             In it (item_if_nonzero (labor_item ym) (labor_total df_emp ym)
                    ++ item_if_nonzero (purchase_item ym)
                         (purchase_total df_pur ym)
                    ++ item_if_nonzero (recond_item ym)
                         (recond_total df_inv ym)
                    ++ item_if_nonzero (sales_item ym) (sales_total df_led ym)
                    ++ expense_items ym (expense_groups df_led ym)) ->
             (labor_total df_emp ym <> 0%Z
              /\ it = labor_item ym (labor_total df_emp ym))
             \/ (purchase_total df_pur ym <> 0%Z
                 /\ it = purchase_item ym (purchase_total df_pur ym))
             \/ (recond_total df_inv ym <> 0%Z
                 /\ it = recond_item ym (recond_total df_inv ym))
             \/ (sales_total df_led ym <> 0%Z
                 /\ it = sales_item ym (sales_total df_led ym))
             \/ (exists cat, cat <> u "매출"
                             /\ category_total df_led ym cat <> 0%Z
                             /\ it = expense_item ym cat
                                       (category_total df_led ym cat))).
  { intros it. rewrite !in_app_iff, !item_if_nonzero_in, expense_items_in.
    intros [H | [H | [H | [H | [c [w [Hg [Hc [Hw ->]]]]]]]]]; auto.
    do 4 right. exists c.
    apply expense_groups_spec in Hg; [|exact Hw]. subst w. auto. }
  split; [|split; [|split; [|split; [|split; [|split]]]]].
  - intros E1 E2 E3 E4.
    unfold labor_total, labor_rows, purchase_total, recond_total, sales_total,
      sales_rows, expense_groups, expense_rows.
    unfold period_rows in *.
    rewrite <- filter_and, E1, E2, E3, E4. reflexivity.
  - intros it Hin.
    destruct (M it Hin) as [[H ->] | [[H ->] | [[H ->] | [[H ->] | [c [_ [H ->]]]]]]];
      exact H.
  - intros Z0 it Hin.
    destruct (M it Hin) as [[H ->] | [[H ->] | [[H ->] | [[H ->] | [c [_ [H ->]]]]]]];
      [contradiction | | | |];
      cbn [li_source purchase_item recond_item sales_item expense_item];
      intros F; vm_compute in F; discriminate F.
  - intros Z0 it Hin.
    destruct (M it Hin) as [[H ->] | [[H ->] | [[H ->] | [[H ->] | [c [_ [H ->]]]]]]];
      [ | contradiction | | |];
      cbn [li_source labor_item recond_item sales_item expense_item];
      intros F; vm_compute in F; discriminate F.
  - intros Z0 it Hin.
    destruct (M it Hin) as [[H ->] | [[H ->] | [[H ->] | [[H ->] | [c [_ [H ->]]]]]]];
      [ | | contradiction | |];
      cbn [li_source labor_item purchase_item sales_item expense_item];
      intros F; vm_compute in F; discriminate F.
  - intros Z0 it Hin [Fs Fc].
    destruct (M it Hin) as [[H ->] | [[H ->] | [[H ->] | [[H ->] | [c [Hc [H ->]]]]]]];
      try contradiction;
      cbn [li_source li_category labor_item purchase_item recond_item
             expense_item] in Fs, Fc;
      try (vm_compute in Fs; discriminate Fs).
  - intros cat Z0 it Hin [Fs [Fn Fc]].
    destruct (M it Hin) as [[H ->] | [[H ->] | [[H ->] | [[H ->] | [c [Hc [H ->]]]]]]];
      cbn [li_source li_note li_category labor_item purchase_item recond_item
             sales_item expense_item] in Fs, Fn, Fc;
      try (vm_compute in Fs; discriminate Fs);
      try (vm_compute in Fn; discriminate Fn).
    subst c. contradiction.
Qed.

Lemma compute_auto_month_summary_sparse_witness :
  exists out,
    compute_auto_month_summary sample_emp sample_none sample_led sample_none
      (u "2023-01") = Some out
    /\ (period_rows sample_emp (u "2023-01") = [] ->
        period_rows sample_none (u "2023-01") = [] ->
        period_rows sample_led (u "2023-01") = [] ->
        period_rows sample_none (u "2023-01") = [] ->
        out = []).
Proof.
  destruct (compute_auto_month_summary_sparse sample_emp sample_none
              sample_led sample_none (u "2023-01")
              eq_refl eq_refl eq_refl eq_refl) as [out [H1 [H2 _]]].
  exists out. split; [exact H1 | exact H2].
Defined.

Example sample_no_activity :
  compute_auto_month_summary sample_emp sample_none sample_led sample_none
    (u "2023-01") = Some [].
Proof. vm_compute. reflexivity. Qed.

(** ** Blank income types *)

Lemma lstrip_spaces (s : str) : forallb isspace s = true -> lstrip s = [].
Proof.
  induction s as [|c s IH]; cbn [forallb lstrip]; [reflexivity|].
  intros H. apply andb_true_iff in H. destruct H as [Hc Hs].
  rewrite Hc. now apply IH.
Qed.

Lemma strip_spaces (s : str) : forallb isspace s = true -> strip s = [].
Proof. intros H. unfold strip. now rewrite lstrip_spaces. Qed.

(** C10.  The test of an income type is false for the missing value and for
    every string of white space, the empty one included; so a row of the
    period whose income type is missing or blank is among the rows whose
    settlement amounts step 1 sums. *)
Theorem is_excluded_income_type_blank :
  is_excluded_income_type VNull = false
  /\ (forall s, forallb isspace s = true ->
                is_excluded_income_type (VStr s) = false)
  /\ (forall (df_emp : DataFrame) (ym : str) (rows : list LineItem),
        has_column df_emp (u "기준년월") = true ->
        summary_emp df_emp ym rows
        = Some (rows ++ item_if_nonzero (labor_item ym)
                          (sum_of df_emp (u "정산입금액")
                             (labor_rows df_emp ym)))
        /\ forall r,
             In r (data df_emp) -> in_period df_emp ym r = true ->
             (cell df_emp r (u "소득구분(고정/변동/퇴사 등)") = VNull
              \/ exists s,
                   cell df_emp r (u "소득구분(고정/변동/퇴사 등)") = VStr s
                   /\ forallb isspace s = true) ->
             In r (labor_rows df_emp ym)).
Proof.
  assert (B : forall s, forallb isspace s = true ->
                        is_excluded_income_type (VStr s) = false).
  { intros s H. unfold is_excluded_income_type. cbn [isna py_str].
    now rewrite strip_spaces. }
  split; [reflexivity|]. split; [exact B|].
  intros df_emp ym rows Hp. split.
  - now apply summary_emp_total.
  - intros r Hin Hper Hlab. unfold labor_rows. apply filter_In.
    split; [exact Hin|]. rewrite Hper. cbn [andb].
    rewrite <- is_excluded_income_type_keywords.
    destruct Hlab as [-> | [s [-> Hs]]]; [reflexivity|].
    now rewrite B.
Qed.

Lemma is_excluded_income_type_blank_witness :
  is_excluded_income_type (VStr (u "   ")) = false
  /\ In [VStr (u "Lee"); VStr (u "2024-05"); VNull; VStr (u "200,000")]
       (labor_rows sample_emp (u "2024-05")).
Proof.
  split.
  - apply (proj1 (proj2 is_excluded_income_type_blank)).
    vm_compute. reflexivity.
  - apply (proj2 (proj2 is_excluded_income_type_blank) sample_emp
             (u "2024-05") [] eq_refl).
    + vm_compute. right. left. reflexivity.
    + vm_compute. reflexivity.
    + left. vm_compute. reflexivity.
Defined.

(** ** The amounts that [clean_numeric] reads *)

(** What the replacement makes of a text in parts. *)
Lemma str_replace_app (s t : str) :
  str_replace_non_numeric (s ++ t)
  = str_replace_non_numeric s ++ str_replace_non_numeric t.
Proof. apply filter_app. Qed.

Lemma str_replace_digits (ds : str) :
  forallb isdigit ds = true -> str_replace_non_numeric ds = ds.
Proof. intros H. now apply filter_all, isdigit_numeric. Qed.

(** Digits followed by something that is neither the end nor a point with
    digits only: [pd.to_numeric] has no number for it. *)
Lemma to_numeric_nan (ds : str) (c : N) (t : str) :
  forallb isdigit ds = true -> ds <> [] -> isdigit c = false ->
  (c =? 0x2E)%N && forallb isdigit t = false ->
  to_numeric (ds ++ c :: t) = NaN.
Proof.
  intros Hd Hne Hc Ht. unfold to_numeric.
  assert (S : span_digits (ds ++ c :: t) = (ds, c :: t)).
  { rewrite span_digits_app by exact Hd. cbn [span_digits]. rewrite Hc.
    cbn [fst snd]. now rewrite app_nil_r. }
  destruct ds as [|d ds]; [contradiction|].
  cbn [forallb] in Hd. apply andb_true_iff in Hd. destruct Hd as [Hd0 Hd].
  cbn [app]. rewrite (isdigit_not_minus d Hd0).
  change (d :: ds ++ c :: t) with ((d :: ds) ++ c :: t). rewrite S.
  apply andb_false_iff in Ht. destruct Ht as [Ht | Ht]; rewrite Ht;
    [reflexivity | now rewrite andb_false_r].
Qed.

Lemma forallb_isdigit_minus (fr t : str) :
  forallb isdigit (fr ++ 0x2D%N :: t) = false.
Proof.
  rewrite forallb_app. cbn [forallb].
  change (isdigit 0x2D) with false. cbn [andb]. apply andb_false_r.
Qed.

(** C6, as amended.  [clean_numeric] never raises and gives one integer for
    each cell; applied to its own result it gives that result.  The empty
    string, [abc] and the missing value give 0, through [fillna(0)]: the
    cast to integers raises on [NaN] and on nothing else, and [abc] is read
    as [NaN].  The replacement keeps the digits, the points and the minus
    signs of a string, in place, and drops every other character, and the
    result depends on what it keeps only.  An integer cell gives itself; a
    float cell printed in positional notation, an integer, a point and
    digits, gives the integer, and one printed with a negative exponent,
    which is below one, gives 0.  A float cell printed with a positive
    exponent gives the number that its digits before [e] and the digits of
    its exponent spell together, so [1e+16] gives 116. *)
Theorem clean_numeric_idempotent :
  (forall series, exists ints,
      clean_numeric series = Some ints
      /\ List.length ints = List.length series
      /\ clean_numeric (map VInt ints) = Some ints)
  /\ clean_numeric [VStr (u ""); VStr (u "abc"); VNull] = Some [0; 0; 0]%Z
  /\ (forall x, astype_int x = None <-> x = NaN)
  /\ to_numeric (str_replace_non_numeric (py_str (VStr (u "abc")))) = NaN
  /\ (forall s, str_replace_non_numeric s
                = filter (fun c => isdigit c || (c =? 0x2E)%N || (c =? 0x2D)%N) s)
  /\ (forall s c, In c (str_replace_non_numeric s)
                  <-> In c s /\ (isdigit c = true \/ c = 0x2E%N \/ c = 0x2D%N))
  /\ (forall s, clean_numeric [VStr s]
                = clean_numeric [VStr (str_replace_non_numeric s)])
  /\ (forall z, clean_numeric [VInt z] = Some [z])
  /\ (forall z fr, forallb isdigit fr = true ->
                   clean_numeric [VOther (str_of_int z ++ u "." ++ fr)]
                   = Some [z])
  /\ (forall fr, forallb isdigit fr = true ->
                 clean_numeric [VOther (u "-0." ++ fr)] = Some [0%Z])
  /\ (forall ip fr e (point : bool),
        forallb isdigit ip = true -> ip <> [] -> forallb isdigit fr = true ->
        clean_numeric
          [VOther (ip ++ (if point then u "." ++ fr else []) ++ u "e-" ++ e)]
        = Some [0%Z])
  /\ (forall ip e,
        forallb isdigit ip = true -> ip <> [] -> forallb isdigit e = true ->
        clean_numeric [VOther (ip ++ u "e+" ++ e)]
        = Some [Z.of_N (digits_value (ip ++ e))])
  /\ clean_numeric [VOther (u "1e+16")] = Some [116%Z].
Proof.
  split; [|split; [|split; [|split; [|split; [|split; [|split; [|split;
    [|split; [|split; [|split; [|split]]]]]]]]]]].
  - intros series. exists (map clean_numeric_cell series).
    split; [apply clean_numeric_map|]. split; [apply length_map|].
    rewrite clean_numeric_map. f_equal.
    generalize (map clean_numeric_cell series). intros ints.
    rewrite map_map. rewrite <- (map_id ints) at 2.
    apply map_ext. intros z. apply clean_numeric_cell_VInt.
  - vm_compute. reflexivity.
  - intros x. destruct x as [|neg ip fr]; cbn [astype_int];
      split; congruence.
  - vm_compute. reflexivity.
  - reflexivity.
  - intros s c. unfold str_replace_non_numeric. rewrite filter_In.
    unfold numeric_char. rewrite !orb_true_iff, !N.eqb_eq. tauto.
  - intros s. rewrite !clean_numeric_map. cbn [map]. do 2 f_equal.
    unfold clean_numeric_cell. cbn [py_str].
    now rewrite str_replace_idempotent.
  - intros z. rewrite clean_numeric_map. cbn [map]. do 2 f_equal.
    apply clean_numeric_cell_VInt.
  - intros z fr Hf. rewrite clean_numeric_map. cbn [map]. do 2 f_equal.
    unfold clean_numeric_cell, str_replace_non_numeric. cbn [py_str].
    rewrite filter_all.
    + exact (clean_numeric_cell_int z true fr Hf).
    + rewrite forallb_app, str_of_int_numeric.
      change (u "." ++ fr) with (0x2E%N :: fr). cbn [forallb andb].
      change (numeric_char 0x2E) with true. cbn [andb].
      now apply isdigit_numeric.
  - intros fr Hf. rewrite clean_numeric_map. cbn [map]. do 2 f_equal.
    unfold clean_numeric_cell. cbn [py_str].
    change (u "-0." ++ fr) with (u "-0." ++ fr)%list.
    rewrite str_replace_app, (str_replace_digits fr Hf).
    change (str_replace_non_numeric (u "-0.") ++ fr)
      with ([0x2D%N] ++ [0x30%N] ++ 0x2E%N :: fr).
    now rewrite (to_numeric_decimal true [0x30%N] fr true eq_refl
                   ltac:(discriminate) Hf).
  - intros ip fr e point Hi Hne Hf.
    rewrite clean_numeric_map. cbn [map]. do 2 f_equal.
    unfold clean_numeric_cell. cbn [py_str].
    rewrite !str_replace_app, (str_replace_digits ip Hi).
    change (str_replace_non_numeric (u "e-")) with [0x2D%N].
    destruct point.
    + rewrite str_replace_app, (str_replace_digits fr Hf).
      change (str_replace_non_numeric (u ".")) with [0x2E%N].
      cbn [app].
      rewrite (to_numeric_nan ip 0x2E%N); try assumption; try reflexivity.
      rewrite forallb_isdigit_minus. apply andb_false_r.
    + cbn [app str_replace_non_numeric filter].
      now rewrite (to_numeric_nan ip 0x2D%N).
  - intros ip e Hi Hne He.
    rewrite clean_numeric_map. cbn [map]. do 2 f_equal.
    unfold clean_numeric_cell. cbn [py_str].
    rewrite !str_replace_app, (str_replace_digits ip Hi),
      (str_replace_digits e He).
    change (str_replace_non_numeric (u "e+")) with (@nil N). cbn [app].
    pose proof (to_numeric_decimal false (ip ++ e) [] false) as T.
    cbn [app] in T. rewrite app_nil_r in T. rewrite T; [reflexivity | | |].
    + rewrite forallb_app, Hi, He. reflexivity.
    + destruct ip; [contradiction | discriminate].
    + reflexivity.
  - vm_compute. reflexivity.
Qed.

Lemma clean_numeric_idempotent_witness :
  clean_numeric [VOther (str_of_int 1000 ++ u "." ++ u "0")] = Some [1000%Z]
  /\ clean_numeric [VOther (u "1.5" ++ u "e-" ++ u "05")] = Some [0%Z]
  /\ clean_numeric [VOther (u "2" ++ u "e+" ++ u "20")] = Some [220%Z].
Proof.
  destruct clean_numeric_idempotent
    as [_ [_ [_ [_ [_ [_ [_ [_ [H7 [_ [H9 [H10 _]]]]]]]]]]]].
  split; [|split].
  - apply H7. vm_compute. reflexivity.
  - apply (H9 (u "1") (u "5") (u "05") true);
      [vm_compute; reflexivity | discriminate | vm_compute; reflexivity].
  - apply (H10 (u "2") (u "20"));
      [vm_compute; reflexivity | discriminate | vm_compute; reflexivity].
Defined.

(** C6, as stated, fails for a float: Python prints the float m x 10^e, one
    digit [m] and [e] from 16 on, in the form [m]e+[e], and [clean_numeric]
    does not give the integer it stands for. *)
Lemma clean_numeric_float_counterexample :
  ~ (forall m e : Z,
        (1 <= m <= 9)%Z -> (16 <= e)%Z ->
        clean_numeric [VOther (exponent_str m e)] = Some [(m * 10 ^ e)%Z]).
Proof.
  intros H. specialize (H 1%Z 16%Z ltac:(lia) ltac:(lia)).
  vm_compute in H. discriminate H.
Qed.

Example clean_numeric_samples :
  clean_numeric [VStr (u "1,000원"); VStr (u "-3.7"); VStr (u "2024-05-01");
                 VOther (u "1000.0"); VInt (-12); VStr (u "₩ 25,000.99")]
  = Some [1000; -3; 0; 1000; -12; 25000]%Z.
Proof. vm_compute. reflexivity. Qed.

(** ** The period column *)

Lemma mask_assign_cells (s : list (option Timestamp)) (series : list value) :
  List.length s = List.length series ->
  mask_assign
    (map (fun t => match t with
                   | Some ts => VStr (strftime_Ym ts)
                   | None => VNull
                   end) s)
    (map isna_ts s) (map VStr (astype_str series))
  = map2 normalize_cell s series.
Proof.
  revert series. induction s as [|t s IH]; intros [|v series] H;
    try discriminate H; [reflexivity|].
  injection H as H. cbn [map astype_str mask_assign map2].
  fold (astype_str series). rewrite (IH series H).
  destruct t; reflexivity.
Qed.

Lemma no_nat_cells (s : list (option Timestamp)) (series : list value) :
  List.length s = List.length series ->
  existsb (fun b => b) (map isna_ts s) = false ->
  map (fun t => match t with
                | Some ts => VStr (strftime_Ym ts)
                | None => VNull
                end) s
  = map2 normalize_cell s series.
Proof.
  revert series. induction s as [|t s IH]; intros [|v series] H E;
    try discriminate H; [reflexivity|].
  injection H as H. cbn [map existsb] in E.
  apply orb_false_iff in E. destruct E as [Et Es].
  cbn [map map2]. rewrite (IH series H Es).
  destruct t; [reflexivity | discriminate Et].
Qed.

Lemma normalize_ym_cells (to_datetime : list value -> list (option Timestamp))
  (series : list value) :
  List.length (to_datetime series) = List.length series ->
  normalize_ym to_datetime series
  = map2 normalize_cell (to_datetime series) series.
Proof.
  intros H. unfold normalize_ym. cbv zeta.
  destruct (existsb (fun b => b) (map isna_ts (to_datetime series))) eqn:E.
  - now apply mask_assign_cells.
  - now apply no_nat_cells.
Qed.


Lemma map2_in {A B C : Type} (f : A -> B -> C) (xs : list A) (ys : list B)
  (z : C) :
  In z (map2 f xs ys) -> exists x y, In x xs /\ In y ys /\ z = f x y.
Proof.
  revert ys. induction xs as [|a xs IH]; intros [|b ys]; cbn [map2];
    try (intros F; now destruct F).
  intros [<- | Hz].
  - exists a, b. repeat split; now left.
  - destruct (IH ys Hz) as [x [y [Hx [Hy ->]]]].
    exists x, y. repeat split; now right.
Qed.




Example normalize_ym_samples :
  normalize_ym iso_to_datetime
    [VStr (u "2024-03-15"); VStr (u "미정"); VNull; VStr (u ""); VInt 202405]
  = [VStr (u "2024-03"); VStr (u "미정"); VStr (u "nan"); VStr (u "");
     VStr (u "202405")].
Proof. vm_compute. reflexivity. Qed.

(** ** The candidate lists *)

Lemma insert_sorted_in (x : str) (l : list str) (y : str) :
  In y (insert_sorted x l) <-> y = x \/ In y l.
Proof.
  induction l as [|z l IH]; cbn [insert_sorted In].
  - split; [intros [<- | []]; now left | intros [-> | []]; now left].
  - destruct (str_leb x z); cbn [In]; [intuition congruence|].
    rewrite IH. intuition congruence.
Qed.

Lemma insert_sorted_sorted (x : str) (l : list str) :
  StronglySorted str_le l -> StronglySorted str_le (insert_sorted x l).
Proof.
  induction l as [|z l IH]; intros Hs; cbn [insert_sorted].
  - constructor; constructor.
  - apply StronglySorted_inv in Hs. destruct Hs as [Hs Hall].
    destruct (str_leb x z) eqn:E.
    + constructor; [now constructor|].
      constructor; [exact E|].
      rewrite Forall_forall in *. intros y Hy.
      exact (str_leb_trans x z y E (Hall y Hy)).
    + constructor; [now apply IH|].
      rewrite Forall_forall in *. intros y Hy.
      apply insert_sorted_in in Hy. destruct Hy as [-> | Hy].
      * destruct (str_leb_total x z) as [F | F]; [congruence | exact F].
      * now apply Hall.
Qed.

Lemma insert_sorted_nodup (x : str) (l : list str) :
  ~ In x l -> NoDup l -> NoDup (insert_sorted x l).
Proof.
  induction l as [|z l IH]; intros Hx Hn; cbn [insert_sorted].
  - constructor; [intros [] | constructor].
  - destruct (str_leb x z).
    + now constructor.
    + apply NoDup_cons_iff in Hn. destruct Hn as [Hz Hn].
      constructor.
      * rewrite insert_sorted_in. intros [-> | F]; [|contradiction].
        apply Hx. now left.
      * apply IH; [|exact Hn]. intros F. apply Hx. now right.
Qed.

Lemma sorted_in (l : list str) (y : str) : In y (sorted l) <-> In y l.
Proof.
  unfold sorted. induction l as [|x l IH]; cbn [fold_right In];
    [reflexivity|].
  rewrite insert_sorted_in, IH. intuition congruence.
Qed.

Lemma sorted_sorted (l : list str) : StronglySorted str_le (sorted l).
Proof.
  unfold sorted. induction l as [|x l IH]; cbn [fold_right]; [constructor|].
  now apply insert_sorted_sorted.
Qed.

Lemma sorted_nodup (l : list str) : NoDup l -> NoDup (sorted l).
Proof.
  induction l as [|x l IH]; intros Hn; [constructor|].
  apply NoDup_cons_iff in Hn. destruct Hn as [Hx Hn].
  change (sorted (x :: l)) with (insert_sorted x (sorted l)).
  apply insert_sorted_nodup; [|now apply IH].
  now rewrite sorted_in.
Qed.

Lemma str_in_spec (x : str) (l : list str) : str_in x l = true <-> In x l.
Proof.
  unfold str_in. rewrite existsb_exists. split.
  - intros [y [Hy E]]. apply str_eqb_eq in E. now subst y.
  - intros H. exists x. split; [exact H | apply str_eqb_refl].
Qed.

Lemma unique_from_in (seen l : list str) (y : str) :
  In y (unique_from seen l) <-> In y l /\ ~ In y seen.
Proof.
  revert seen. induction l as [|x l IH]; intros seen; cbn [unique_from In].
  - tauto.
  - destruct (str_in x seen) eqn:E.
    + apply str_in_spec in E. rewrite IH. split.
      * intros [H1 H2]. split; [now right | exact H2].
      * intros [[-> | H1] H2]; [contradiction | now split].
    + assert (N : ~ In x seen).
      { intros F. apply str_in_spec in F. congruence. }
      cbn [In]. rewrite IH. cbn [In]. split.
      * intros [<- | [H1 H2]]; [split; [now left | exact N]|].
        split; [now right | tauto].
      * intros [[-> | H1] H2]; [now left|].
        destruct (list_eq_dec N.eq_dec x y) as [-> | D]; [now left|].
        right. split; [exact H1 | tauto].
Qed.

Lemma unique_from_nodup (seen l : list str) : NoDup (unique_from seen l).
Proof.
  revert seen. induction l as [|x l IH]; intros seen; cbn [unique_from].
  - constructor.
  - destruct (str_in x seen); [apply IH|].
    constructor; [|apply IH].
    rewrite unique_from_in. intros [_ F]. apply F. now left.
Qed.

Lemma build_candidates_spec (names_list : list (list str)) :
  StronglySorted str_le (build_candidates names_list)
  /\ NoDup (build_candidates names_list)
  /\ forall x, In x (build_candidates names_list)
               <-> In x (List.concat names_list) /\ strip x <> [].
Proof.
  unfold build_candidates.
  destruct names_list as [|l ls]; cbn [is_nil negb].
  - split; [constructor|]. split; [constructor|].
    intros x. cbn. tauto.
  - split; [apply sorted_sorted|]. split.
    + apply sorted_nodup, NoDup_filter, unique_from_nodup.
    + intros x. rewrite sorted_in, filter_In. unfold unique.
      rewrite unique_from_in, negb_true_iff, str_eqb_neq.
      cbn [In]. change (u "") with (@nil N). tauto.
Qed.

(** C8, as the code has it.  The list built from the gathered columns
    ascends, has no string twice, and holds exactly the gathered strings
    that are not blank, each as it stands in its column; the two searches
    build their lists this way from the columns their tables have; the
    values of the example give [Kim] and [Lee]. *)
Theorem build_candidates_sorted_unique (names_list : list (list str)) :
  StronglySorted str_le (build_candidates names_list)
  /\ NoDup (build_candidates names_list)
  /\ (forall x, In x (build_candidates names_list)
                <-> In x (List.concat names_list) /\ strip x <> [])
  /\ (forall df_emp df_led df_inv,
        names df_emp df_led df_inv
        = build_candidates
            (gather (gather (gather (gather [] df_emp (u "직원명"))
                               df_led (u "담당자"))
                       df_led (u "관련직원명"))
               df_inv (u "담당자")))
  /\ (forall df_pur df_led df_inv,
        car_nums df_pur df_led df_inv
        = build_candidates
            (gather (gather (gather [] df_pur (u "차량번호"))
                       df_led (u "차량번호"))
               df_inv (u "차량번호")))
  /\ build_candidates [map u ["  "; "Kim"; "Kim"; ""; "Lee"]%string]
     = [u "Kim"; u "Lee"]
  /\ names sample_names sample_none sample_none = [u "Kim"; u "Lee"].
Proof.
  destruct (build_candidates_spec names_list) as [H1 [H2 H3]].
  split; [exact H1|]. split; [exact H2|]. split; [exact H3|].
  split; [reflexivity|]. split; [reflexivity|].
  split; vm_compute; reflexivity.
Qed.

(** C8, as stated, fails: a name with a leading blank is listed as it
    stands, not trimmed. *)
Lemma build_candidates_trimmed_counterexample :
  ~ (forall names_list x,
        In x (build_candidates names_list) -> strip x = x).
Proof.
  intros H. specialize (H [[u " Kim"]] (u " Kim")).
  assert (F : strip (u " Kim") = u " Kim").
  { apply H. vm_compute. now left. }
  vm_compute in F. discriminate F.
Qed.

Lemma build_candidates_sorted_unique_witness :
  NoDup (build_candidates [map u ["  "; "Kim"; "Kim"; ""; "Lee"]%string]).
Proof.
  exact (proj1 (proj2 (build_candidates_sorted_unique
                         [map u ["  "; "Kim"; "Kim"; ""; "Lee"]%string]))).
Defined.

(** ** The loader *)

Lemma load_data_none (to_datetime : list value -> list (option Timestamp))
  (fs : FileSystem) (master_path : str) :
  load_data to_datetime fs master_path = None
  <-> (os_path_exists fs master_path = true
       /\ workbook_ok fs master_path = false)
      \/ (os_path_exists fs master_path = false
          /\ os_path_exists fs (FILE_PATHS "income") = false).
Proof.
  unfold load_data, workbook_ok.
  destruct (os_path_exists fs master_path).
  - destruct (pd_ExcelFile fs master_path) as [xls|]; cbn [bind].
    + cbn [forallb map].
      destruct (xls (u "1_직원소득")); cbn [bind is_some andb];
        [|intuition congruence].
      destruct (xls (u "2_차량매입")); cbn [bind is_some andb];
        [|intuition congruence].
      destruct (xls (u "3_장부")); cbn [bind is_some andb];
        [|intuition congruence].
      destruct (xls (u "4_차량상품화")); cbn [bind is_some andb];
        [|intuition congruence].
      destruct (xls (u "5_월별결산")); cbn [bind is_some andb];
        intuition congruence.
    + intuition congruence.
  - destruct (os_path_exists fs (FILE_PATHS "income")); cbn [negb bind];
      intuition congruence.
Qed.

Lemma load_data_legacy (to_datetime : list value -> list (option Timestamp))
  (fs : FileSystem) (master_path : str) :
  os_path_exists fs master_path = false ->
  os_path_exists fs (FILE_PATHS "income") = true ->
  load_data to_datetime fs master_path
  = Some
      {| emp := standardize_dates to_datetime
                  (standardize_ym to_datetime (load_legacy_emp fs))
                  [u "지급일자"];
         pur := standardize_dates to_datetime
                  (standardize_ym to_datetime (load_legacy_pur to_datetime fs))
                  [u "취득일자"];
         led := standardize_dates to_datetime
                  (standardize_ym to_datetime (load_legacy_led to_datetime fs))
                  [u "일자"];
         inv := standardize_dates to_datetime
                  (standardize_ym to_datetime (load_legacy_inv to_datetime fs))
                  [u "입고일자"; u "상품화완료일자"];
         month := standardize_ym to_datetime (load_legacy_month fs) |}.
Proof.
  intros Hm Hi. unfold load_data. rewrite Hm, Hi. reflexivity.
Qed.

Lemma failing_read (fs : FileSystem) (path p : str) (sheet : option str)
  (header : nat) :
  str_eqb p path = false ->
  pd_read_excel (failing fs path) p sheet header
  = pd_read_excel fs p sheet header.
Proof. intros H. cbn [pd_read_excel failing]. now rewrite H. Qed.

Lemma failing_read_same (fs : FileSystem) (path : str) (sheet : option str)
  (header : nat) :
  pd_read_excel (failing fs path) path sheet header = None.
Proof. cbn [pd_read_excel failing]. now rewrite str_eqb_refl. Qed.

Section OtherFile.

Variable to_datetime : list value -> list (option Timestamp).
Variable fs : FileSystem.
Variable path : str.

Lemma load_legacy_emp_other :
  str_eqb (FILE_PATHS "income") path = false ->
  load_legacy_emp (failing fs path) = load_legacy_emp fs.
Proof.
  intros H. unfold load_legacy_emp. now rewrite failing_read by exact H.
Qed.

Lemma load_legacy_pur_other :
  str_eqb (FILE_PATHS "purchase") path = false ->
  load_legacy_pur to_datetime (failing fs path)
  = load_legacy_pur to_datetime fs.
Proof.
  intros H. unfold load_legacy_pur. now rewrite failing_read by exact H.
Qed.

Lemma load_legacy_led_other :
  str_eqb (FILE_PATHS "ledger") path = false ->
  load_legacy_led to_datetime (failing fs path)
  = load_legacy_led to_datetime fs.
Proof.
  intros H. unfold load_legacy_led. now rewrite failing_read by exact H.
Qed.

Lemma load_legacy_inv_other :
  str_eqb (FILE_PATHS "inventory") path = false ->
  load_legacy_inv to_datetime (failing fs path)
  = load_legacy_inv to_datetime fs.
Proof.
  intros H. unfold load_legacy_inv. cbn [os_path_exists failing].
  now rewrite failing_read by exact H.
Qed.

Lemma load_legacy_month_other :
  str_eqb (FILE_PATHS "report") path = false ->
  load_legacy_month (failing fs path) = load_legacy_month fs.
Proof.
  intros H. unfold load_legacy_month. cbn [os_path_exists failing].
  now rewrite failing_read by exact H.
Qed.

End OtherFile.

Ltac other_files :=
  rewrite ?load_legacy_emp_other, ?load_legacy_pur_other,
    ?load_legacy_led_other, ?load_legacy_inv_other, ?load_legacy_month_other
    by (vm_compute; reflexivity);
  reflexivity.

(** C9, as the code has it.  The loader gives no tables exactly when the
    workbook is there and does not open or one of its five sheets does not
    parse, or when neither the workbook nor the legacy income file is there;
    it raises nothing.  Without the workbook and with the income file, the
    five tables are loaded one by one: when the reading of one file fails,
    its table is empty and the other four are what they are without the
    failure. *)
Theorem load_data_failures
  (to_datetime : list value -> list (option Timestamp))
  (fs : FileSystem) (master_path : str) :
  (load_data to_datetime fs master_path = None
   <-> (os_path_exists fs master_path = true
        /\ workbook_ok fs master_path = false)
       \/ (os_path_exists fs master_path = false
           /\ os_path_exists fs (FILE_PATHS "income") = false))
  /\ (os_path_exists fs master_path = false ->
      os_path_exists fs (FILE_PATHS "income") = true ->
      forall key, In key LEGACY_KEYS ->
        exists t t',
          load_data to_datetime fs master_path = Some t
          /\ load_data to_datetime (failing fs (FILE_PATHS key)) master_path
             = Some t'
          /\ empty (table key t') = true
          /\ forall key', In key' LEGACY_KEYS -> key' <> key ->
                          table key' t' = table key' t).
Proof.
  split; [apply load_data_none|].
  intros Hm Hi key Hk.
  eexists. eexists.
  split; [now apply load_data_legacy|].
  split; [now apply load_data_legacy|].
  cbn [LEGACY_KEYS In] in Hk.
  destruct Hk as [<- | [<- | [<- | [<- | [<- | []]]]]];
    (split;
     [| intros key' Hk' Hn; cbn [LEGACY_KEYS In] in Hk';
        destruct Hk' as [<- | [<- | [<- | [<- | [<- | []]]]]];
        try congruence;
        unfold table; cbn [String.eqb Ascii.eqb Bool.eqb];
        cbn [emp pur led inv month]; other_files]).
  - change (table "income" ?t) with (emp t). cbn [emp].
    unfold load_legacy_emp. rewrite failing_read_same.
    vm_compute. reflexivity.
  - change (table "purchase" ?t) with (pur t). cbn [pur].
    unfold load_legacy_pur. rewrite failing_read_same.
    vm_compute. reflexivity.
  - change (table "ledger" ?t) with (led t). cbn [led].
    unfold load_legacy_led. rewrite failing_read_same.
    vm_compute. reflexivity.
  - change (table "inventory" ?t) with (inv t). cbn [inv].
    unfold load_legacy_inv. cbn [os_path_exists failing].
    rewrite failing_read_same.
    destruct (os_path_exists fs (FILE_PATHS "inventory"));
      vm_compute; reflexivity.
  - change (table "report" ?t) with (month t). cbn [month].
    unfold load_legacy_month. cbn [os_path_exists failing].
    rewrite failing_read_same.
    destruct (os_path_exists fs (FILE_PATHS "report"));
      vm_compute; reflexivity.
Qed.

Lemma load_data_failures_witness :
  exists t t',
    load_data iso_to_datetime sample_fs_legacy (u "amotors_master_data.xlsx")
    = Some t
    /\ load_data iso_to_datetime
         (failing sample_fs_legacy (FILE_PATHS "purchase"))
         (u "amotors_master_data.xlsx") = Some t'
    /\ empty (table "purchase" t') = true
    /\ forall key', In key' LEGACY_KEYS -> key' <> "purchase"%string ->
                    table key' t' = table key' t.
Proof.
  apply (proj2 (load_data_failures iso_to_datetime sample_fs_legacy
                  (u "amotors_master_data.xlsx"))).
  - vm_compute. reflexivity.
  - vm_compute. reflexivity.
  - cbn [LEGACY_KEYS In]. right. left. reflexivity.
Defined.

(** C9, as stated, fails: with the workbook in place, one sheet that does
    not parse leaves no tables at all, although the workbook and the legacy
    income file are both there. *)
Lemma load_data_sheet_counterexample :
  ~ (forall (to_datetime : list value -> list (option Timestamp))
       (fs : FileSystem) (master_path : str),
        load_data to_datetime fs master_path = None ->
        os_path_exists fs master_path = false
        /\ os_path_exists fs (FILE_PATHS "income") = false).
Proof.
  intros H.
  destruct (H iso_to_datetime sample_fs_sheet_missing
              (u "amotors_master_data.xlsx")) as [F _].
  - vm_compute. reflexivity.
  - vm_compute in F. discriminate F.
Qed.

(** ** From the loader to the summary *)

Lemma has_column_app (df : DataFrame) (c c' : str) :
  existsb (str_eqb c') (columns df ++ [c])
  = has_column df c' || str_eqb c' c.
Proof.
  unfold has_column. rewrite existsb_app. cbn [existsb].
  now rewrite orb_false_r.
Qed.

Lemma set_column_keeps (df : DataFrame) (c : str) (vals : list value)
  (c' : str) :
  has_column df c' = true -> has_column (set_column df c vals) c' = true.
Proof.
  intros H. unfold set_column. destruct (has_column df c).
  - exact H.
  - unfold has_column at 1. cbn [columns].
    rewrite has_column_app, H. reflexivity.
Qed.

Lemma set_column_has (df : DataFrame) (c : str) (vals : list value) :
  has_column (set_column df c vals) c = true.
Proof.
  unfold set_column. destruct (has_column df c) eqn:E.
  - exact E.
  - unfold has_column at 1. cbn [columns].
    rewrite has_column_app, str_eqb_refl. now rewrite orb_true_r.
Qed.

Lemma standardize_ym_period
  (to_datetime : list value -> list (option Timestamp)) (df : DataFrame) :
  has_column (standardize_ym to_datetime df) (u "기준년월") = true.
Proof.
  unfold standardize_ym.
  destruct (has_column df (u "기준년월(YYYY-MM)")); [apply set_column_has|].
  destruct (has_column df (u "기준년월")) eqn:E; cbn [negb];
    [exact E | apply set_column_has].
Qed.

Lemma standardize_dates_keeps
  (to_datetime : list value -> list (option Timestamp)) (cols : list str)
  (df : DataFrame) (c : str) :
  has_column df c = true ->
  has_column (standardize_dates to_datetime df cols) c = true.
Proof.
  unfold standardize_dates. revert df.
  induction cols as [|d cols IH]; intros df H; cbn [fold_left]; [exact H|].
  apply IH. destruct (has_column df d); [now apply set_column_keeps | exact H].
Qed.

(** The tables that the loader returns have the period column that the
    summary reads. *)
Lemma load_data_period_columns
  (to_datetime : list value -> list (option Timestamp)) (fs : FileSystem)
  (master_path : str) (t : Tables) :
  load_data to_datetime fs master_path = Some t ->
  has_column (emp t) (u "기준년월") = true
  /\ has_column (pur t) (u "기준년월") = true
  /\ has_column (led t) (u "기준년월") = true
  /\ has_column (inv t) (u "기준년월") = true.
Proof.
  unfold load_data.
  destruct (if os_path_exists fs master_path then _ else _) as [loaded|];
    cbn [bind]; [|discriminate].
  intros H. injection H as <-. cbn [emp pur led inv].
  split; [|split; [|split]].
  - exact (standardize_dates_keeps to_datetime [u "지급일자"] _ _
             (standardize_ym_period to_datetime (emp loaded))).
  - exact (standardize_dates_keeps to_datetime [u "취득일자"] _ _
             (standardize_ym_period to_datetime (pur loaded))).
  - exact (standardize_dates_keeps to_datetime [u "일자"] _ _
             (standardize_ym_period to_datetime (led loaded))).
  - exact (standardize_dates_keeps to_datetime
             [u "입고일자"; u "상품화완료일자"] _ _
             (standardize_ym_period to_datetime (inv loaded))).
Qed.

Example sample_load_and_summary :
  bind (load_data iso_to_datetime sample_fs_legacy
          (u "amotors_master_data.xlsx"))
    (fun t => compute_auto_month_summary (emp t) (pur t) (led t) (inv t)
                (u "2024-05"))
  = Some [ labor_item (u "2024-05") 300000;
           purchase_item (u "2024-05") 500;
           sales_item (u "2024-05") 100 ].
Proof. vm_compute. reflexivity. Qed.

(** * Further properties *)

(** ** The summary on tables of any shape *)

Lemma cell_no_columns (df : DataFrame) (r : list value) (c : str) :
  columns df = [] -> cell df r c = VNull.
Proof. intros H. unfold cell, row_series. now rewrite H. Qed.

Lemma period_rows_unreadable (df : DataFrame) (ym : str) :
  empty df = true \/ has_column df (u "기준년월") = false ->
  period_rows df ym = [].
Proof.
  intros H. unfold period_rows.
  assert (E : data df = [] \/ forall r, in_period df ym r = false).
  { destruct H as [H | H].
    - unfold empty in H. apply orb_true_iff in H. destruct H as [H | H].
      + right. intros r. unfold in_period.
        rewrite cell_no_columns; [reflexivity|].
        now destruct (columns df).
      + left. now destruct (data df).
    - right. intros r. unfold in_period. now rewrite cell_absent. }
  destruct E as [E | E]; [now rewrite E | now apply filter_none].
Qed.

Lemma labor_total_unreadable (df : DataFrame) (ym : str) :
  period_rows df ym = [] -> labor_total df ym = 0%Z.
Proof.
  intros H. unfold labor_total, labor_rows.
  rewrite <- filter_and. fold (period_rows df ym). now rewrite H.
Qed.

Lemma summary_emp_general (df_emp : DataFrame) (ym : str) (rows : list LineItem) :
  summary_emp df_emp ym rows
  = if period_missing df_emp then None
    else Some (rows ++ item_if_nonzero (labor_item ym) (labor_total df_emp ym)).
Proof.
  unfold period_missing.
  destruct (has_column df_emp (u "기준년월")) eqn:Hp.
  - rewrite andb_false_r. now apply summary_emp_total.
  - rewrite andb_true_r. unfold summary_emp.
    destruct (empty df_emp) eqn:E; cbn [negb].
    + rewrite labor_total_unreadable
        by (apply period_rows_unreadable; now left).
      cbn. now rewrite app_nil_r.
    + unfold getitem. now rewrite Hp.
Qed.

Lemma summary_pur_general (df_pur : DataFrame) (ym : str) (rows : list LineItem) :
  summary_pur df_pur ym rows
  = if period_missing df_pur && has_column df_pur (u "매입가액") then None
    else Some (rows ++ item_if_nonzero (purchase_item ym)
                         (purchase_total df_pur ym)).
Proof.
  unfold period_missing.
  destruct (has_column df_pur (u "기준년월")) eqn:Hp.
  - rewrite andb_false_r. cbn [andb]. now apply summary_pur_total.
  - rewrite andb_true_r. unfold summary_pur, purchase_total.
    rewrite period_rows_unreadable by now right.
    destruct (empty df_pur); cbn [negb andb].
    + cbn. now rewrite app_nil_r.
    + destruct (has_column df_pur (u "매입가액")).
      * unfold getitem. now rewrite Hp.
      * cbn. now rewrite app_nil_r.
Qed.

Lemma summary_inv_general (df_inv : DataFrame) (ym : str) (rows : list LineItem) :
  summary_inv df_inv ym rows
  = if period_missing df_inv && has_column df_inv (u "비용(VAT포함)") then None
    else Some (rows ++ item_if_nonzero (recond_item ym)
                         (recond_total df_inv ym)).
Proof.
  unfold period_missing.
  destruct (has_column df_inv (u "기준년월")) eqn:Hp.
  - rewrite andb_false_r. cbn [andb]. now apply summary_inv_total.
  - rewrite andb_true_r. unfold summary_inv, recond_total.
    rewrite period_rows_unreadable by now right.
    destruct (empty df_inv); cbn [negb andb].
    + cbn. now rewrite app_nil_r.
    + destruct (has_column df_inv (u "비용(VAT포함)")).
      * unfold getitem. now rewrite Hp.
      * cbn. now rewrite app_nil_r.
Qed.

Lemma summary_led_general (df_led : DataFrame) (ym : str) (rows : list LineItem) :
  summary_led df_led ym rows
  = if period_missing df_led then None
    else Some (rows
               ++ item_if_nonzero (sales_item ym) (sales_total df_led ym)
               ++ expense_items ym (expense_groups df_led ym)).
Proof.
  unfold period_missing.
  destruct (has_column df_led (u "기준년월")) eqn:Hp.
  - rewrite andb_false_r. now apply summary_led_total.
  - rewrite andb_true_r. unfold summary_led.
    destruct (empty df_led) eqn:E; cbn [negb].
    + unfold sales_total, sales_rows, expense_groups, expense_rows.
      rewrite period_rows_unreadable by now left.
      cbn. now rewrite app_nil_r.
    + unfold getitem. now rewrite Hp.
Qed.

Lemma compute_auto_month_summary_general
  (df_emp df_pur df_led df_inv : DataFrame) (ym : str) :
  compute_auto_month_summary df_emp df_pur df_led df_inv ym
  = if summary_key_error df_emp df_pur df_led df_inv then None
    else Some (summary_items df_emp df_pur df_led df_inv ym).
Proof.
  unfold compute_auto_month_summary, summary_key_error, summary_items.
  rewrite summary_emp_general.
  destruct (period_missing df_emp); cbn [bind orb]; [reflexivity|].
  rewrite summary_pur_general.
  destruct (period_missing df_pur && has_column df_pur (u "매입가액"));
    cbn [bind orb]; [reflexivity|].
  rewrite summary_inv_general.
  destruct (period_missing df_inv && has_column df_inv (u "비용(VAT포함)"));
    cbn [bind orb]; [reflexivity|].
  rewrite summary_led_general.
  destruct (period_missing df_led); cbn [bind orb app]; [reflexivity|].
  now rewrite <- !app_assoc.
Qed.

(** X1.  The summary raises [KeyError] exactly when a table it reads has
    rows and columns but no period column: the income table, the ledger, the
    purchase table with its amount column, the reconditioning table with its
    cost column.  In every other case it returns. *)
Theorem compute_auto_month_summary_key_error
  (df_emp df_pur df_led df_inv : DataFrame) (ym : str) :
  (compute_auto_month_summary df_emp df_pur df_led df_inv ym = None
   <-> summary_key_error df_emp df_pur df_led df_inv = true)
  /\ (summary_key_error df_emp df_pur df_led df_inv = false ->
      compute_auto_month_summary df_emp df_pur df_led df_inv ym
      = Some (summary_items df_emp df_pur df_led df_inv ym)).
Proof.
  rewrite compute_auto_month_summary_general.
  destruct (summary_key_error df_emp df_pur df_led df_inv); split;
    try split; intros; congruence.
Qed.

Lemma compute_auto_month_summary_key_error_witness :
  compute_auto_month_summary sample_emp sample_no_period sample_led
    sample_none (u "2024-05")
  = Some (summary_items sample_emp sample_no_period sample_led sample_none
            (u "2024-05")).
Proof.
  apply (proj2 (compute_auto_month_summary_key_error sample_emp
                  sample_no_period sample_led sample_none (u "2024-05"))).
  vm_compute. reflexivity.
Defined.

Example sample_key_error :
  compute_auto_month_summary sample_no_period sample_none sample_none
    sample_none (u "2024-05") = None.
Proof. vm_compute. reflexivity. Qed.

(** ** The shape of the summary *)

Lemma categorize_ledger_row_in (row : Series) :
  In (categorize_ledger_row row) CATEGORIES.
Proof.
  rewrite categorize_ledger_row_rules. exact (first_match_in _ RULES).
Qed.

Lemma expense_groups_key (df_led : DataFrame) (ym cat : str) (val : Z) :
  In (cat, val) (expense_groups df_led ym) ->
  exists r, In r (expense_rows df_led ym) /\ category df_led r = cat.
Proof.
  unfold expense_groups. intros H.
  apply groupby_sum_spec in H. destruct H as [[w Hw] _].
  apply in_map_iff in Hw. destruct Hw as [r [E Hr]].
  exists r. split; [exact Hr | congruence].
Qed.

Lemma expense_items_categories (df_led : DataFrame) (ym : str) :
  incl (map li_category (expense_items ym (expense_groups df_led ym)))
    (map u ["차량매입"; "인건비"; "고정비"; "세금"; "변동비"; "기타"]%string).
Proof.
  intros c Hc. apply in_map_iff in Hc. destruct Hc as [it [<- Hit]].
  apply expense_items_in in Hit.
  destruct Hit as [cat [val [Hg [Hn [_ ->]]]]]. cbn [li_category expense_item].
  apply expense_groups_key in Hg. destruct Hg as [r [_ <-]].
  pose proof (categorize_ledger_row_in (row_series df_led r)) as Hin.
  fold (category df_led r) in Hin. fold (category df_led r) in Hn.
  unfold CATEGORIES in Hin. cbn [map In] in Hin. cbn [map In].
  destruct Hin as [H | [H | [H | [H | [H | [H | [H | []]]]]]]]; auto 10.
Qed.

Lemma item_if_nonzero_length (mk : Z -> LineItem) (amount : Z) :
  (List.length (item_if_nonzero mk amount) <= 1)%nat.
Proof. unfold item_if_nonzero. destruct (amount =? 0)%Z; cbn; lia. Qed.

Lemma summary_items_in (df_emp df_pur df_led df_inv : DataFrame) (ym : str)
  (it : LineItem) :
  In it (summary_items df_emp df_pur df_led df_inv ym) ->
  (labor_total df_emp ym <> 0%Z
   /\ it = labor_item ym (labor_total df_emp ym))
  \/ (purchase_total df_pur ym <> 0%Z
      /\ it = purchase_item ym (purchase_total df_pur ym))
  \/ (recond_total df_inv ym <> 0%Z
      /\ it = recond_item ym (recond_total df_inv ym))
  \/ (sales_total df_led ym <> 0%Z
      /\ it = sales_item ym (sales_total df_led ym))
  \/ In it (expense_items ym (expense_groups df_led ym)).
Proof.
  unfold summary_items. rewrite !in_app_iff, !item_if_nonzero_in. tauto.
Qed.

(** X2.  A summary that is returned has at most ten items: at most one per
    table for labour, purchases, reconditioning and sales, and at most one
    per expense category.  Every item carries the requested period, a
    category of the fixed set and one of the four source tags. *)
Theorem compute_auto_month_summary_shape
  (df_emp df_pur df_led df_inv : DataFrame) (ym : str) (out : list LineItem) :
  compute_auto_month_summary df_emp df_pur df_led df_inv ym = Some out ->
  (List.length out <= 10)%nat
  /\ forall it, In it out ->
       li_ym it = ym /\ In (li_category it) CATEGORIES
       /\ In (li_source it) SOURCES.
Proof.
  rewrite compute_auto_month_summary_general.
  destruct (summary_key_error df_emp df_pur df_led df_inv); [discriminate|].
  intros H. injection H as <-. split.
  - unfold summary_items. rewrite !length_app.
    pose proof (item_if_nonzero_length (labor_item ym) (labor_total df_emp ym)).
    pose proof (item_if_nonzero_length (purchase_item ym)
                  (purchase_total df_pur ym)).
    pose proof (item_if_nonzero_length (recond_item ym)
                  (recond_total df_inv ym)).
    pose proof (item_if_nonzero_length (sales_item ym) (sales_total df_led ym)).
    assert (L : (List.length (expense_items ym (expense_groups df_led ym))
                 <= 6)%nat).
    { rewrite <- (length_map li_category).
      apply (NoDup_incl_length
               (l' := map u ["차량매입"; "인건비"; "고정비"; "세금"; "변동비";
                             "기타"]%string)).
      - apply sorted_categories_nodup, expense_items_sorted.
        apply groupby_sum_spec.
      - apply expense_items_categories. }
    lia.
  - intros it Hin. apply summary_items_in in Hin.
    destruct Hin as [[_ ->] | [[_ ->] | [[_ ->] | [[_ ->] | Hin]]]];
      try (split; [reflexivity|]; split; vm_compute; tauto).
    split; [|split].
    + apply expense_items_in in Hin.
      now destruct Hin as [c [w [_ [_ [_ ->]]]]].
    + assert (I : In (li_category it)
                    (map li_category
                       (expense_items ym (expense_groups df_led ym)))).
      { now apply in_map. }
      apply expense_items_categories in I. revert I.
      unfold CATEGORIES. cbn [map In]. tauto.
    + apply expense_items_in in Hin.
      destruct Hin as [c [w [_ [_ [_ ->]]]]]. vm_compute. tauto.
Qed.

Lemma compute_auto_month_summary_shape_witness :
  (List.length
     [ labor_item (u "2024-05") 300000;
       sales_item (u "2024-05") 9000000;
       expense_item (u "2024-05") (u "고정비") 800000;
       expense_item (u "2024-05") (u "인건비") 3000000 ] <= 10)%nat.
Proof.
  apply (compute_auto_month_summary_shape sample_emp sample_none sample_led
           sample_none (u "2024-05")).
  vm_compute. reflexivity.
Defined.

(** ** Amounts of the ledger *)

Lemma sum_nonneg (xs : list Z) :
  (forall x, In x xs -> (0 < x)%Z) -> (0 <= sum xs)%Z.
Proof.
  unfold sum. induction xs as [|x xs IH]; intros H; cbn [fold_right]; [lia|].
  pose proof (H x (or_introl eq_refl)).
  assert (0 <= fold_right Z.add 0 xs)%Z by (apply IH; intros y Hy; apply H; now right).
  lia.
Qed.

Lemma sales_total_nonneg (df_led : DataFrame) (ym : str) :
  (0 <= sales_total df_led ym)%Z.
Proof.
  unfold sales_total, sum_of. apply sum_nonneg. intros x Hx.
  apply in_map_iff in Hx. destruct Hx as [r [<- Hr]].
  unfold sales_rows in Hr. apply filter_In in Hr. destruct Hr as [_ Hr].
  apply andb_true_iff in Hr. destruct Hr as [Hr _].
  unfold deposit in Hr. lia.
Qed.

Lemma category_total_nonneg (df_led : DataFrame) (ym cat : str) :
  (0 <= category_total df_led ym cat)%Z.
Proof.
  unfold category_total, sum_of. apply sum_nonneg. intros x Hx.
  apply in_map_iff in Hx. destruct Hx as [r [<- Hr]].
  apply filter_In in Hr. destruct Hr as [Hr _].
  unfold expense_rows in Hr. apply filter_In in Hr. destruct Hr as [_ Hr].
  unfold withdrawal in Hr. lia.
Qed.

(** X3.  Every item that a returned summary takes from the ledger, the
    sales item and the expense items, has a positive amount: only rows with
    a positive deposit or withdrawal are summed.  The test on a zero sum in
    the loop over the groups never fires. *)
Theorem compute_auto_month_summary_ledger_positive
  (df_emp df_pur df_led df_inv : DataFrame) (ym : str) (out : list LineItem) :
  compute_auto_month_summary df_emp df_pur df_led df_inv ym = Some out ->
  (forall it, In it out -> li_source it = u "장부" -> (0 < li_amount it)%Z)
  /\ (forall cat val, In (cat, val) (expense_groups df_led ym) ->
                      (0 < val)%Z).
Proof.
  rewrite compute_auto_month_summary_general.
  destruct (summary_key_error df_emp df_pur df_led df_inv); [discriminate|].
  intros H. injection H as <-.
  assert (G : forall cat val, In (cat, val) (expense_groups df_led ym) ->
                              (0 < val)%Z).
  { intros cat val Hg.
    destruct (Z.eq_dec val 0) as [-> | Hv].
    - exfalso. pose proof Hg as Hk. apply expense_groups_key in Hk.
      destruct Hk as [r [Hr Hc]].
      unfold expense_groups in Hg. apply groupby_sum_spec in Hg.
      destruct Hg as [_ Hs]. rewrite key_sum_category_total in Hs.
      (* the group has the row [r], whose withdrawal is positive *)
      unfold category_total, sum_of in Hs.
      assert (Hin : In r (filter (fun r => str_eqb (category df_led r) cat)
                            (expense_rows df_led ym))).
      { apply filter_In. split; [exact Hr | now apply str_eqb_eq]. }
      revert Hs Hin.
      assert (P : forall x, In x (filter (fun r => str_eqb (category df_led r) cat)
                                    (expense_rows df_led ym)) ->
                            (0 < clean_numeric_cell (cell df_led x (u "출금")))%Z).
      { intros x Hx. apply filter_In in Hx. destruct Hx as [Hx _].
        unfold expense_rows in Hx. apply filter_In in Hx.
        destruct Hx as [_ Hx]. unfold withdrawal in Hx. lia. }
      revert P.
      generalize (filter (fun r => str_eqb (category df_led r) cat)
                    (expense_rows df_led ym)).
      intros l P Hs Hin. destruct l as [|y l]; [destruct Hin|].
      cbn [map sum fold_right] in Hs.
      pose proof (P y (or_introl eq_refl)).
      assert (0 <= sum (map (fun r => clean_numeric_cell
                                        (cell df_led r (u "출금"))) l))%Z.
      { apply sum_nonneg. intros x Hx. apply in_map_iff in Hx.
        destruct Hx as [z [<- Hz]]. apply P. now right. }
      unfold sum in *. lia.
    - apply expense_groups_spec in Hg; [|exact Hv].
      pose proof (category_total_nonneg df_led ym cat). lia. }
  split; [|exact G].
  intros it Hin Hs. apply summary_items_in in Hin.
  destruct Hin as [[_ ->] | [[_ ->] | [[_ ->] | [[Hz ->] | Hin]]]];
    try (vm_compute in Hs; discriminate Hs).
  - cbn [li_amount sales_item].
    pose proof (sales_total_nonneg df_led ym). lia.
  - apply expense_items_in in Hin.
    destruct Hin as [c [w [Hg [_ [_ ->]]]]]. cbn [li_amount expense_item].
    now apply (G c).
Qed.

Lemma compute_auto_month_summary_ledger_positive_witness :
  (0 < li_amount (expense_item (u "2024-05") (u "고정비") 800000))%Z.
Proof.
  apply (proj1 (compute_auto_month_summary_ledger_positive sample_emp
                  sample_none sample_led sample_none (u "2024-05")
                  [ labor_item (u "2024-05") 300000;
                    sales_item (u "2024-05") 9000000;
                    expense_item (u "2024-05") (u "고정비") 800000;
                    expense_item (u "2024-05") (u "인건비") 3000000 ]
                  ltac:(vm_compute; reflexivity))).
  - right. right. left. reflexivity.
  - reflexivity.
Defined.

(** ** What the expense items add up to *)

Lemma group_add_filter_sum (p : str -> bool) (k : str) (v : Z)
  (g : list (str * Z)) :
  sum (map snd (filter (fun kv => p (fst kv)) (group_add k v g)))
  = (sum (map snd (filter (fun kv => p (fst kv)) g))
     + if p k then v else 0)%Z.
Proof.
  induction g as [|[k1 v1] g IH]; cbn [group_add].
  - cbn [filter fst]. destruct (p k); cbn; lia.
  - destruct (str_eqb k k1) eqn:E.
    + apply str_eqb_eq in E. subst k1. cbn [filter fst].
      destruct (p k); cbn [map snd sum fold_right]; unfold sum; lia.
    + destruct (str_ltb k k1).
      * cbn [filter fst]. destruct (p k); cbn [map snd sum fold_right];
          unfold sum; cbn [filter fst]; lia.
      * cbn [filter fst]. destruct (p k1); cbn [map snd sum fold_right];
          unfold sum in *; rewrite IH; lia.
Qed.

Lemma groupby_sum_filter_sum (p : str -> bool) (l : list (str * Z)) :
  sum (map snd (filter (fun kv => p (fst kv)) (groupby_sum l)))
  = sum (map snd (filter (fun kv => p (fst kv)) l)).
Proof.
  unfold groupby_sum. induction l as [|[k v] l IH] using rev_ind.
  - reflexivity.
  - rewrite fold_left_app. cbn [fold_left fst snd].
    rewrite group_add_filter_sum, IH, filter_app, map_app, sum_app.
    cbn [filter fst]. destruct (p k); cbn; lia.
Qed.

Lemma expense_items_amounts (ym : str) (g : list (str * Z)) :
  sum (map li_amount (expense_items ym g))
  = sum (map snd (filter (fun kv => negb (str_eqb (fst kv) (u "매출"))) g)).
Proof.
  induction g as [|[cat val] g IH]; [reflexivity|].
  unfold expense_items. cbn [flat_map]. fold (expense_items ym g).
  cbn [fst snd filter].
  destruct (str_eqb cat (u "매출")); cbn [orb negb].
  - exact IH.
  - destruct (Z.eqb_spec val 0) as [-> | Hv]; cbn [app map li_amount sum
                                                    fold_right snd];
      unfold sum in *; rewrite IH; lia.
Qed.

Lemma filter_note_item (mk : Z -> LineItem) (amount : Z) :
  str_eqb (li_note (mk amount)) (u "자동분류") = false ->
  filter (fun it => str_eqb (li_note it) (u "자동분류"))
    (item_if_nonzero mk amount) = [].
Proof.
  intros H. unfold item_if_nonzero. destruct (amount =? 0)%Z; cbn [filter];
    [reflexivity | now rewrite H].
Qed.

Lemma filter_note_expenses (ym : str) (g : list (str * Z)) :
  filter (fun it => str_eqb (li_note it) (u "자동분류")) (expense_items ym g)
  = expense_items ym g.
Proof.
  apply filter_all. apply forallb_forall. intros it Hit.
  apply expense_items_in in Hit. now destruct Hit as [c [w [_ [_ [_ ->]]]]].
Qed.

(** X4.  In a returned summary the amounts of the items marked [자동분류]
    add up to the withdrawals of the period's ledger rows with a positive
    withdrawal that are not classified [매출]: the withdrawals of the rows
    classified as sales reach no item, every other one reaches exactly one. *)
Theorem compute_auto_month_summary_expense_sum
  (df_emp df_pur df_led df_inv : DataFrame) (ym : str) (out : list LineItem) :
  compute_auto_month_summary df_emp df_pur df_led df_inv ym = Some out ->
  sum (map li_amount
         (filter (fun it => str_eqb (li_note it) (u "자동분류")) out))
  = sum_of df_led (u "출금")
      (filter (fun r => negb (str_eqb (category df_led r) (u "매출")))
         (expense_rows df_led ym)).
Proof.
  rewrite compute_auto_month_summary_general.
  destruct (summary_key_error df_emp df_pur df_led df_inv); [discriminate|].
  intros H. injection H as <-. unfold summary_items.
  rewrite !filter_app, !filter_note_item by reflexivity.
  cbn [app]. rewrite filter_note_expenses, expense_items_amounts.
  unfold expense_groups.
  rewrite (groupby_sum_filter_sum
             (fun k => negb (str_eqb k (u "매출")))).
  rewrite filter_map_comm, map_map. reflexivity.
Qed.

Lemma compute_auto_month_summary_expense_sum_witness :
  sum (map li_amount
         (filter (fun it => str_eqb (li_note it) (u "자동분류"))
            [ labor_item (u "2024-05") 300000;
              sales_item (u "2024-05") 9000000;
              expense_item (u "2024-05") (u "고정비") 800000;
              expense_item (u "2024-05") (u "인건비") 3000000 ]))
  = sum_of sample_led (u "출금")
      (filter (fun r => negb (str_eqb (category sample_led r) (u "매출")))
         (expense_rows sample_led (u "2024-05"))).
Proof.
  apply (compute_auto_month_summary_expense_sum sample_emp sample_none
           sample_led sample_none (u "2024-05")).
  vm_compute. reflexivity.
Defined.

(** ** The summary of loaded tables *)

(** X5.  The summary raises nothing on the tables that the loader returns,
    for any requested period: the loader gives each table the period column
    that the summary reads. *)
Theorem load_data_then_summary
  (to_datetime : list value -> list (option Timestamp)) (fs : FileSystem)
  (master_path : str) (t : Tables) (ym : str) :
  load_data to_datetime fs master_path = Some t ->
  has_column (emp t) (u "기준년월") = true
  /\ has_column (pur t) (u "기준년월") = true
  /\ has_column (led t) (u "기준년월") = true
  /\ has_column (inv t) (u "기준년월") = true
  /\ has_column (month t) (u "기준년월") = true
  /\ compute_auto_month_summary (emp t) (pur t) (led t) (inv t) ym
     = Some (summary_items (emp t) (pur t) (led t) (inv t) ym).
Proof.
  intros H.
  destruct (load_data_period_columns to_datetime fs master_path t H)
    as [He [Hp [Hl Hi]]].
  repeat (split; [assumption|]).
  split.
  - revert H. unfold load_data.
    destruct (if os_path_exists fs master_path then _ else _) as [loaded|];
      cbn [bind]; [|discriminate].
    intros H. injection H as <-. cbn [month].
    apply standardize_ym_period.
  - unfold summary_items. now apply compute_auto_month_summary_steps.
Qed.

Lemma load_data_then_summary_witness :
  exists t,
    load_data iso_to_datetime sample_fs_legacy (u "amotors_master_data.xlsx")
    = Some t
    /\ compute_auto_month_summary (emp t) (pur t) (led t) (inv t)
         (u "2024-05")
       = Some (summary_items (emp t) (pur t) (led t) (inv t) (u "2024-05")).
Proof.
  destruct (load_data iso_to_datetime sample_fs_legacy
              (u "amotors_master_data.xlsx")) as [t|] eqn:E.
  - exists t. split; [reflexivity|].
    exact (proj2 (proj2 (proj2 (proj2 (proj2
             (load_data_then_summary iso_to_datetime sample_fs_legacy
                (u "amotors_master_data.xlsx") t (u "2024-05") E)))))).
  - vm_compute in E. discriminate E.
Defined.

(** ** Keywords, case and white space *)











Example is_excluded_samples :
  map is_excluded_income_type
    [VStr (u "직원"); VStr (u "기타소득"); VStr (u " 외부 강사 ");
     VStr (u "비직원(알바)"); VStr (u "고정"); VNull; VInt 3;
     VStr (u "제외")]
  = [false; true; true; true; false; false; false; true].
Proof. vm_compute. reflexivity. Qed.

(** ** Amounts with commas *)

Lemma filter_rev {A : Type} (p : A -> bool) (l : list A) :
  filter p (rev l) = rev (filter p l).
Proof.
  induction l as [|a l IH]; [reflexivity|].
  cbn [rev filter]. rewrite filter_app, IH. cbn [filter].
  destruct (p a); [reflexivity | now rewrite app_nil_r].
Qed.

Lemma filter_keep {A : Type} (p : A -> bool) (a : A) (l : list A) :
  p a = true -> filter p (a :: l) = a :: filter p l.
Proof. intros H. cbn [filter]. now rewrite H. Qed.

Lemma filter_drop {A : Type} (p : A -> bool) (a : A) (l : list A) :
  p a = false -> filter p (a :: l) = filter p l.
Proof. intros H. cbn [filter]. now rewrite H. Qed.

Lemma group3_four (a b c d : N) (rest : str) :
  group3 (a :: b :: c :: d :: rest)
  = a :: b :: c :: 0x2C%N :: group3 (d :: rest).
Proof. reflexivity. Qed.

Lemma group3_filter_bounded (p : N -> bool) (n : nat) (ds : str) :
  p 0x2C%N = false ->
  (List.length ds <= n)%nat ->
  forallb p ds = true ->
  filter p (group3 ds) = ds.
Proof.
  intros Hp. revert ds. induction n as [|n IH]; intros ds Hn Hd.
  - destruct ds; [reflexivity | cbn in Hn; lia].
  - destruct ds as [|a [|b [|c rest]]]; try (now apply filter_all).
    destruct rest as [|d rest]; [now apply filter_all|].
    rewrite group3_four.
    cbn [forallb] in Hd. apply andb_true_iff in Hd. destruct Hd as [Ha Hd].
    apply andb_true_iff in Hd. destruct Hd as [Hb Hd].
    apply andb_true_iff in Hd. destruct Hd as [Hc Hd].
    assert (E : filter p (group3 (d :: rest)) = d :: rest).
    { apply IH; [cbn [List.length] in *; lia | exact Hd]. }
    rewrite (filter_keep p a _ Ha), (filter_keep p b _ Hb),
      (filter_keep p c _ Hc), (filter_drop p 0x2C%N _ Hp).
    now rewrite E.
Qed.

Lemma group3_filter (p : N -> bool) (ds : str) :
  p 0x2C%N = false -> forallb p ds = true -> filter p (group3 ds) = ds.
Proof. intros Hp. apply (group3_filter_bounded p (List.length ds) ds Hp). lia. Qed.

Lemma forallb_rev {A : Type} (p : A -> bool) (l : list A) :
  forallb p l = true -> forallb p (rev l) = true.
Proof.
  rewrite !forallb_forall. intros H x Hx. apply H. now apply in_rev.
Qed.

Lemma format_thousands_filter (p : N -> bool) (x : Z) :
  p 0x2C%N = false -> p 0x2D%N = true ->
  (forall c, isdigit c = true -> p c = true) ->
  filter p (format_thousands x) = str_of_int x.
Proof.
  intros Hc Hm Hd. unfold format_thousands, str_of_int.
  assert (D : forall d, forallb p (rev (uint_str d)) = true).
  { intros d. apply forallb_rev. apply forallb_forall. intros c Hin.
    apply Hd. pose proof (uint_str_digits d) as F.
    rewrite forallb_forall in F. now apply F. }
  destruct (Z.to_int x) as [d | d]; cbn [filter]; [|rewrite Hm; f_equal];
    now rewrite filter_rev, (group3_filter p _ Hc (D d)), rev_involutive.
Qed.

Lemma format_thousands_digits (x : Z) :
  str_replace_non_numeric (format_thousands x) = str_of_int x.
Proof.
  apply format_thousands_filter; try reflexivity.
  intros c Hc. unfold numeric_char. now rewrite Hc.
Qed.

Lemma clean_numeric_cell_format (x : Z) :
  clean_numeric_cell (VStr (format_thousands x)) = x.
Proof.
  unfold clean_numeric_cell. cbn [py_str].
  rewrite format_thousands_digits.
  pose proof (clean_numeric_cell_VInt x) as H.
  unfold clean_numeric_cell, str_replace_non_numeric in H. cbn [py_str] in H.
  rewrite filter_all in H by apply str_of_int_numeric. exact H.
Qed.

(** X8.  The text with commas that [format_currency] shows for an integer
    is the text of the integer once the commas are taken out, and
    [clean_numeric] reads the integer back from it. *)
Theorem format_thousands_round_trip (x : Z) :
  filter (fun c => negb (c =? 0x2C)%N) (format_thousands x) = str_of_int x
  /\ clean_numeric [VStr (format_thousands x)] = Some [x].
Proof.
  split.
  - apply format_thousands_filter; try reflexivity.
    intros c Hc. unfold isdigit in Hc. apply andb_true_iff in Hc.
    destruct Hc as [Hc _]. apply N.leb_le in Hc.
    apply negb_true_iff, N.eqb_neq. lia.
  - rewrite clean_numeric_map. cbn [map]. do 2 f_equal.
    apply clean_numeric_cell_format.
Qed.

Example format_thousands_samples :
  map format_thousands [0; 7; 999; 1000; 1234567; -50; -1234; 100000]%Z
  = map u ["0"; "7"; "999"; "1,000"; "1,234,567"; "-50"; "-1,234";
           "100,000"]%string.
Proof. vm_compute. reflexivity. Qed.

(** ** Writing a column *)

Lemma replace_nth_length (n : nat) (v : value) (r : list value) :
  List.length (replace_nth n v r) = List.length r.
Proof.
  revert n. induction r as [|x r IH]; intros [|n]; cbn [replace_nth List.length];
    try reflexivity. now rewrite IH.
Qed.

Lemma replace_nth_nil (n : nat) (v : value) : replace_nth n v [] = [].
Proof. now destruct n. Qed.

Lemma row_get_replace_same (cols : list str) (r : list value) (c : str)
  (v d : value) :
  List.length r = List.length cols ->
  existsb (str_eqb c) cols = true ->
  row_get (combine cols (replace_nth (index_of c cols) v r)) c d = v.
Proof.
  unfold row_get. revert r.
  induction cols as [|c0 cols IH]; intros r Hl Hc; [discriminate Hc|].
  destruct r as [|x r]; [discriminate Hl|].
  injection Hl as Hl. cbn [existsb] in Hc. cbn [index_of].
  destruct (str_eqb c c0) eqn:E.
  - apply str_eqb_eq in E. subst c0. cbn [replace_nth combine find fst].
    now rewrite str_eqb_refl.
  - cbn [orb] in Hc. cbn [replace_nth combine find fst].
    replace (str_eqb c0 c) with false.
    + now apply IH.
    + symmetry. apply str_eqb_neq. apply str_eqb_neq in E. congruence.
Qed.

Lemma row_get_replace_other (cols : list str) (r : list value) (c c' : str)
  (v d : value) :
  c' <> c ->
  row_get (combine cols (replace_nth (index_of c cols) v r)) c' d
  = row_get (combine cols r) c' d.
Proof.
  intros Hn. unfold row_get. revert r.
  induction cols as [|c0 cols IH]; intros r; [reflexivity|].
  destruct r as [|x r]; [now rewrite replace_nth_nil|].
  cbn [index_of]. destruct (str_eqb c c0) eqn:E.
  - apply str_eqb_eq in E. subst c0. cbn [replace_nth combine find fst].
    replace (str_eqb c c') with false; [reflexivity|].
    symmetry. apply str_eqb_neq. congruence.
  - cbn [replace_nth combine find fst].
    destruct (str_eqb c0 c'); [reflexivity | apply IH].
Qed.

Lemma row_get_app_other (cols : list str) (r : list value) (c c' : str)
  (v d : value) :
  List.length r = List.length cols -> c' <> c ->
  row_get (combine (cols ++ [c]) (r ++ [v])) c' d
  = row_get (combine cols r) c' d.
Proof.
  intros Hl Hn. unfold row_get. revert r Hl.
  induction cols as [|c0 cols IH]; intros r Hl.
  - destruct r; [|discriminate Hl]. cbn [app combine find fst].
    replace (str_eqb c c') with false; [reflexivity|].
    symmetry. apply str_eqb_neq. congruence.
  - destruct r as [|x r]; [discriminate Hl|]. injection Hl as Hl.
    cbn [app combine find fst].
    destruct (str_eqb c0 c'); [reflexivity | now apply IH].
Qed.

Lemma row_get_app_same (cols : list str) (r : list value) (c : str)
  (v d : value) :
  List.length r = List.length cols -> existsb (str_eqb c) cols = false ->
  row_get (combine (cols ++ [c]) (r ++ [v])) c d = v.
Proof.
  intros Hl Hc. unfold row_get. revert r Hl.
  induction cols as [|c0 cols IH]; intros r Hl.
  - destruct r; [|discriminate Hl]. cbn [app combine find fst].
    now rewrite str_eqb_refl.
  - destruct r as [|x r]; [discriminate Hl|]. injection Hl as Hl.
    cbn [existsb] in Hc. apply orb_false_iff in Hc. destruct Hc as [H1 H2].
    cbn [app combine find fst].
    replace (str_eqb c0 c) with false; [now apply IH|].
    symmetry. apply str_eqb_neq. apply str_eqb_neq in H1. congruence.
Qed.

Lemma map2_length {A B C : Type} (f : A -> B -> C) (xs : list A)
  (ys : list B) :
  List.length ys = List.length xs ->
  List.length (map2 f xs ys) = List.length xs.
Proof.
  revert ys. induction xs as [|x xs IH]; intros [|y ys] H;
    try discriminate H; [reflexivity|].
  injection H as H. cbn [map2 List.length]. now rewrite IH.
Qed.

Lemma map2_in_left {A B C : Type} (f : A -> B -> C) (xs : list A)
  (ys : list B) (z : C) :
  In z (map2 f xs ys) -> exists x y, In x xs /\ z = f x y.
Proof.
  intros H. apply map2_in in H. destruct H as [x [y [Hx [_ ->]]]].
  now exists x, y.
Qed.

Lemma map_map2 {A B C D : Type} (g : C -> D) (f : A -> B -> C)
  (xs : list A) (ys : list B) :
  map g (map2 f xs ys) = map2 (fun x y => g (f x y)) xs ys.
Proof.
  revert ys. induction xs as [|x xs IH]; intros [|y ys]; cbn [map2 map];
    try reflexivity. now rewrite IH.
Qed.

Lemma map2_ext_in {A B C : Type} (f g : A -> B -> C) (xs : list A)
  (ys : list B) :
  (forall x y, In x xs -> f x y = g x y) -> map2 f xs ys = map2 g xs ys.
Proof.
  revert ys. induction xs as [|x xs IH]; intros [|y ys] H; cbn [map2];
    try reflexivity.
  rewrite (H x y (or_introl eq_refl)), IH; [reflexivity|].
  intros a b Ha. apply H. now right.
Qed.

Lemma map2_fst {A B : Type} (g : A -> B) (xs : list A) (ys : list value) :
  List.length ys = List.length xs ->
  map2 (fun x _ => g x) xs ys = map g xs.
Proof.
  revert ys. induction xs as [|x xs IH]; intros [|y ys] H;
    try discriminate H; [reflexivity|].
  injection H as H. cbn [map2 map]. now rewrite IH.
Qed.

Lemma map2_snd {A : Type} (xs : list A) (ys : list value) :
  List.length ys = List.length xs ->
  map2 (fun _ y => y) xs ys = ys.
Proof.
  revert ys. induction xs as [|x xs IH]; intros [|y ys] H;
    try discriminate H; [reflexivity|].
  injection H as H. cbn [map2]. now rewrite IH.
Qed.

(** A column that is written has the cells that are written, every other
    column keeps its cells, and the rows stay whole. *)
Lemma set_column_spec (df : DataFrame) (c : str) (vals : list value) :
  rectangular df ->
  List.length vals = List.length (data df) ->
  rectangular (set_column df c vals)
  /\ List.length (data (set_column df c vals)) = List.length (data df)
  /\ col (set_column df c vals) c = vals
  /\ (forall c', c' <> c -> col (set_column df c vals) c' = col df c')
  /\ (forall c', has_column (set_column df c vals) c'
                 = has_column df c' || str_eqb c' c).
Proof.
  intros Hr Hl. unfold set_column.
  destruct (has_column df c) eqn:Hc.
  - split; [|split; [|split; [|split]]].
    + intros r Hin. cbn [data columns] in *.
      apply map2_in_left in Hin. destruct Hin as [x [y [Hx ->]]].
      rewrite replace_nth_length. now apply Hr.
    + cbn [data]. now apply map2_length.
    + unfold col, row_series. cbn [data columns]. rewrite map_map2.
      rewrite (map2_ext_in _ (fun _ y => y)).
      * now apply map2_snd.
      * intros x y Hx. apply row_get_replace_same; [now apply Hr | exact Hc].
    + intros c' Hn. unfold col, row_series. cbn [data columns].
      rewrite map_map2.
      rewrite (map2_ext_in _ (fun x _ => row_get (combine (columns df) x)
                                           c' VNull)).
      * now apply map2_fst.
      * intros x y Hx. now apply row_get_replace_other.
    + intros c'. unfold has_column at 1. cbn [columns].
      fold (has_column df c').
      destruct (str_eqb c' c) eqn:E; [|now rewrite orb_false_r].
      apply str_eqb_eq in E. subst c'. now rewrite Hc.
  - split; [|split; [|split; [|split]]].
    + intros r Hin. cbn [data columns] in *.
      apply map2_in_left in Hin. destruct Hin as [x [y [Hx ->]]].
      rewrite !length_app. cbn [List.length]. now rewrite (Hr x Hx).
    + cbn [data]. now apply map2_length.
    + unfold col, row_series. cbn [data columns]. rewrite map_map2.
      rewrite (map2_ext_in _ (fun _ y => y)).
      * now apply map2_snd.
      * intros x y Hx. apply row_get_app_same; [now apply Hr | exact Hc].
    + intros c' Hn. unfold col, row_series. cbn [data columns].
      rewrite map_map2.
      rewrite (map2_ext_in _ (fun x _ => row_get (combine (columns df) x)
                                           c' VNull)).
      * now apply map2_fst.
      * intros x y Hx. apply row_get_app_other; [now apply Hr | exact Hn].
    + intros c'. unfold has_column at 1. cbn [columns].
      apply has_column_app.
Qed.

(** ** The display of a table *)


Section DisplayFacts.

Variable pd_to_numeric : value -> numeric.

Let shown (v : value) : value :=
  VStr (format_thousands (shown_amount pd_to_numeric v)).



End DisplayFacts.



Example format_currency_sample :
  option_map (fun shown => col shown (u "출금"))
    (format_currency plain_to_numeric sample_led
       [u "입금"; u "출금"; u "잔액"])
  = Some (map VStr (map u ["0"; "2,500,000"; "800,000"; "0"; "30,000";
                           "100,000"]%string)).
Proof. vm_compute. reflexivity. Qed.

(** ** The search box *)

Lemma filter_sorted {A : Type} (R : A -> A -> Prop) (p : A -> bool)
  (l : list A) :
  StronglySorted R l -> StronglySorted R (filter p l).
Proof.
  induction l as [|a l IH]; intros Hs; [constructor|].
  apply StronglySorted_inv in Hs. destruct Hs as [Hs Hall]. cbn [filter].
  destruct (p a); [|now apply IH].
  constructor; [now apply IH|].
  rewrite Forall_forall in *. intros x Hx. apply filter_In in Hx.
  now apply Hall.
Qed.

Lemma contains_self (s : str) : contains s s = true.
Proof. apply contains_spec. exists [], []. now rewrite app_nil_r. Qed.

(** X10.  Whatever [str.lower] does to the letters of the two texts, the
    search box never leaves the selection empty while there are candidates:
    with nothing typed, or nothing matching, all candidates stay.
    Otherwise exactly the candidates whose lower-case text contains the
    lower-case text typed stay, in their order; a candidate typed in full
    is among them. *)
Theorem search_candidates_fallback
  (str_lower : str -> str) (names : list str) (search_query : str) :
  let search := search_candidates str_lower in
  (forall n, In n (search names search_query) -> In n names)
  /\ (search names search_query = [] <-> names = [])
  /\ search names [] = names
  /\ (forall n, search_query <> [] -> In n names ->
        contains (str_lower search_query) (str_lower n) = true ->
        search names search_query
        = filter (fun n => contains (str_lower search_query) (str_lower n))
            names)
  /\ ((forall n, In n names ->
         contains (str_lower search_query) (str_lower n) = false) ->
      search names search_query = names)
  /\ (search_query <> [] -> In search_query names ->
      In search_query (search names search_query))
  /\ (StronglySorted str_le names ->
      StronglySorted str_le (search names search_query))
  /\ (NoDup names -> NoDup (search names search_query)).
Proof.
  unfold search_candidates. cbv zeta.
  set (hit := fun n => contains (str_lower search_query) (str_lower n)).
  assert (M : forall n, In n names -> hit n = true ->
                        is_nil (filter hit names) = false).
  { intros n Hin Hh.
    destruct (filter hit names) eqn:E; [|reflexivity].
    assert (F : In n (filter hit names)) by (apply filter_In; now split).
    rewrite E in F. destruct F. }
  split; [|split; [|split; [|split; [|split; [|split; [|split]]]]]].
  - intros n. destruct (negb (is_nil search_query)); [|trivial].
    destruct (is_nil (filter hit names)); [trivial|].
    intros H. now apply filter_In in H.
  - destruct (negb (is_nil search_query)); [|reflexivity].
    destruct (filter hit names) as [|x l] eqn:E; cbn [is_nil].
    + reflexivity.
    + split; [discriminate|]. intros ->. discriminate E.
  - reflexivity.
  - intros n Hq Hin Hh.
    destruct search_query; [contradiction|]. cbn [is_nil negb].
    now rewrite (M n Hin Hh).
  - intros Hno. destruct (negb (is_nil search_query)); [|reflexivity].
    rewrite filter_none_in; [reflexivity | exact Hno].
  - intros Hq Hin.
    assert (Hh : hit search_query = true) by apply contains_self.
    destruct search_query as [|c q] eqn:Eq; [contradiction|].
    cbn [is_nil negb]. rewrite <- Eq in *.
    rewrite (M search_query Hin Hh). apply filter_In. now split.
  - intros Hs. destruct (negb (is_nil search_query)); [|exact Hs].
    destruct (is_nil (filter hit names)); [exact Hs|].
    now apply filter_sorted.
  - intros Hn. destruct (negb (is_nil search_query)); [|exact Hn].
    destruct (is_nil (filter hit names)); [exact Hn|].
    now apply NoDup_filter.
Qed.

Lemma search_candidates_fallback_witness :
  search_candidates lower [u "Kim"; u "Lee"; u "kim min"] (u "KIM")
  = [u "Kim"; u "kim min"]
  /\ search_candidates lower [u "Kim"; u "Lee"] (u "Park")
     = [u "Kim"; u "Lee"]
  /\ In (u "Kim") (search_candidates lower [u "Kim"; u "Lee"] (u "Kim")).
Proof.
  split; [|split].
  - apply (proj1 (proj2 (proj2 (proj2
             (search_candidates_fallback lower [u "Kim"; u "Lee"; u "kim min"]
                (u "KIM"))))) (u "Kim")).
    + discriminate.
    + left. reflexivity.
    + vm_compute. reflexivity.
  - apply (proj1 (proj2 (proj2 (proj2 (proj2
             (search_candidates_fallback lower [u "Kim"; u "Lee"]
                (u "Park"))))))).
    intros n Hn. cbn [In] in Hn.
    destruct Hn as [<- | [<- | []]]; vm_compute; reflexivity.
  - apply (proj1 (proj2 (proj2 (proj2 (proj2 (proj2
             (search_candidates_fallback lower [u "Kim"; u "Lee"]
                (u "Kim")))))))).
    + discriminate.
    + left. reflexivity.
Defined.

Example search_candidates_samples :
  search_candidates lower [u "Kim"; u "Lee"; u "kim min"] (u "KIM")
  = [u "Kim"; u "kim min"]
  /\ search_candidates lower [u "Kim"; u "Lee"] (u "Park")
     = [u "Kim"; u "Lee"].
Proof. vm_compute. split; reflexivity. Qed.

(** ** The candidate list as a set *)

Lemma sorted_unique_eq (l1 l2 : list str) :
  StronglySorted str_le l1 -> StronglySorted str_le l2 ->
  NoDup l1 -> NoDup l2 ->
  (forall x, In x l1 <-> In x l2) -> l1 = l2.
Proof.
  revert l2. induction l1 as [|a l1 IH]; intros l2 S1 S2 N1 N2 H.
  - destruct l2 as [|b l2]; [reflexivity|].
    exfalso. apply (H b). now left.
  - destruct l2 as [|b l2].
    + exfalso. apply (H a). now left.
    + apply StronglySorted_inv in S1, S2.
      destruct S1 as [S1 A1], S2 as [S2 A2].
      apply NoDup_cons_iff in N1, N2.
      destruct N1 as [Na N1], N2 as [Nb N2].
      rewrite Forall_forall in A1, A2.
      assert (E : a = b).
      { assert (Ha : In a (b :: l2)) by (apply H; now left).
        assert (Hb : In b (a :: l1)) by (apply H; now left).
        destruct Ha as [Ha | Ha]; [now symmetry|].
        destruct Hb as [Hb | Hb]; [exact Hb|].
        apply str_leb_antisym; [now apply A1 | now apply A2]. }
      subst b. f_equal. apply IH; try assumption.
      intros x. split; intros Hx.
      * assert (F : In x (a :: l2)) by (apply H; now right).
        destruct F as [<- | F]; [contradiction | exact F].
      * assert (F : In x (a :: l1)) by (apply H; now right).
        destruct F as [<- | F]; [contradiction | exact F].
Qed.

(** X11.  The candidate list depends on the gathered strings as a set only:
    two gatherings with the same strings, in whatever order, columns and
    number of repetitions, give the same list; and a list that is gathered
    again gives itself. *)
Theorem build_candidates_set (l1 l2 : list (list str)) :
  (forall x, In x (List.concat l1) <-> In x (List.concat l2)) ->
  build_candidates l1 = build_candidates l2
  /\ build_candidates [build_candidates l1] = build_candidates l1.
Proof.
  intros H.
  destruct (build_candidates_spec l1) as [S1 [N1 M1]].
  destruct (build_candidates_spec l2) as [S2 [N2 M2]].
  destruct (build_candidates_spec [build_candidates l1]) as [S3 [N3 M3]].
  split.
  - apply sorted_unique_eq; try assumption.
    intros x. rewrite M1, M2, H. reflexivity.
  - apply sorted_unique_eq; try assumption.
    intros x. rewrite M3. cbn [List.concat]. rewrite app_nil_r, M1. tauto.
Qed.

Lemma build_candidates_set_witness :
  build_candidates [[u "Lee"; u "Kim"]; [u "Kim"]]
  = build_candidates [[u "Kim"]; [u "Lee"; u "Lee"]].
Proof.
  apply (build_candidates_set [[u "Lee"; u "Kim"]; [u "Kim"]]
           [[u "Kim"]; [u "Lee"; u "Lee"]]).
  intros x. cbn [List.concat app In]. tauto.
Defined.

(** ** From a candidate to its rows *)

Lemma select_eq_rows (df : DataFrame) (c s : str) :
  select_eq df c s = {| columns := columns df; data := rows_of df c s |}.
Proof.
  unfold select_eq, mask_rows, eq_str. rewrite col_cells, map_map.
  now rewrite filter_mask.
Qed.

Lemma gather_keeps (l : list (list str)) (df : DataFrame) (c x : str) :
  In x (List.concat l) -> In x (List.concat (gather l df c)).
Proof.
  intros H. unfold gather. destruct (has_column df c); [|exact H].
  rewrite concat_app. apply in_or_app. now left.
Qed.

Lemma gather_adds (l : list (list str)) (df : DataFrame) (c : str) (v : value) :
  has_column df c = true -> In v (col df c) -> isna v = false ->
  In (py_str v) (List.concat (gather l df c)).
Proof.
  intros Hc Hv Hn. unfold gather. rewrite Hc, concat_app.
  apply in_or_app. right. cbn [List.concat]. rewrite app_nil_r.
  unfold astype_str. apply in_map. unfold dropna. apply filter_In.
  split; [exact Hv | now rewrite Hn].
Qed.

Lemma col_in_row (df : DataFrame) (c : str) (v : value) :
  In v (col df c) -> exists r, In r (data df) /\ cell df r c = v.
Proof.
  rewrite col_cells. intros H. apply in_map_iff in H.
  destruct H as [r [E Hr]]. now exists r.
Qed.

Lemma has_column_not_empty (df : DataFrame) (c : str) (rs : list (list value)) :
  has_column df c = true -> rs <> [] ->
  empty {| columns := columns df; data := rs |} = false.
Proof.
  unfold has_column, empty. cbn [columns data]. intros Hc Hr.
  destruct (columns df); [discriminate Hc|]. now destruct rs.
Qed.

Lemma rows_of_found (df : DataFrame) (c s : str) :
  In (VStr s) (col df c) -> rows_of df c s <> [].
Proof.
  intros H. apply col_in_row in H. destruct H as [r [Hr Hc]].
  assert (F : In r (rows_of df c s)).
  { unfold rows_of. apply filter_In. split; [exact Hr|].
    rewrite Hc. apply str_eqb_refl. }
  intros E. rewrite E in F. destruct F.
Qed.

Lemma strip_head_nonspace (c : N) (t : str) :
  isspace c = false -> strip (c :: t) <> [].
Proof.
  intros H. unfold strip. cbn [lstrip]. rewrite H.
  change (c :: t) with ([] ++ c :: t).
  rewrite rstrip_app_nonspace by exact H. discriminate.
Qed.

(** X12.  An employee name that stands as a non-blank string in the name
    column of the income table is among the candidates, and its income
    block finds its rows: the rows whose name cell is that string, at least
    one.  The block shows the sums of the settlement and of the two taxes
    over these rows and their number when the table has the three amount
    columns, and raises [KeyError] when one is missing. *)
Theorem emp_income_panel_found
  (df_emp df_led df_inv : DataFrame) (s : str) :
  has_column df_emp (u "직원명") = true ->
  In (VStr s) (col df_emp (u "직원명")) ->
  strip s <> [] ->
  let rows := rows_of df_emp (u "직원명") s in
  In s (names df_emp df_led df_inv)
  /\ (1 <= List.length rows)%nat
  /\ emp_income_panel df_emp s
     = if has_column df_emp (u "정산입금액") && has_column df_emp (u "소득세")
          && has_column df_emp (u "주민세")
       then Some (Metrics (sum_of df_emp (u "정산입금액") rows,
                           (sum_of df_emp (u "소득세") rows
                            + sum_of df_emp (u "주민세") rows)%Z,
                           List.length rows))
       else None.
Proof.
  intros Hc Hin Hs rows. subst rows.
  pose proof (rows_of_found df_emp (u "직원명") s Hin) as Hr.
  split; [|split].
  - unfold names. cbv zeta. apply build_candidates_spec.
    split; [|exact Hs].
    do 3 apply gather_keeps.
    exact (gather_adds [] df_emp (u "직원명") (VStr s) Hc Hin eq_refl).
  - destruct (rows_of df_emp (u "직원명") s); [contradiction | cbn; lia].
  - unfold emp_income_panel. rewrite Hc, select_eq_rows.
    rewrite (has_column_not_empty df_emp (u "직원명") _ Hc Hr).
    unfold getitem.
    change (has_column {| columns := columns df_emp;
                          data := rows_of df_emp (u "직원명") s |} ?c)
      with (has_column df_emp c).
    destruct (has_column df_emp (u "정산입금액")); cbn [bind andb];
      [|reflexivity].
    rewrite clean_col. cbn [bind].
    destruct (has_column df_emp (u "소득세")); cbn [bind andb];
      [|reflexivity].
    rewrite clean_col. cbn [bind].
    destruct (has_column df_emp (u "주민세")); cbn [bind andb];
      [|reflexivity].
    rewrite clean_col. reflexivity.
Qed.

Lemma emp_income_panel_found_witness :
  In (u "Kim") (names sample_emp sample_none sample_none).
Proof.
  apply (emp_income_panel_found sample_emp sample_none sample_none (u "Kim")).
  - vm_compute. reflexivity.
  - vm_compute. left. reflexivity.
  - vm_compute. discriminate.
Defined.

Example sample_income_panel :
  emp_income_panel sample_emp (u "Kim") = None
  /\ emp_income_panel
       {| columns := [u "직원명"; u "정산입금액"; u "소득세"; u "주민세"];
          data := [ [VStr (u "Kim"); VInt 100000; VInt 3000; VInt 300];
                    [VStr (u "Lee"); VInt 50000; VInt 1500; VInt 150];
                    [VStr (u "Kim"); VStr (u "200,000"); VInt 6000; VNull] ] |}
       (u "Kim")
     = Some (Metrics (300000, 9300, 2%nat))%Z.
Proof. vm_compute. split; reflexivity. Qed.

(** ** Candidates that find nothing *)

Lemma str_of_int_head (z : Z) :
  exists c t, str_of_int z = c :: t /\ isspace c = false.
Proof.
  assert (D : forall d, uint_str d <> [] ->
                        exists c t, uint_str d = c :: t /\ isspace c = false).
  { intros d Hd. destruct d; try contradiction;
      cbn [uint_str]; eexists; eexists; (split; [reflexivity|]);
      vm_compute; reflexivity. }
  unfold str_of_int. destruct z as [|p|p]; cbn [Z.to_int].
  - exists 0x30%N, []. split; reflexivity.
  - apply D, uint_str_pos.
  - exists 0x2D%N, (uint_str (Pos.to_uint p)). split; reflexivity.
Qed.

Lemma rows_of_none (df : DataFrame) (c s : str) :
  (forall x, In (VStr x) (col df c) -> x <> s) -> rows_of df c s = [].
Proof.
  intros H. unfold rows_of. apply filter_none_in. intros r Hr.
  destruct (cell df r c) as [| |x|] eqn:E; try reflexivity.
  apply str_eqb_neq. apply H. rewrite col_cells. apply in_map_iff.
  exists r. split; [exact E | exact Hr].
Qed.

(** X13.  A vehicle number that its sheet holds as a number is among the
    candidates, as the text of the number, and the purchase block finds no
    row for it: the block compares the selected text with the cells
    themselves, and a number is not a string.  Unless the same text stands
    as a string in another row, the page says there is no purchase data. *)
Theorem car_purchase_panel_number
  (df_pur df_led df_inv : DataFrame) (z : Z) :
  has_column df_pur (u "차량번호") = true ->
  In (VInt z) (col df_pur (u "차량번호")) ->
  (forall x, In (VStr x) (col df_pur (u "차량번호")) -> x <> str_of_int z) ->
  In (str_of_int z) (car_nums df_pur df_led df_inv)
  /\ car_purchase_panel df_pur (str_of_int z)
     = Some (Info (u "매입 데이터가 없습니다.")).
Proof.
  intros Hc Hin Hno. split.
  - unfold car_nums. cbv zeta. apply build_candidates_spec. split.
    + do 2 apply gather_keeps.
      exact (gather_adds [] df_pur (u "차량번호") (VInt z) Hc Hin eq_refl).
    + destruct (str_of_int_head z) as [c [t [-> Hs]]].
      now apply strip_head_nonspace.
  - unfold car_purchase_panel. rewrite Hc, select_eq_rows.
    rewrite (rows_of_none df_pur (u "차량번호") (str_of_int z) Hno).
    unfold empty. cbn [columns data is_nil]. now rewrite orb_true_r.
Qed.

Lemma car_purchase_panel_number_witness :
  In (str_of_int 7890) (car_nums sample_pur sample_none sample_none)
  /\ car_purchase_panel sample_pur (str_of_int 7890)
     = Some (Info (u "매입 데이터가 없습니다.")).
Proof.
  apply (car_purchase_panel_number sample_pur sample_none sample_none 7890).
  - vm_compute. reflexivity.
  - vm_compute. right. left. reflexivity.
  - intros x Hx. vm_compute in Hx.
    destruct Hx as [Hx | [Hx | []]]; [|discriminate Hx].
    injection Hx as <-. vm_compute. discriminate.
Defined.

Example sample_car_panels :
  car_nums sample_pur sample_none sample_none = [u "12가3456"; u "7890"]
  /\ car_purchase_panel sample_pur (u "12가3456") = Some (Metrics 5000000%Z)
  /\ car_purchase_panel sample_pur (u "7890")
     = Some (Info (u "매입 데이터가 없습니다.")).
Proof. vm_compute. repeat split; reflexivity. Qed.

(** X14.  The candidates of the employee search are gathered from the
    related-employee column of the ledger whether or not the ledger has a
    manager column, but the ledger block looks for rows only when it has
    one: in a ledger without a manager column an employee named as related
    is a candidate whose ledger block is always empty. *)
Theorem emp_ledger_rows_without_manager
  (df_emp df_led df_inv : DataFrame) (s : str) :
  has_column df_led (u "담당자") = false ->
  has_column df_led (u "관련직원명") = true ->
  In (VStr s) (col df_led (u "관련직원명")) ->
  strip s <> [] ->
  In s (names df_emp df_led df_inv)
  /\ forall selected_name,
       empty (emp_ledger_rows df_led selected_name) = true.
Proof.
  intros Hm Hr Hin Hs. split.
  - unfold names. cbv zeta. apply build_candidates_spec.
    split; [|exact Hs].
    apply gather_keeps.
    exact (gather_adds _ df_led (u "관련직원명") (VStr s) Hr Hin eq_refl).
  - intros selected_name. unfold emp_ledger_rows. now rewrite Hm.
Qed.

Lemma emp_ledger_rows_without_manager_witness :
  In (u "Kim") (names sample_none sample_led_related sample_none)
  /\ forall selected_name,
       empty (emp_ledger_rows sample_led_related selected_name) = true.
Proof.
  apply (emp_ledger_rows_without_manager sample_none sample_led_related
           sample_none (u "Kim")).
  - vm_compute. reflexivity.
  - vm_compute. reflexivity.
  - vm_compute. left. reflexivity.
  - vm_compute. discriminate.
Defined.

(** ** Rows without a description *)

Lemma row_get_missing (row : Series) (key : str) (d : value) :
  (forall kv, In kv row -> fst kv <> key) -> row_get row key d = d.
Proof.
  intros H. unfold row_get.
  destruct (find (fun kv => str_eqb (fst kv) key) row) as [kv|] eqn:E;
    [|reflexivity].
  apply find_some in E. destruct E as [Hin E]. apply str_eqb_eq in E.
  now elim (H kv Hin).
Qed.

(** X7.  A ledger row that has no description column, or a missing or
    empty description, is classified by its account label alone:
    [차량매입] when the label has [차대] or [상사이전], [기타] otherwise.
    A row that has no account column either is [기타]. *)
Theorem categorize_ledger_row_no_description (row : Series) :
  ((forall kv, In kv row -> fst kv <> u "내용")
   \/ row_get row (u "내용") (VStr (u "")) = VNull
   \/ row_get row (u "내용") (VStr (u "")) = VStr (u "") ->
   categorize_ledger_row row
   = if contains (u "차대") (row_account row)
        || contains (u "상사이전") (row_account row)
     then u "차량매입" else u "기타")
  /\ ((forall kv, In kv row ->
         fst kv <> u "내용" /\ fst kv <> u ""
         /\ contains (u "계정") (fst kv) = false) ->
      categorize_ledger_row row = u "기타").
Proof.
  assert (D : row_desc row = u "" \/ row_desc row = u "nan" ->
              categorize_ledger_row row
              = if contains (u "차대") (row_account row)
                   || contains (u "상사이전") (row_account row)
                then u "차량매입" else u "기타").
  { intros H. rewrite categorize_ledger_row_rules.
    unfold RULES, field_test. cbn [first_match existsb map fst snd].
    destruct (contains (u "차대") (row_account row));
      destruct (contains (u "상사이전") (row_account row));
      destruct H as [-> | ->]; vm_compute; reflexivity. }
  split.
  - intros [H | [H | H]]; apply D.
    + left. unfold row_desc. now rewrite row_get_missing.
    + right. unfold row_desc. now rewrite H.
    + left. unfold row_desc. now rewrite H.
  - intros H. rewrite D.
    + assert (A : row_account row = u "").
      { unfold row_account.
        destruct (find (fun c => contains (u "계정") c) (map fst row))
          as [c|] eqn:E.
        - apply find_some in E. destruct E as [Hin E].
          apply in_map_iff in Hin. destruct Hin as [kv [<- Hin]].
          destruct (H kv Hin) as [_ [_ F]]. congruence.
        - rewrite row_get_missing; [reflexivity|].
          intros kv Hin. now apply H. }
      rewrite A. vm_compute. reflexivity.
    + left. unfold row_desc. rewrite row_get_missing; [reflexivity|].
      intros kv Hin. now apply H.
Qed.

Lemma categorize_ledger_row_no_description_witness :
  categorize_ledger_row [(u "계정", VStr (u "상사이전")); (u "입금", VInt 5)]
  = if contains (u "차대")
         (row_account [(u "계정", VStr (u "상사이전")); (u "입금", VInt 5)])
       || contains (u "상사이전")
            (row_account [(u "계정", VStr (u "상사이전")); (u "입금", VInt 5)])
    then u "차량매입" else u "기타".
Proof.
  apply (proj1 (categorize_ledger_row_no_description
                  [(u "계정", VStr (u "상사이전")); (u "입금", VInt 5)])).
  left. intros kv [<- | [<- | []]]; vm_compute; discriminate.
Defined.

(** ** Legacy files without their date column *)

Lemma has_column_rename_one (df : DataFrame) (a b c : str) :
  c <> a -> c <> b ->
  has_column (rename df [(a, b)]) c = has_column df c.
Proof.
  intros Ha Hb. unfold has_column, rename. cbn [columns].
  induction (columns df) as [|x l IH]; [reflexivity|].
  cbn [map existsb]. rewrite IH. f_equal.
  cbn [find fst]. destruct (str_eqb a x) eqn:E; cbn [snd].
  - apply str_eqb_eq in E. subst x.
    replace (str_eqb c b) with false by (symmetry; now apply str_eqb_neq).
    symmetry. now apply str_eqb_neq.
  - reflexivity.
Qed.

(** X15.  Without the workbook, a legacy purchase file that has no
    acquisition-date column, or a legacy ledger that has no date column, is
    loaded as a table without rows, whatever rows the file has: the
    [KeyError] is caught with every other failure of the reading.  The
    tables are returned all the same. *)
Theorem load_data_legacy_without_date
  (to_datetime : list value -> list (option Timestamp)) (fs : FileSystem)
  (master_path : str) :
  os_path_exists fs master_path = false ->
  os_path_exists fs (FILE_PATHS "income") = true ->
  exists t,
    load_data to_datetime fs master_path = Some t
    /\ (forall temp,
          pd_read_excel fs (FILE_PATHS "purchase") None 8 = Some temp ->
          has_column (drop_unnamed temp) (u "취득일자") = false ->
          pur t = {| columns := [u "기준년월"]; data := [] |})
    /\ (forall temp,
          pd_read_excel fs (FILE_PATHS "ledger") (Some (u "장부")) 2
          = Some temp ->
          has_column (drop_unnamed temp) (u "일자") = false ->
          led t = {| columns := [u "기준년월"]; data := [] |}).
Proof.
  intros Hm Hi. eexists. split; [now apply load_data_legacy|]. split.
  - intros temp Hr Hc. cbn [pur].
    assert (E : load_legacy_pur to_datetime fs = DataFrame_new []).
    { unfold load_legacy_pur. rewrite Hr. cbn [bind].
      unfold getitem. now rewrite Hc. }
    rewrite E. vm_compute. reflexivity.
  - intros temp Hr Hc. cbn [led].
    assert (E : load_legacy_led to_datetime fs = DataFrame_new []).
    { unfold load_legacy_led. rewrite Hr. cbn [bind].
      unfold getitem.
      rewrite has_column_rename_one, Hc; [reflexivity | |];
        intros F; vm_compute in F; discriminate F. }
    rewrite E. vm_compute. reflexivity.
Qed.

Lemma load_data_legacy_without_date_witness :
  exists t,
    load_data iso_to_datetime sample_fs_no_date (u "amotors_master_data.xlsx")
    = Some t
    /\ pur t = {| columns := [u "기준년월"]; data := [] |}.
Proof.
  destruct (load_data_legacy_without_date iso_to_datetime sample_fs_no_date
              (u "amotors_master_data.xlsx") eq_refl eq_refl)
    as [t [H1 [H2 _]]].
  exists t. split; [exact H1|].
  apply (H2 {| columns := [u "차량번호"; u "매입가액"];
               data := [[VStr (u "12가3456"); VInt 500]] |});
    vm_compute; reflexivity.
Defined.

(** ** What the common steps keep *)

Section Keeping.

Variable to_datetime : list value -> list (option Timestamp).
Hypothesis to_datetime_length :
  forall series, List.length (to_datetime series) = List.length series.

Lemma normalize_ym_length (series : list value) :
  List.length (normalize_ym to_datetime series) = List.length series.
Proof.
  rewrite normalize_ym_cells by apply to_datetime_length.
  rewrite map2_length; [apply to_datetime_length|].
  symmetry. apply to_datetime_length.
Qed.

Lemma col_length (df : DataFrame) (c : str) :
  List.length (col df c) = List.length (data df).
Proof. unfold col. apply length_map. Qed.

Lemma standardize_ym_keeps (df : DataFrame) :
  rectangular df ->
  rectangular (standardize_ym to_datetime df)
  /\ List.length (data (standardize_ym to_datetime df))
     = List.length (data df)
  /\ (forall c, has_column df c = true ->
                has_column (standardize_ym to_datetime df) c = true)
  /\ (forall c, c <> u "기준년월" ->
                col (standardize_ym to_datetime df) c = col df c)
  /\ (has_column df (u "기준년월(YYYY-MM)") = true ->
      col (standardize_ym to_datetime df) (u "기준년월")
      = normalize_ym to_datetime (col df (u "기준년월(YYYY-MM)"))).
Proof.
  intros Hr. unfold standardize_ym.
  destruct (has_column df (u "기준년월(YYYY-MM)")) eqn:Hy.
  - assert (Hl : List.length
                   (normalize_ym to_datetime (col df (u "기준년월(YYYY-MM)")))
                 = List.length (data df)).
    { now rewrite normalize_ym_length, col_length. }
    destruct (set_column_spec df (u "기준년월") _ Hr Hl)
      as [S1 [S2 [S3 [S4 S5]]]].
    split; [exact S1|]. split; [exact S2|]. split; [|split].
    + intros c Hc. now rewrite S5, Hc.
    + exact S4.
    + intros _. exact S3.
  - destruct (has_column df (u "기준년월")) eqn:Hp; cbn [negb].
    + split; [exact Hr|]. split; [reflexivity|]. split; [auto|].
      split; [reflexivity | discriminate].
    + unfold set_column_scalar.
      assert (Hl : List.length (repeat (VStr (u "")) (List.length (data df)))
                   = List.length (data df)) by apply repeat_length.
      destruct (set_column_spec df (u "기준년월") _ Hr Hl)
        as [S1 [S2 [S3 [S4 S5]]]].
      split; [exact S1|]. split; [exact S2|]. split; [|split].
      * intros c Hc. now rewrite S5, Hc.
      * exact S4.
      * discriminate.
Qed.

Lemma standardize_dates_same (cols : list str) (df : DataFrame) :
  rectangular df ->
  rectangular (standardize_dates to_datetime df cols)
  /\ List.length (data (standardize_dates to_datetime df cols))
     = List.length (data df)
  /\ (forall c, has_column (standardize_dates to_datetime df cols) c
                = has_column df c)
  /\ (forall c, ~ In c cols ->
                col (standardize_dates to_datetime df cols) c = col df c).
Proof.
  unfold standardize_dates. revert df.
  induction cols as [|d cols IH]; intros df Hr; cbn [fold_left].
  - split; [exact Hr|]. split; [reflexivity|]. split; reflexivity.
  - destruct (has_column df d) eqn:Hd.
    + assert (Hl : List.length (dt_date (to_datetime (col df d)))
                   = List.length (data df)).
      { unfold dt_date. now rewrite length_map, to_datetime_length, col_length. }
      destruct (set_column_spec df d _ Hr Hl) as [S1 [S2 [S3 [S4 S5]]]].
      destruct (IH _ S1) as [I1 [I2 [I3 I4]]].
      split; [exact I1|]. split; [congruence|]. split.
      * intros c. rewrite I3, S5.
        destruct (str_eqb c d) eqn:E; [|now rewrite orb_false_r].
        apply str_eqb_eq in E. subst c. now rewrite Hd.
      * intros c Hc. rewrite I4 by (intros F; apply Hc; now right).
        apply S4. intros ->. apply Hc. now left.
    + destruct (IH _ Hr) as [I1 [I2 [I3 I4]]].
      split; [exact I1|]. split; [exact I2|]. split; [exact I3|].
      intros c Hc. apply I4. intros F. apply Hc. now right.
Qed.

Lemma standardize_kept (df : DataFrame) (cols : list str) :
  rectangular df -> ~ In (u "기준년월") cols ->
  kept df (standardize_dates to_datetime (standardize_ym to_datetime df) cols)
    cols
  /\ (has_column df (u "기준년월(YYYY-MM)") = true ->
      col (standardize_dates to_datetime (standardize_ym to_datetime df) cols)
        (u "기준년월")
      = normalize_ym to_datetime (col df (u "기준년월(YYYY-MM)"))).
Proof.
  intros Hr Hp.
  destruct (standardize_ym_keeps df Hr) as [Y1 [Y2 [Y3 [Y4 Y5]]]].
  destruct (standardize_dates_same cols _ Y1) as [D1 [D2 [D3 D4]]].
  split.
  - unfold kept. split; [exact D1|]. split; [congruence|]. split; [|split].
    + intros c Hc. rewrite D3. now apply Y3.
    + rewrite D3. apply standardize_ym_period.
    + intros c Hc Hn. rewrite (D4 c Hn). now apply Y4.
  - intros Hy. rewrite (D4 _ Hp). now apply Y5.
Qed.

End Keeping.

(** X16.  When the workbook opens and its five sheets parse, the loader
    returns five tables, each with the rows of its sheet, as many and whole,
    with every column of the sheet and with the period column; a column that
    is neither the period column nor one of the date columns of the table
    keeps its cells; and when the sheet has the column [기준년월(YYYY-MM)],
    the period column of the ledger is that column as [normalize_ym] makes
    it.  [pd.to_datetime] is taken to give one reading per cell, and the
    sheets to have whole rows. *)
Theorem load_data_workbook_kept
  (to_datetime : list value -> list (option Timestamp)) (fs : FileSystem)
  (master_path : str) (xls : str -> option DataFrame)
  (df_emp df_pur df_led df_inv df_month : DataFrame) :
  (forall series, List.length (to_datetime series) = List.length series) ->
  os_path_exists fs master_path = true ->
  pd_ExcelFile fs master_path = Some xls ->
  xls (u "1_직원소득") = Some df_emp ->
  xls (u "2_차량매입") = Some df_pur ->
  xls (u "3_장부") = Some df_led ->
  xls (u "4_차량상품화") = Some df_inv ->
  xls (u "5_월별결산") = Some df_month ->
  rectangular df_emp -> rectangular df_pur -> rectangular df_led ->
  rectangular df_inv -> rectangular df_month ->
  exists t,
    load_data to_datetime fs master_path = Some t
    /\ kept df_emp (emp t) [u "지급일자"]
    /\ kept df_pur (pur t) [u "취득일자"]
    /\ kept df_led (led t) [u "일자"]
    /\ kept df_inv (inv t) [u "입고일자"; u "상품화완료일자"]
    /\ kept df_month (month t) []
    /\ (has_column df_led (u "기준년월(YYYY-MM)") = true ->
        col (led t) (u "기준년월")
        = normalize_ym to_datetime (col df_led (u "기준년월(YYYY-MM)"))).
Proof.
  intros Ht Hm Hx H1 H2 H3 H4 H5 R1 R2 R3 R4 R5.
  assert (N : forall cols, forallb (fun c => negb (str_eqb (u "기준년월") c))
                             cols = true -> ~ In (u "기준년월") cols).
  { intros cols F Hin. rewrite forallb_forall in F.
    specialize (F _ Hin). now rewrite str_eqb_refl in F. }
  eexists. split.
  { unfold load_data. rewrite Hm, Hx. cbn [bind].
    rewrite H1, H2, H3, H4, H5. cbn [bind emp pur led inv month].
    reflexivity. }
  split; [apply (standardize_kept to_datetime Ht df_emp); [exact R1 | now apply N]|].
  split; [apply (standardize_kept to_datetime Ht df_pur); [exact R2 | now apply N]|].
  split; [apply (standardize_kept to_datetime Ht df_led); [exact R3 | now apply N]|].
  split; [apply (standardize_kept to_datetime Ht df_inv); [exact R4 | now apply N]|].
  split.
  - exact (proj1 (standardize_kept to_datetime Ht df_month [] R5
                    (fun F => match F with end))).
  - apply (standardize_kept to_datetime Ht df_led); [exact R3 | now apply N].
Qed.

Ltac whole_rows :=
  let r := fresh "r" in
  let Hin := fresh "Hin" in
  intros r Hin; vm_compute in Hin;
  repeat (destruct Hin as [<- | Hin]; [reflexivity|]); destruct Hin.

Lemma load_data_workbook_kept_witness :
  exists t,
    load_data iso_to_datetime sample_fs_workbook (u "amotors_master_data.xlsx")
    = Some t
    /\ kept sample_led_sheet (led t) [u "일자"]
    /\ col (led t) (u "기준년월") = [VStr (u "2024-05")].
Proof.
  destruct (load_data_workbook_kept iso_to_datetime sample_fs_workbook
              (u "amotors_master_data.xlsx") sample_sheets
              sample_emp sample_emp sample_led_sheet sample_emp sample_emp)
    as [t [H1 [_ [_ [H2 [_ [_ H3]]]]]]];
    try reflexivity; try whole_rows.
  - intros series. unfold iso_to_datetime. apply length_map.
  - exists t. split; [exact H1|]. split; [exact H2|].
    rewrite H3 by reflexivity. vm_compute. reflexivity.
Defined.

(** ** The income type of a legacy file *)

Lemma mask_length {A B : Type} (mask : list bool) (xs : list A) (ys : list B) :
  List.length xs = List.length ys ->
  List.length (map snd (filter fst (combine mask xs)))
  = List.length (map snd (filter fst (combine mask ys))).
Proof.
  revert xs ys. induction mask as [|m mask IH]; intros [|x xs] [|y ys] H;
    try discriminate H; try reflexivity.
  injection H as H. cbn [combine filter fst].
  destruct m; cbn [map List.length]; now rewrite (IH xs ys H).
Qed.

Lemma mask_columns_rectangular (df : DataFrame) (mask : list bool) :
  rectangular df -> rectangular (mask_columns df mask).
Proof.
  intros Hr r Hin. unfold mask_columns in *. cbn [data columns] in *.
  apply in_map_iff in Hin. destruct Hin as [x [<- Hx]].
  apply mask_length. now apply Hr.
Qed.

Lemma mask_columns_has (df : DataFrame) (mask : list bool) (c : str) :
  has_column (mask_columns df mask) c = true -> has_column df c = true.
Proof.
  unfold has_column, mask_columns. cbn [columns].
  rewrite !existsb_exists. intros [x [Hx E]]. exists x. split; [|exact E].
  apply in_map_iff in Hx. destruct Hx as [[m y] [<- Hy]].
  apply filter_In in Hy. destruct Hy as [Hy _].
  now apply in_combine_r in Hy.
Qed.

Lemma rename_has (df : DataFrame) (mapping : list (str * str)) (c : str) :
  (forall kv, In kv mapping -> snd kv <> c) ->
  has_column (rename df mapping) c = true -> has_column df c = true.
Proof.
  intros Hm. unfold has_column, rename. cbn [columns].
  rewrite !existsb_exists. intros [x [Hx E]].
  apply str_eqb_eq in E. subst x.
  apply in_map_iff in Hx. destruct Hx as [y [Hy Hin]].
  exists c. split; [|apply str_eqb_refl].
  destruct (find (fun kv => str_eqb (fst kv) y) mapping) as [kv|] eqn:F.
  - apply find_some in F. destruct F as [Hk _]. now elim (Hm kv Hk).
  - now subst y.
Qed.

Lemma rename_rectangular (df : DataFrame) (mapping : list (str * str)) :
  rectangular df -> rectangular (rename df mapping).
Proof.
  intros Hr r Hin. unfold rename in *. cbn [data columns] in *.
  rewrite length_map. now apply Hr.
Qed.

Lemma col_all (df : DataFrame) (c : str) (v : value) :
  (forall x, In x (col df c) -> x = v) ->
  forall r, In r (data df) -> cell df r c = v.
Proof.
  intros H r Hr. apply H. rewrite col_cells.
  exact (in_map (fun r => cell df r c) (data df) r Hr).
Qed.

(** X17.  Without the workbook, an income file of the legacy folder that
    has no income-type column is loaded with that column holding [직원] in
    every row, so that the summary counts every row of the period of such a
    file for the labour amount: none is left out as external.
    [pd.to_datetime] is taken to give one reading per cell, and the file to
    have whole rows. *)
Theorem load_data_legacy_income_type
  (to_datetime : list value -> list (option Timestamp)) (fs : FileSystem)
  (master_path : str) (temp : DataFrame) :
  (forall series, List.length (to_datetime series) = List.length series) ->
  os_path_exists fs master_path = false ->
  os_path_exists fs (FILE_PATHS "income") = true ->
  pd_read_excel fs (FILE_PATHS "income") None 7 = Some temp ->
  rectangular temp ->
  has_column temp (u "소득구분(고정/변동/퇴사 등)") = false ->
  exists t,
    load_data to_datetime fs master_path = Some t
    /\ List.length (data (emp t)) = List.length (data temp)
    /\ (forall r, In r (data (emp t)) ->
          cell (emp t) r (u "소득구분(고정/변동/퇴사 등)") = VStr (u "직원"))
    /\ forall ym, labor_rows (emp t) ym = period_rows (emp t) ym.
Proof.
  intros Ht Hm Hi Hr Hrect Hc.
  set (label := u "소득구분(고정/변동/퇴사 등)") in *.
  set (df := rename (drop_unnamed temp)
               [(u "성명", u "직원명");
                (u "귀속년월", u "기준년월(YYYY-MM)");
                (u "지급 날짜", u "지급일자")]).
  assert (Rd : rectangular df).
  { apply rename_rectangular, mask_columns_rectangular, Hrect. }
  assert (Hd : has_column df label = false).
  { apply not_true_is_false. intros F. apply rename_has in F.
    - apply mask_columns_has in F. congruence.
    - intros kv [<- | [<- | [<- | []]]]; cbn [snd]; intros E;
        vm_compute in E; discriminate E. }
  assert (E : load_legacy_emp fs = set_column_scalar df label (VStr (u "직원"))).
  { unfold load_legacy_emp. rewrite Hr. cbn [bind]. fold df. fold label.
    now rewrite Hd. }
  assert (Hl : List.length (repeat (VStr (u "직원")) (List.length (data df)))
               = List.length (data df)) by apply repeat_length.
  destruct (set_column_spec df label _ Rd Hl) as [S1 [S2 [S3 [S4 S5]]]].
  fold (set_column_scalar df label (VStr (u "직원"))) in S1, S2, S3.
  rewrite <- E in S1, S2, S3.
  destruct (standardize_kept to_datetime Ht (load_legacy_emp fs)
              [u "지급일자"] S1) as [[K1 [K2 [K3 [K4 K5]]]] _].
  { intros [F | []]. vm_compute in F. discriminate F. }
  assert (C : forall r,
             In r (data (standardize_dates to_datetime
                           (standardize_ym to_datetime (load_legacy_emp fs))
                           [u "지급일자"])) ->
             cell (standardize_dates to_datetime
                     (standardize_ym to_datetime (load_legacy_emp fs))
                     [u "지급일자"]) r label = VStr (u "직원")).
  { apply col_all. rewrite K5.
    - rewrite S3. intros x Hx. now apply repeat_spec in Hx.
    - intros F. vm_compute in F. discriminate F.
    - intros [F | []]. vm_compute in F. discriminate F. }
  eexists. split; [now apply load_data_legacy|]. cbn [emp].
  split; [|split].
  - rewrite K2, S2. unfold df, rename, drop_unnamed, mask_columns.
    cbn [data]. apply length_map.
  - exact C.
  - intros ym. unfold labor_rows, period_rows. apply filter_ext_in.
    intros r Hin. fold label. rewrite (C r Hin).
    replace (has_exclusion_keyword (py_str (VStr (u "직원")))) with false
      by (vm_compute; reflexivity).
    now rewrite andb_true_r.
Qed.

Lemma load_data_legacy_income_type_witness :
  exists t,
    load_data iso_to_datetime sample_fs_income (u "amotors_master_data.xlsx")
    = Some t
    /\ forall ym, labor_rows (emp t) ym = period_rows (emp t) ym.
Proof.
  destruct (load_data_legacy_income_type iso_to_datetime sample_fs_income
              (u "amotors_master_data.xlsx") sample_income_file)
    as [t [H1 [_ [_ H2]]]];
    try reflexivity; try whole_rows.
  - intros series. unfold iso_to_datetime. apply length_map.
  - exists t. split; [exact H1 | exact H2].
Defined.

Example sample_legacy_income :
  bind (load_data iso_to_datetime sample_fs_income
          (u "amotors_master_data.xlsx"))
    (fun t => compute_auto_month_summary (emp t) (pur t) (led t) (inv t)
                (u "2024-05"))
  = Some [labor_item (u "2024-05") 150000].
Proof. vm_compute. reflexivity. Qed.
